(** * expensify-heist-mcp: the CSV normalizer and the export orchestration

    A shallow embedding of [parser.py] and [heist.py].  Python values are
    modelled as the code has them: a [str] is its sequence of code points, a
    [Decimal] is a sign, a coefficient and an exponent (or one of the special
    values), a [csv.DictReader] row is an insertion-ordered mapping, and the
    browser automation of [heist.py] runs in a state-and-exception monad over
    the history of the commands sent to [osascript]. *)

From Stdlib Require Import List ZArith NArith Bool String Ascii Lia.
From Stdlib Require Import Permutation Sorted.
Import ListNotations.

Set Implicit Arguments.

(* ================================================================== *)
(** ** Python strings *)
(* ================================================================== *)

Module PyStr.

(** A Python [str]: the list of its Unicode code points. *)
Definition str := list N.

(** An ASCII literal of the source, as a [str]. *)
Fixpoint py (s : string) : str :=
  match s with
  | EmptyString => []
  | String a r => N_of_ascii a :: py r
  end.

Fixpoint str_eqb (a b : str) : bool :=
  match a, b with
  | [], [] => true
  | x :: a', y :: b' => (x =? y)%N && str_eqb a' b'
  | _, _ => false
  end.

(** [str.isspace] on one code point: the white space that [str.strip] and the
    [Decimal] constructor drop. *)
Definition isspace (c : N) : bool :=
  ((9 <=? c) && (c <=? 13) || (28 <=? c) && (c <=? 32)
   || (c =? 133) || (c =? 160) || (c =? 5760)
   || (8192 <=? c) && (c <=? 8202)
   || (c =? 8232) || (c =? 8233) || (c =? 8239) || (c =? 8287)
   || (c =? 12288))%N.

Fixpoint lstrip (s : str) : str :=
  match s with
  | c :: r => if isspace c then lstrip r else s
  | [] => []
  end.

Fixpoint rstrip (s : str) : str :=
  match s with
  | [] => []
  | c :: r =>
      match rstrip r with
      | [] => if isspace c then [] else [c]
      | r' => c :: r'
      end
  end.

(** [s.strip()] *)
Definition strip (s : str) : str := rstrip (lstrip s).

(** [s.replace(ch, '')] for a one-character [ch]: every [ch] goes. *)
Definition replace_char (ch : N) (s : str) : str :=
  filter (fun c => negb (c =? ch)%N) s.

(** [s.startswith(p)] and [s.endswith(p)] *)
Fixpoint startswith (p s : str) : bool :=
  match p, s with
  | [], _ => true
  | x :: p', y :: s' => (x =? y)%N && startswith p' s'
  | _ :: _, [] => false
  end.

Definition endswith (p s : str) : bool := startswith (rev p) (rev s).

(** [s[1:-1]] *)
Definition slice_1_m1 (s : str) : str := removelast (tl s).

(** [sub in s] *)
Fixpoint contains (sub s : str) : bool :=
  startswith sub s ||
  match s with
  | [] => false
  | _ :: r => contains sub r
  end.

Definition ascii_upper_letter (c : N) : bool := ((65 <=? c) && (c <=? 90))%N.

(** [str.lower] on one code point.  The table is exact on ASCII and on the two
    code points outside ASCII whose lower case contains an ASCII letter
    (U+0130 gives "i" followed by U+0307, the Kelvin sign U+212A gives "k").
    Every other cased code point lower-cases to a code point outside ASCII
    and is left as it is here: comparisons against the ASCII column names
    and tokens of the parser are not affected. *)
Definition lower_cp (c : N) : list N :=
  if ascii_upper_letter c then [(c + 32)%N]
  else if (c =? 304)%N then [105%N; 775%N]
  else if (c =? 8490)%N then [107%N]
  else [c].

(** [s.lower()] *)
Definition lower (s : str) : str := flat_map lower_cp s.

(** [s.rfind(".")]-based [Path.stem]: the name without its last suffix. *)
Fixpoint rfind_dot (s : str) (i : nat) (found : option nat) : option nat :=
  match s with
  | [] => found
  | c :: r => rfind_dot r (S i) (if (c =? 46)%N then Some i else found)
  end.

Definition stem (name : str) : str :=
  match rfind_dot name 0 None with
  | Some i =>
      if (0 <? i)%nat && (i <? List.length name - 1)%nat then firstn i name else name
  | None => name
  end.

End PyStr.
Import PyStr.

(* ================================================================== *)
(** ** decimal.Decimal *)
(* ================================================================== *)

Module PyDecimal.

(** A [Decimal] value: a finite number [(-1)^negative * coefficient *
    10^exponent], an infinity, or a (quiet or signaling) NaN with its
    payload. *)
Inductive Decimal : Type :=
| Finite (negative : bool) (coefficient : N) (exponent : Z)
| Infinity (negative : bool)
| NaN (negative : bool) (signaling : bool) (payload : N).

Definition is_finite (d : Decimal) : bool :=
  match d with Finite _ _ _ => true | _ => false end.

Definition is_nan (d : Decimal) : bool :=
  match d with NaN _ _ _ => true | _ => false end.

(** [d.copy_negate()]: the value with its sign flipped, exactly. *)
Definition copy_negate (d : Decimal) : Decimal :=
  match d with
  | Finite s c e => Finite (negb s) c e
  | Infinity s => Infinity (negb s)
  | NaN s g p => NaN (negb s) g p
  end.

Definition signed (negative : bool) (c : N) : Z :=
  if negative then (- Z.of_N c)%Z else Z.of_N c.

(** [a == b] on decimals: numeric equality, false as soon as a NaN takes
    part. *)
Definition Decimal_eqb (a b : Decimal) : bool :=
  match a, b with
  | Finite s1 c1 e1, Finite s2 c2 e2 =>
      let m := Z.min e1 e2 in
      (signed s1 c1 * 10 ^ (e1 - m) =? signed s2 c2 * 10 ^ (e2 - m))%Z
  | Infinity s1, Infinity s2 => Bool.eqb s1 s2
  | _, _ => false
  end.

Definition isdigit (c : N) : bool := ((48 <=? c) && (c <=? 57))%N.

Fixpoint span_digits (s : str) : str * str :=
  match s with
  | c :: r =>
      if isdigit c then let (d, t) := span_digits r in (c :: d, t)
      else ([], s)
  | [] => ([], [])
  end.

Definition int_of_digits (d : str) : N :=
  fold_left (fun acc c => (10 * acc + (c - 48))%N) d 0%N.

(** An optional sign in front of a numeral. *)
Definition take_sign (s : str) : bool * str :=
  match s with
  | c :: r =>
      if (c =? 45)%N then (true, r)
      else if (c =? 43)%N then (false, r)
      else (false, s)
  | [] => (false, [])
  end.

Definition ascii_lower (c : N) : N :=
  if ascii_upper_letter c then (c + 32)%N else c.

(** [p], given in lower case, read off the front of [s] in any letter case:
    the rest of [s] when it is there. *)
Fixpoint strip_prefix_ci (p s : str) : option str :=
  match p, s with
  | [], _ => Some s
  | x :: p', y :: s' =>
      if (ascii_lower y =? x)%N then strip_prefix_ci p' s' else None
  | _ :: _, [] => None
  end.

(** [nan ::= 'NaN' [digits] | 'sNaN' [digits]] *)
Definition nan_payload (negative signaling : bool) (r : str) : option Decimal :=
  let (d, t) := span_digits r in
  match t with
  | [] => Some (NaN negative signaling (int_of_digits d))
  | _ :: _ => None
  end.

(** [infinity ::= 'Infinity' | 'Inf'], then the NaNs. *)
Definition parse_special (negative : bool) (s : str) : option Decimal :=
  match strip_prefix_ci (py "nan") s with
  | Some r => nan_payload negative false r
  | None =>
      match strip_prefix_ci (py "snan") s with
      | Some r => nan_payload negative true r
      | None =>
          match strip_prefix_ci (py "inf") s with
          | Some [] => Some (Infinity negative)
          | Some r =>
              match strip_prefix_ci (py "inity") r with
              | Some [] => Some (Infinity negative)
              | _ => None
              end
          | None => None
          end
      end
  end.

(** [decimal-part [exponent-part]]: coefficient and exponent. *)
Definition parse_number (s : str) : option (N * Z) :=
  let (ip, r1) := span_digits s in
  let (fp, r2) :=
    match r1 with
    | c :: r => if (c =? 46)%N then span_digits r else ([], r1)
    | [] => ([], r1)
    end in
  match ip ++ fp with
  | [] => None
  | _ :: _ =>
      let coefficient := int_of_digits (ip ++ fp) in
      let scale := Z.of_nat (List.length fp) in
      match r2 with
      | [] => Some (coefficient, (- scale)%Z)
      | e :: r3 =>
          if (ascii_lower e =? 101)%N then
            let (eneg, r4) := take_sign r3 in
            let (ed, r5) := span_digits r4 in
            match ed, r5 with
            | _ :: _, [] =>
                Some (coefficient, (signed eneg (int_of_digits ed) - scale)%Z)
            | _, _ => None
            end
          else None
      end
  end.

(** The numeral after the optional sign. *)
Definition parse_unsigned (negative : bool) (body : str) : option Decimal :=
  match parse_special negative body with
  | Some d => Some d
  | None =>
      match parse_number body with
      | Some (c, e) => Some (Finite negative c e)
      | None => None
      end
  end.

(** The code points past ASCII that are the digit zero of a script, each the
    first of ten decimal digits in a row (Unicode 14.0, the general category
    Nd). *)
Definition decimal_zeros : list N :=
  [ 1632; 1776; 1984; 2406; 2534; 2662; 2790; 2918; 3046; 3174; 3302; 3430;
    3558; 3664; 3792; 3872; 4160; 4240; 6112; 6160; 6470; 6608; 6784; 6800;
    6992; 7088; 7232; 7248; 42528; 43216; 43264; 43472; 43504; 43600; 44016;
    65296; 66720; 68912; 69734; 69872; 69942; 70096; 70384; 70736; 70864;
    71248; 71360; 71472; 71904; 72016; 72784; 73040; 73120; 92768; 92864;
    93008; 120782; 120792; 120802; 120812; 120822; 123200; 123632; 125264;
    130032 ]%N.

(** The value of a decimal digit past ASCII, [None] for any other code
    point. *)
Definition to_decimal (c : N) : option N :=
  match find (fun zero => (zero <=? c) && (c <=? zero + 9))%N decimal_zeros with
  | Some zero => Some (c - zero)%N
  | None => None
  end.

(** The text as the constructor hands it to its parser: underscores are
    dropped, ASCII is kept, white space past ASCII becomes a blank and a
    decimal digit of any script its ASCII digit; [None] when any other
    character is in the text. *)
Fixpoint numeric_as_ascii (s : str) : option str :=
  match s with
  | [] => Some []
  | c :: r =>
      if (c =? 95)%N then numeric_as_ascii r
      else if ((0 <? c) && (c <=? 127))%N then
        option_map (cons c) (numeric_as_ascii r)
      else if isspace c then option_map (cons 32%N) (numeric_as_ascii r)
      else
        match to_decimal c with
        | Some d => option_map (cons (48 + d)%N) (numeric_as_ascii r)
        | None => None
        end
  end.

(** The ASCII text read as [[sign] numeric-value | [sign] nan]. *)
Definition Decimal_of_ascii (t : str) : option Decimal :=
  let (negative, body) := take_sign t in
  parse_unsigned negative body.

(** [Decimal(s)] for a [str]: surrounding white space is dropped, the rest
    is brought to ASCII and read.  [None] is [InvalidOperation].  The
    exponent is kept unbounded (the C implementation refuses exponents past
    10^18 in size). *)
Definition Decimal_of_str (s : str) : option Decimal :=
  match numeric_as_ascii (strip s) with
  | Some t => Decimal_of_ascii t
  | None => None
  end.

(** [Decimal("0")] *)
Definition Decimal_zero : Decimal := Finite false 0 0.

End PyDecimal.
Import PyDecimal.

(* ================================================================== *)
(** ** Exceptions and outcomes *)
(* ================================================================== *)

(** The exceptions the two modules can raise. *)
Inductive Exn : Type :=
| RuntimeError (msg : str)
| AttributeError      (* 'NoneType' object has no attribute 'lower' *)
| KeyError
| ValueError
| OSError
| CsvError.           (* _csv.Error *)

(** What a call gives back: a value, or an exception on its way up. *)
Inductive res (A : Type) : Type :=
| Ret (a : A)
| Raise (e : Exn).
Arguments Ret {A} a.
Arguments Raise {A} e.

Definition is_ret {A} (r : res A) : bool :=
  match r with Ret _ => true | Raise _ => false end.

(* ================================================================== *)
(** ** csv.reader and csv.DictReader *)
(* ================================================================== *)

Module Csv.

(** What an iterator hands out, in order: items, then the end of the
    iteration or an error. *)
Inductive Stream (A : Type) : Type :=
| Done
| Fail
| Yield (a : A) (more : Stream A).
Arguments Done {A}.
Arguments Fail {A}.
Arguments Yield {A} a more.

Fixpoint items {A} (s : Stream A) : list A :=
  match s with
  | Yield a more => a :: items more
  | _ => []
  end.

Fixpoint fails {A} (s : Stream A) : bool :=
  match s with
  | Done => false
  | Fail => true
  | Yield _ more => fails more
  end.

(** The lines [io.StringIO(text)] iterates over: cut after each line feed,
    which stays on its line. *)
Fixpoint readlines (cur : str) (s : str) : list str :=
  match s with
  | [] => match cur with [] => [] | _ :: _ => [rev cur] end
  | c :: r =>
      if (c =? 10)%N then rev (c :: cur) :: readlines [] r
      else readlines (c :: cur) r
  end.

(** The states of the reader's automaton that the excel dialect reaches
    (no escape character). *)
Inductive ParserState : Type :=
| START_RECORD | START_FIELD | IN_FIELD | IN_QUOTED_FIELD
| QUOTE_IN_QUOTED_FIELD | EAT_CRNL.

(** The reader: its state, the field being read and the fields saved so far
    (both newest first). *)
Record ReaderObj : Type := mkReader {
  state : ParserState;
  field : str;
  fields : list str
}.

Definition parse_reset : ReaderObj := mkReader START_RECORD [] [].

Definition parse_add_char (r : ReaderObj) (c : N) : ReaderObj :=
  mkReader (state r) (c :: field r) (fields r).

Definition parse_save_field (r : ReaderObj) : ReaderObj :=
  mkReader (state r) [] (rev (field r) :: fields r).

Definition set_state (s : ParserState) (r : ReaderObj) : ReaderObj :=
  mkReader s (field r) (fields r).

Definition is_newline (c : N) : bool := ((c =? 10) || (c =? 13))%N.

Definition start_field (r : ReaderObj) (c : option N) : ReaderObj :=
  match c with
  | None => set_state START_RECORD (parse_save_field r)
  | Some ch =>
      if is_newline ch then set_state EAT_CRNL (parse_save_field r)
      else if (ch =? 34)%N then set_state IN_QUOTED_FIELD r
      else if (ch =? 44)%N then parse_save_field r
      else set_state IN_FIELD (parse_add_char r ch)
  end.

(** [parse_process_char] for the comma as delimiter, the double quote as
    quote character, doubled quotes, no escape character, not strict.  [c = None] is the end of the
    line; the result [None] is [_csv.Error]. *)
Definition parse_process_char (r : ReaderObj) (c : option N) : option ReaderObj :=
  match state r with
  | START_RECORD =>
      match c with
      | None => Some r
      | Some ch =>
          if is_newline ch then Some (set_state EAT_CRNL r)
          else Some (start_field (set_state START_FIELD r) c)
      end
  | START_FIELD => Some (start_field r c)
  | IN_FIELD =>
      match c with
      | None => Some (set_state START_RECORD (parse_save_field r))
      | Some ch =>
          if is_newline ch then Some (set_state EAT_CRNL (parse_save_field r))
          else if (ch =? 44)%N then Some (set_state START_FIELD (parse_save_field r))
          else Some (parse_add_char r ch)
      end
  | IN_QUOTED_FIELD =>
      match c with
      | None => Some r
      | Some ch =>
          if (ch =? 34)%N then Some (set_state QUOTE_IN_QUOTED_FIELD r)
          else Some (parse_add_char r ch)
      end
  | QUOTE_IN_QUOTED_FIELD =>
      match c with
      | None => Some (set_state START_RECORD (parse_save_field r))
      | Some ch =>
          if (ch =? 34)%N then Some (set_state IN_QUOTED_FIELD (parse_add_char r ch))
          else if (ch =? 44)%N then Some (set_state START_FIELD (parse_save_field r))
          else if is_newline ch then Some (set_state EAT_CRNL (parse_save_field r))
          else Some (set_state IN_FIELD (parse_add_char r ch))
      end
  | EAT_CRNL =>
      match c with
      | None => Some (set_state START_RECORD r)
      | Some ch => if is_newline ch then Some r else None
      end
  end.

(** One line through the automaton, its end included. *)
Fixpoint process_line (r : ReaderObj) (line : str) : option ReaderObj :=
  match line with
  | [] => parse_process_char r None
  | c :: l =>
      match parse_process_char r (Some c) with
      | Some r' => process_line r' l
      | None => None
      end
  end.

Definition at_start_record (r : ReaderObj) : bool :=
  match state r with START_RECORD => true | _ => false end.

Definition mid_record (r : ReaderObj) : bool :=
  match field r, state r with
  | _ :: _, _ => true
  | [], IN_QUOTED_FIELD => true
  | [], _ => false
  end.

(** The rows the reader yields over the lines: a record ends with the line
    that brings the automaton back to [START_RECORD]; input that ends inside
    a record gives what was read. *)
Fixpoint reader_rows (r : ReaderObj) (lines : list str) : Stream (list str) :=
  match lines with
  | [] =>
      if mid_record r then Yield (rev (fields (parse_save_field r))) Done
      else Done
  | line :: rest =>
      match process_line r line with
      | None => Fail
      | Some r' =>
          if at_start_record r' then
            Yield (rev (fields r')) (reader_rows parse_reset rest)
          else reader_rows r' rest
      end
  end.

(** [csv.reader(io.StringIO(text))]; the limit on the size of a field is
    left out. *)
Definition reader (text : str) : Stream (list str) :=
  reader_rows parse_reset (readlines [] text).

(** A [DictReader] row: the columns in insertion order, each with its cell or
    [None] (the [restval] of a short line), and under the key [None] (the
    [restkey]) the cells a long line has beyond the header. *)
Record Row : Type := mkRow {
  cols : list (str * option str);
  restcells : option (list str)
}.

(** [d[k] = v] *)
Fixpoint dict_set (k : str) (v : option str) (d : list (str * option str))
  : list (str * option str) :=
  match d with
  | [] => [(k, v)]
  | (k', v') :: d' =>
      if str_eqb k' k then (k, v) :: d' else (k', v') :: dict_set k v d'
  end.

(** [d.get(k)]: the cell when the key is there. *)
Fixpoint dict_get (k : str) (d : list (str * option str)) : option (option str) :=
  match d with
  | [] => None
  | (k', v) :: d' => if str_eqb k' k then Some v else dict_get k d'
  end.

(** [dict(zip(fieldnames, row))], on top of [d]. *)
Fixpoint dict_zip (fieldnames cells : list str) (d : list (str * option str))
  : list (str * option str) :=
  match fieldnames, cells with
  | k :: ks, v :: vs => dict_zip ks vs (dict_set k (Some v) d)
  | _, _ => d
  end.

Definition fill_restval (missing : list str) (d : list (str * option str))
  : list (str * option str) :=
  fold_left (fun acc k => dict_set k None acc) missing d.

(** The dictionary [DictReader.__next__] builds from one row. *)
Definition make_row (fieldnames cells : list str) : Row :=
  let d := dict_zip fieldnames cells [] in
  let lf := List.length fieldnames in
  let lr := List.length cells in
  if (lf <? lr)%nat then mkRow d (Some (skipn lf cells))
  else if (lr <? lf)%nat then mkRow (fill_restval (skipn lr fieldnames) d) None
  else mkRow d None.

Definition is_blank (cells : list str) : bool :=
  match cells with [] => true | _ :: _ => false end.

(** The rows after the header: blank rows are passed over. *)
Fixpoint dict_rows (fieldnames : list str) (s : Stream (list str)) : Stream Row :=
  match s with
  | Done => Done
  | Fail => Fail
  | Yield cells more =>
      if is_blank cells then dict_rows fieldnames more
      else Yield (make_row fieldnames cells) (dict_rows fieldnames more)
  end.

(** [csv.DictReader(io.StringIO(text))]: the first row the reader yields is
    the header. *)
Definition DictReader (text : str) : Stream Row :=
  match reader text with
  | Done => Done
  | Fail => Fail
  | Yield fieldnames more => dict_rows fieldnames more
  end.

(** The keys [for key in row] goes through. *)
Definition row_keys (row : Row) : list (option str) :=
  map (fun kv => Some (fst kv)) (cols row) ++
  match restcells row with
  | Some _ => [None]
  | None => []
  end.

End Csv.
Import Csv.

(* ================================================================== *)
(** ** parser.py *)
(* ================================================================== *)

Module Parser.

Definition res_bind {A B} (m : res A) (k : A -> res B) : res B :=
  match m with
  | Ret a => k a
  | Raise e => Raise e
  end.

Notation "x <- m ;; k" := (res_bind m (fun x => k))
  (at level 61, m at next level, right associativity).

(** The column names each canonical field is looked up under, in order of
    priority. *)
Definition field_mapping : list (string * list str) :=
  [ ("date"%string,
      [py "Timestamp"; py "Date"; py "Created"; py "Transaction Date";
       py "Expense Date"]);
    ("merchant"%string,
      [py "Merchant"; py "Vendor"; py "Payee"; py "Description"]);
    ("amount"%string, [py "Amount"; py "Total"; py "Expense Amount"]);
    ("currency"%string, [py "Currency"; py "Original Currency"]);
    ("category"%string, [py "Category"; py "Expense Category"; py "GL Code"]);
    ("tag"%string, [py "Tag"; py "Tags"; py "Project"; py "Cost Center"]);
    ("description"%string,
      [py "Comment"; py "Description"; py "Notes"; py "Memo"]);
    ("report_name"%string, [py "Report Name"; py "Report"; py "Report Title"]);
    ("reimbursable"%string, [py "Reimbursable"; py "Is Reimbursable"]);
    ("billable"%string, [py "Billable"; py "Is Billable"]);
    ("receipt_url"%string, [py "Receipt URL"; py "Receipt"; py "Receipt Link"]) ].

(** [field_mapping[canonical]] *)
Definition aliases (canonical : string) : list str :=
  match find (fun kv => String.eqb (fst kv) canonical) field_mapping with
  | Some kv => snd kv
  | None => []
  end.

(** [row[key]] *)
Definition getitem (row : Row) (key : str) : res (option str) :=
  match dict_get key (cols row) with
  | Some v => Ret v
  | None => Raise KeyError
  end.

(** The inner loop of [find_field]: [for key in row], comparing in lower
    case.  The key [None] of a long line has no [lower]. *)
Fixpoint scan_keys (row : Row) (name : str) (keys : list (option str))
  : res (option (option str)) :=
  match keys with
  | [] => Ret None
  | None :: _ => Raise AttributeError
  | Some key :: more =>
      if str_eqb (lower key) (lower name) then
        v <- getitem row key ;; Ret (Some v)
      else scan_keys row name more
  end.

(** [find_field(row, field_names)] *)
Fixpoint find_field (row : Row) (field_names : list str) : res (option str) :=
  match field_names with
  | [] => Ret None
  | name :: more =>
      match dict_get name (cols row) with
      | Some v => Ret v
      | None =>
          hit <- scan_keys row name (row_keys row) ;;
          match hit with
          | Some v => Ret v
          | None => find_field row more
          end
      end
  end.

(** The characters [parse_amount] removes one after the other:
    dollar, euro, pound, yen, comma. *)
Definition currency_chars : list N := [36; 8364; 163; 165; 44]%N.

Definition remove_currency (s : str) : str :=
  fold_left (fun cleaned char => replace_char char cleaned) currency_chars s.

(** The text [parse_amount] hands to [Decimal], for a non-empty input. *)
Definition amount_text (amount_str : str) : str :=
  let cleaned := remove_currency (strip amount_str) in
  if startswith (py "(") cleaned && endswith (py ")") cleaned
  then 45%N :: slice_1_m1 cleaned
  else cleaned.

(** [parse_amount(amount_str)] *)
Definition parse_amount (amount_str : option str) : Decimal :=
  match amount_str with
  | None | Some [] => Decimal_zero
  | Some ((_ :: _) as s) =>
      match Decimal_of_str (amount_text s) with
      | Some d => d
      | None => Decimal_zero
      end
  end.

(** [parse_bool(value)] *)
Definition parse_bool (value : option str) : bool :=
  match value with
  | None | Some [] => false
  | Some ((_ :: _) as v) =>
      existsb (str_eqb (lower v)) [py "yes"; py "true"; py "1"; py "y"]
  end.

(** [value or default] on an optional text. *)
Definition or_default (value : option str) (default : str) : str :=
  match value with
  | None | Some [] => default
  | Some ((_ :: _) as v) => v
  end.

Definition formats : list str :=
  [ py "%Y-%m-%d"; py "%m/%d/%Y"; py "%m/%d/%y"; py "%d/%m/%Y"; py "%d/%m/%y";
    py "%Y-%m-%d %H:%M:%S"; py "%m/%d/%Y %H:%M:%S"; py "%B %d, %Y";
    py "%b %d, %Y" ].

Section Normalizer.

(** [datetime.strptime] and [datetime.now] belong to the standard library:
    [strptime text fmt] is [None] when it raises [ValueError], and [now i] is
    the clock reading while row [i] is built. *)
Variable datetime : Type.
Variable strptime : str -> str -> option datetime.
Variable now : nat -> datetime.

(** An expense of a report. *)
Record Expense : Type := mkExpense {
  date : datetime;
  merchant : str;
  amount : Decimal;
  currency : str;
  category : str;
  tag : option str;
  description : option str;
  report_name : option str;
  reimbursable : bool;
  billable : bool;
  receipt_url : option str
}.

Fixpoint try_formats (text : str) (fmts : list str) : option datetime :=
  match fmts with
  | [] => None
  | fmt :: more =>
      match strptime text fmt with
      | Some d => Some d
      | None => try_formats text more
      end
  end.

(** [parse_date(date_str)], for the row of index [i]. *)
Definition parse_date (i : nat) (date_str : option str) : datetime :=
  match date_str with
  | None | Some [] => now i
  | Some ((_ :: _) as s) =>
      match try_formats (strip s) formats with
      | Some d => d
      | None => now i
      end
  end.

(** The body of the loop over the rows: the expense of one row. *)
Definition expense_of_row (i : nat) (row : Row) : res Expense :=
  f <- find_field row (aliases "date") ;;
  let date := parse_date i f in
  f <- find_field row (aliases "merchant") ;;
  let merchant := or_default f (py "Unknown") in
  f <- find_field row (aliases "amount") ;;
  let amount := parse_amount f in
  f <- find_field row (aliases "currency") ;;
  let currency := or_default f (py "USD") in
  f <- find_field row (aliases "category") ;;
  let category := or_default f [] in
  tag <- find_field row (aliases "tag") ;;
  description <- find_field row (aliases "description") ;;
  report_name <- find_field row (aliases "report_name") ;;
  f <- find_field row (aliases "reimbursable") ;;
  let reimbursable := parse_bool f in
  f <- find_field row (aliases "billable") ;;
  let billable := parse_bool f in
  receipt_url <- find_field row (aliases "receipt_url") ;;
  Ret (mkExpense date merchant amount currency category tag description
         report_name reimbursable billable receipt_url).

(** [for row in reader: expenses.append(...)], from row index [i] on. *)
Fixpoint collect (i : nat) (rows : Stream Row) : res (list Expense) :=
  match rows with
  | Done => Ret []
  | Fail => Raise CsvError
  | Yield row more =>
      expense <- expense_of_row i row ;;
      expenses <- collect (S i) more ;;
      Ret (expense :: expenses)
  end.

(** [parse_expensify_csv(csv_content)] *)
Definition parse_expensify_csv (csv_content : str) : res (list Expense) :=
  collect 0 (DictReader csv_content).

End Normalizer.

End Parser.

(* ================================================================== *)
(** ** heist.py *)
(* ================================================================== *)

Module Heist.

(** The JavaScript snippets of the module, by what they do in the page. *)
Inductive JavaScript : Type :=
| js_count_checkboxes   (* the number of input[type=checkbox] elements *)
| js_click_checkbox     (* click the first input.reportstable_checkbox *)
| js_click_export       (* click the element button_exportButton *)
| js_click_csv.         (* click the link whose text is Default CSV *)

(** The AppleScript programs the module hands to [osascript]. *)
Inductive AppleScript : Type :=
| Activate                        (* tell Safari to activate *)
| EnsureWindow                    (* activate, make a document if no window *)
| SetURL (url : str)              (* set URL of current tab of window 1 *)
| GetURL                          (* get URL of current tab of window 1 *)
| DoJavaScript (js : JavaScript)  (* do JavaScript in current tab of window 1 *)
| CloseTab.                       (* close current tab of window 1 *)

(** What [subprocess.run] reports. *)
Record CompletedProcess : Type := mkCompleted {
  returncode : Z;
  stdout : str;
  stderr : str
}.

(** What a run does to the outside, in order. *)
Inductive Event : Type :=
| Osascript (script : AppleScript)
| Sleep (ms : Z)
| Print (msg : str).

(** The events so far, the newest first. *)
Definition History := list Event.

(** A file of the Downloads directory: [read_text = None] is a file that
    cannot be read. *)
Record CsvFile : Type := mkFile {
  name : str;
  st_mtime : Z;
  read_text : option str
}.

(** The outside world: how [osascript] answers a program after a given
    history, the clock reading (in milliseconds) when the run starts, and
    the files of the Downloads directory after a given history.  Time passes
    in [time.sleep]. *)
Record Env : Type := mkEnv {
  osascript : History -> AppleScript -> CompletedProcess;
  epoch : Z;
  downloads : History -> list CsvFile
}.

(** A computation: from the history to an outcome and the history after it;
    [None] when a [while] loop is cut short. *)
Definition M (A : Type) : Type := History -> option (res A * History).

Definition ret {A} (a : A) : M A := fun h => Some (Ret a, h).

Definition raise {A} (e : Exn) : M A := fun h => Some (Raise e, h).

Definition bind {A B} (m : M A) (k : A -> M B) : M B :=
  fun h =>
    match m h with
    | Some (Ret a, h') => k a h'
    | Some (Raise e, h') => Some (Raise e, h')
    | None => None
    end.

(** [try: m  except: handler] *)
Definition catch {A} (m : M A) (handler : M A) : M A :=
  fun h =>
    match m h with
    | Some (Raise _, h') => handler h'
    | r => r
    end.

Notation "x <- m ;; k" := (bind m (fun x => k))
  (at level 61, m at next level, right associativity).
Notation "m ;; k" := (bind m (fun _ => k))
  (at level 61, right associativity).

Definition total_sleep (h : History) : Z :=
  fold_right (fun ev acc => match ev with Sleep ms => (ms + acc)%Z | _ => acc end)
             0%Z h.

(** [int(float(result))]: [None] when it raises.  The numeral is read
    exactly (the rounding of [float] to binary is left out); underscores
    stand between digits only; the infinities and NaN make [int] raise. *)
Fixpoint underscores_ok (prev_digit : bool) (s : str) : bool :=
  match s with
  | [] => true
  | c :: r =>
      if (c =? 95)%N then
        prev_digit && match r with d :: _ => isdigit d | [] => false end
        && underscores_ok false r
      else underscores_ok (isdigit c) r
  end.

Definition int_float (result : str) : option Z :=
  let t := strip result in
  if underscores_ok false t then
    let (negative, body) := take_sign (replace_char 95 t) in
    match parse_number body with
    | Some (c, e) =>
        let magnitude :=
          if (0 <=? e)%Z then (Z.of_N c * 10 ^ e)%Z
          else (Z.of_N c / 10 ^ (- e))%Z in
        Some (if negative then (- magnitude)%Z else magnitude)
    | None => None
    end
  else None.

Section Automation.

Variable env : Env.

(** [time.time()], in milliseconds.  The clock moves in [time.sleep] only:
    the commands of the bridge and the scans of Downloads take no time. *)
Definition time : M Z := fun h => Some (Ret (epoch env + total_sleep h)%Z, h).

(** [time.sleep] *)
Definition sleep (ms : Z) : M unit := fun h => Some (Ret tt, Sleep ms :: h).

Definition print (msg : str) : M unit := fun h => Some (Ret tt, Print msg :: h).

(** [run_applescript(script)] *)
Definition run_applescript (script : AppleScript) : M str :=
  fun h =>
    let result := osascript env h script in
    let h' := Osascript script :: h in
    if (returncode result =? 0)%Z then Some (Ret (strip (stdout result)), h')
    else Some (Raise (RuntimeError (py "AppleScript error: " ++ stderr result)), h').

(** [run_javascript(js)] *)
Definition run_javascript (js : JavaScript) : M str :=
  run_applescript (DoJavaScript js).

(** [get_safari_url()] *)
Definition get_safari_url : M str := run_applescript GetURL.

(** [ensure_safari_window()] *)
Definition ensure_safari_window : M unit :=
  run_applescript EnsureWindow ;; ret tt.

(** [set_safari_url(url)] *)
Definition set_safari_url (url : str) : M unit :=
  ensure_safari_window ;;
  run_applescript (SetURL url) ;;
  ret tt.

(** [close_safari_tab()] *)
Definition close_safari_tab : M unit :=
  catch (run_applescript CloseTab ;; ret tt) (ret tt).

Definition reports_url : str := py "https://www.expensify.com/reports".
Definition signin_url : str := py "https://www.expensify.com/signin".

(** [is_logged_in()] *)
Definition is_logged_in : M bool :=
  catch
    (run_applescript Activate ;;
     set_safari_url reports_url ;;
     sleep 3000 ;;
     url <- get_safari_url ;;
     ret (contains (py "/reports") url
          && negb (contains (py "sign-in") (lower url))))
    (ret false).

(** One turn of the polling loop of [sync_login_interactive], after its
    sleep: [true] when it returns [True]. *)
Definition login_poll : M bool :=
  catch
    (url <- get_safari_url ;;
     if negb (contains (py "sign-in") (lower url))
        && negb (contains (py "signin") (lower url))
     then
       logged <- is_logged_in ;;
       if logged then print (py "Login successful!") ;; ret true
       else ret false
     else ret false)
    (ret false).

(** [while time.time() - start < timeout_seconds: ...], then the time-out. *)
Fixpoint login_loop (fuel : nat) (start timeout_seconds : Z) : M bool :=
  now <- time ;;
  if (now - start <? timeout_seconds * 1000)%Z then
    match fuel with
    | O => fun _ => None
    | S fuel' =>
        sleep 3000 ;;
        done <- login_poll ;;
        if done then ret true else login_loop fuel' start timeout_seconds
    end
  else
    print (py "Login timed out.") ;;
    ret false.

(** [sync_login_interactive(profile, timeout_seconds)] *)
Definition sync_login_interactive (profile : str) (timeout_seconds : Z) : M bool :=
  run_applescript Activate ;;
  logged <- is_logged_in ;;
  if logged then ret true
  else
    set_safari_url signin_url ;;
    print (py "Please log in to Expensify in Safari.") ;;
    start <- time ;;
    login_loop (S (Z.to_nat (timeout_seconds * 1000 / 3000))) start timeout_seconds.

(** [downloads_dir.glob("*.csv")] *)
Definition glob_csv (h : History) : list CsvFile :=
  filter (fun f => endswith (py ".csv") (name f)) (downloads env h).

(** [sorted(files, key=mtime, reverse=True)]: stable, newest first. *)
Fixpoint insert_by_mtime (f : CsvFile) (l : list CsvFile) : list CsvFile :=
  match l with
  | [] => [f]
  | g :: l' =>
      if (st_mtime f <? st_mtime g)%Z then g :: insert_by_mtime f l'
      else f :: l
  end.

Definition sorted_by_mtime (l : list CsvFile) : list CsvFile :=
  fold_right insert_by_mtime [] l.

(** The test of one candidate in the loop of [find_latest_expensify_csv]. *)
Definition accepts (now max_age_seconds : Z) (csv_file : CsvFile) : bool :=
  if (max_age_seconds * 1000 <? now - st_mtime csv_file)%Z then false
  else
    match read_text csv_file with
    | None => false
    | Some content =>
        contains (py "Merchant") content || contains (py "Amount") content
        || contains (py "Expensify") (name csv_file)
    end.

(** [find_latest_expensify_csv(max_age_seconds)] *)
Definition find_latest_expensify_csv (max_age_seconds : Z) : M (option CsvFile) :=
  now <- time ;;
  fun h =>
    let csv_files := sorted_by_mtime (glob_csv h) in
    Some (Ret (find (accepts now max_age_seconds) (firstn 10 csv_files)), h).

(** The polling loop for the page: [for i in range(20)], [true] on [break]. *)
Fixpoint await_page_ready (attempts : nat) : M bool :=
  match attempts with
  | O => ret false
  | S attempts' =>
      sleep 1000 ;;
      ready <- catch
                 (result <- run_javascript js_count_checkboxes ;;
                  match int_float result with
                  | Some count => ret (10 <? count)%Z
                  | None => raise ValueError
                  end)
                 (ret false) ;;
      if ready then ret true else await_page_ready attempts'
  end.

Definition page_not_ready : Exn :=
  RuntimeError (py "Page did not load within 20 seconds").
Definition not_logged_in : Exn :=
  RuntimeError (py "Not logged in to Expensify. Please run 'expensify_login' first.").
Definition no_checkbox : Exn :=
  RuntimeError (py "No report checkboxes found on the page").
Definition no_export_button : Exn :=
  RuntimeError (py "Export button not found").
Definition no_csv_option : Exn :=
  RuntimeError (py "Default CSV option not found in dropdown").
Definition no_export_found : Exn :=
  RuntimeError (py "No CSV export found. Please try again.").

(** [while time.time() < end_time: ...], then the failure after it. *)
Fixpoint await_download (fuel : nat) (start_time end_time : Z) : M (str * str) :=
  now <- time ;;
  if (now <? end_time)%Z then
    match fuel with
    | O => fun _ => None
    | S fuel' =>
        csv_file <- find_latest_expensify_csv (Z.quot (now - start_time + 5000) 1000) ;;
        match csv_file with
        | Some f =>
            if (start_time <? st_mtime f)%Z then
              match read_text f with
              | Some content =>
                  close_safari_tab ;;
                  ret (content, stem (name f))
              | None => raise OSError
              end
            else sleep 500 ;; await_download fuel' start_time end_time
        | None => sleep 500 ;; await_download fuel' start_time end_time
        end
    end
  else
    close_safari_tab ;;
    raise no_export_found.

(** [sync_fetch_expenses_csv(report_id, headless, timeout)] *)
Definition sync_fetch_expenses_csv
    (report_id : option str) (headless : bool) (timeout : Z) : M (str * str) :=
  run_applescript Activate ;;
  set_safari_url reports_url ;;
  ready <- await_page_ready 20 ;;
  if negb ready then raise page_not_ready
  else
    url <- get_safari_url ;;
    if contains (py "sign-in") (lower url) || contains (py "signin") (lower url)
    then raise not_logged_in
    else
      start_time <- time ;;
      result <- run_javascript js_click_checkbox ;;
      if negb (str_eqb result (py "clicked")) then raise no_checkbox
      else
        sleep 500 ;;
        result <- run_javascript js_click_export ;;
        if negb (str_eqb result (py "clicked")) then raise no_export_button
        else
          sleep 500 ;;
          result <- run_javascript js_click_csv ;;
          if negb (str_eqb result (py "clicked")) then raise no_csv_option
          else
            let end_time := (start_time + timeout * 1000)%Z in
            now <- time ;;
            (* each turn of the loop sleeps half a second: this many turns
               bring the clock to the deadline *)
            await_download (S (Z.to_nat ((end_time - now) / 500)))
                           start_time end_time.

End Automation.

End Heist.

(* ================================================================== *)
(** ** What the specification says, in its own words *)
(* ================================================================== *)

Module ParserSpec.
Import Parser.

(** Two letters that differ by their case at most. *)
Definition same_letter (a b : N) : bool := (ascii_lower a =? ascii_lower b)%N.

(** A text and a token that differ by the case of their letters at most. *)
Fixpoint caseless_eqb (a b : str) : bool :=
  match a, b with
  | [], [] => true
  | x :: a', y :: b' => same_letter x y && caseless_eqb a' b'
  | _, _ => false
  end.

(** The affirmative values of a boolean column. *)
Definition affirmative : list str := [py "Yes"; py "true"; py "1"; py "Y"].

(** The spellings of the special values of [Decimal]: an optional sign, then
    Inf, Infinity, NaN or sNaN in any letter case, the NaNs with digits after
    them if any; white space around the text and underscores do not count,
    and the digits may be those of any script. *)
Definition nan_spelling (p body : str) : bool :=
  startswith p body && forallb isdigit (skipn (List.length p) body).

Definition spells_special (t : str) : bool :=
  match numeric_as_ascii (strip t) with
  | Some a =>
      let body := map ascii_lower (snd (take_sign a)) in
      str_eqb body (py "inf") || str_eqb body (py "infinity")
      || nan_spelling (py "nan") body || nan_spelling (py "snan") body
  | None => false
  end.

(** The cell of an amount column spells a special value once cleaned. *)
Definition amount_special (amount_str : option str) : bool :=
  match amount_str with
  | None | Some [] => false
  | Some ((_ :: _) as s) => spells_special (amount_text s)
  end.

(** The cell an alias stands for in a row: the column of that very name, or
    else the first column, in the order of the row, whose name is the same
    up to letter case. *)
Definition alias_value (row : Row) (name : str) : option (option str) :=
  match dict_get name (cols row) with
  | Some v => Some v
  | None =>
      match find (fun key => str_eqb (lower key) (lower name))
                 (map fst (cols row)) with
      | Some key => dict_get key (cols row)
      | None => None
      end
  end.

(** What the code computes on a row without surplus cells: the aliases in
    order of priority, and the first one with a column wins, whatever its
    cell holds. *)
Fixpoint resolve (row : Row) (names : list str) : option str :=
  match names with
  | [] => None
  | name :: more =>
      match alias_value row name with
      | Some v => v
      | None => resolve row more
      end
  end.

(** The resolution in the words of the specification: the aliases in order
    of priority, each by the column of its exact name and else by a column
    of the same name up to letter case, and the first alias with a present
    value wins.  A cell that the row does not have, or an empty one, is no
    present value. *)
Fixpoint first_present (row : Row) (names : list str) : option str :=
  match names with
  | [] => None
  | name :: more =>
      match alias_value row name with
      | Some (Some ((_ :: _) as v)) => Some v
      | _ => first_present row more
      end
  end.

(** The amount X in accounting parentheses, with its dollar sign. *)
Definition parenthesized (X : str) : str := py "($" ++ X ++ py ")".

(** X is an amount without a sign of its own: with currency symbols and
    thousands separators taken out it starts with a digit or the decimal
    point. *)
Definition unsigned_amount (X : str) : bool :=
  match remove_currency X with
  | c :: _ => isdigit c || (c =? 46)%N
  | [] => false
  end.

(** A valid CSV text whose only data row has one cell more than the header
    has columns. *)
Definition long_row_csv : str :=
  py "Date,Amount" ++ [10%N] ++ py "2024-01-01,5,extra" ++ [10%N].

(** The row of that text: the surplus cell is kept aside. *)
Definition long_row : Row :=
  mkRow [(py "Date", Some (py "2024-01-01")); (py "Amount", Some (py "5"))]
        (Some [py "extra"]).

(** A valid CSV text whose only data row stops before the Category column,
    and its row. *)
Definition short_row_csv : str :=
  py "GL Code,Category" ++ [10%N] ++ py "6100" ++ [10%N].

Definition short_row : Row :=
  mkRow [(py "GL Code", Some (py "6100")); (py "Category", None)] None.

(** A row with a vendor and a merchant column, the vendor first. *)
Definition two_vendor_row : Row :=
  mkRow [(py "Vendor", Some (py "Acme")); (py "Merchant", Some (py "Coffee Co"))]
        None.

(** *** Notions of the proofs *)

(** A token of lower-case text that [lower] can only reach from its own
    letters: no upper-case letter, no i and no k, ASCII only. *)
Definition plain (c : N) : bool :=
  negb (ascii_upper_letter c) && negb (c =? 105)%N && negb (c =? 107)%N
  && (c <? 128)%N.

(** An optional value that is there; a list that is empty. *)
Definition is_some {A} (o : option A) : bool :=
  match o with Some _ => true | None => false end.

Definition is_nil {A} (l : list A) : bool :=
  match l with [] => true | _ :: _ => false end.

(** One of the characters [parse_amount] removes. *)
Definition is_currency (c : N) : bool := existsb (N.eqb c) currency_chars.

(** A digit or the decimal point. *)
Definition numeral_start (d : N) : bool := isdigit d || (d =? 46)%N.

(** [Decimal("0")] in place of a text that is no number. *)
Definition or_zero (o : option Decimal) : Decimal :=
  match o with Some d => d | None => Decimal_zero end.

End ParserSpec.

Module HeistSpec.
Import Heist.

(** The event that closes the browser tab. *)
Definition is_close (ev : Event) : bool :=
  match ev with
  | Osascript CloseTab => true
  | _ => false
  end.

(** Some event of the list closes the tab. *)
Definition closes (evs : list Event) : bool := existsb is_close evs.

(** The readiness probe answers with a count above the threshold. *)
Definition probe_ready (answer : CompletedProcess) : bool :=
  (returncode answer =? 0)%Z &&
  match int_float (strip (stdout answer)) with
  | Some count => (10 <? count)%Z
  | None => false
  end.

(** The history after [i] unsuccessful polls of the readiness probe. *)
Fixpoint polled (i : nat) (h : History) : History :=
  match i with
  | O => h
  | S k =>
      polled k (Osascript (DoJavaScript js_count_checkboxes) :: Sleep 1000 :: h)
  end.

(** The exceptions a run raises before it waits for the download: all but
    the two of the wait itself. *)
Definition early (e : Exn) : Prop := e <> no_export_found /\ e <> OSError.

(** A browser that is logged in and shows a list of reports: every program
    succeeds, the probe counts twelve checkboxes and every click lands. *)
Definition good_answer (script : AppleScript) : CompletedProcess :=
  match script with
  | GetURL => mkCompleted 0 reports_url []
  | DoJavaScript js_count_checkboxes => mkCompleted 0 (py "12") []
  | DoJavaScript _ => mkCompleted 0 (py "clicked") []
  | _ => mkCompleted 0 [] []
  end.

Definition export_file : CsvFile :=
  mkFile (py "Expensify_export.csv") 1002500 (Some (py "Merchant,Amount")).

(** The export lands in Downloads two and a half seconds into the run. *)
Definition env_export : Env :=
  mkEnv (fun _ script => good_answer script) 1000000
        (fun h => if (2000 <? total_sleep h)%Z then [export_file] else []).

(** The page has no export button. *)
Definition env_no_export_button : Env :=
  mkEnv (fun _ script =>
           match script with
           | DoJavaScript js_click_export => mkCompleted 0 (py "not found") []
           | _ => good_answer script
           end)
        1000000 (fun _ => []).

(** The list of reports never renders: three checkboxes, the filters. *)
Definition env_never_ready : Env :=
  mkEnv (fun _ script =>
           match script with
           | DoJavaScript js_count_checkboxes => mkCompleted 0 (py "3") []
           | _ => good_answer script
           end)
        1000000 (fun _ => []).


(** A computation that does not close the tab and raises early exceptions
    only. *)
Definition tame {A} (m : M A) : Prop :=
  forall h r h1, m h = Some (r, h1) ->
    (exists evs, h1 = evs ++ h /\ closes evs = false)
    /\ (forall e, r = Raise e -> early e).

(** How a run of the export can end: before the wait for the download, with
    the tab as it was; after the wait, with the tab closed last; or on a file
    that can no longer be read. *)
Definition staged {A} (m : M A) : Prop :=
  forall h0 out h, m h0 = Some (out, h) ->
    (exists evs e,
        h = evs ++ h0 /\ closes evs = false /\ out = Raise e /\ early e)
    \/ (exists h', h = Osascript CloseTab :: h'
                   /\ (is_ret out = true \/ out = Raise no_export_found))
    \/ out = Raise OSError.

(** A computation that always comes back. *)
Definition returns {A} (m : M A) : Prop := forall h, m h <> None.


End HeistSpec.

(* ================================================================== *)
(** ** server.py: the classification of errors *)
(* ================================================================== *)

Module Server.

(** [error_str.split('\n')[0]] *)
Fixpoint first_line (s : str) : str :=
  match s with
  | [] => []
  | c :: r => if (c =? 10)%N then [] else c :: first_line r
  end.

(** [format_error(e)], on [error_str = str(e)], the message of the
    exception: the dictionary it returns, keys in order. *)
Definition format_error (error_str : str) : list (str * str) :=
  if contains (py "Bot detection") error_str
     || contains (py "Oops... an error has occurred") error_str
  then
    [ (py "error", py "Bot detection triggered");
      (py "message",
       py "Expensify may have detected automation. Try clearing the session with: rm -rf ~/.expensify-session");
      (py "details", error_str) ]
  else if contains (py "Not logged in") error_str then
    [ (py "error", py "Not logged in");
      (py "message", py "Please run expensify_login first to authenticate.") ]
  else if contains (py "Timeout") error_str then
    [ (py "error", py "Timeout");
      (py "message",
       py "The operation timed out. The page may be loading slowly or the UI may have changed.");
      (py "details", first_line error_str) ]
  else [ (py "error", error_str) ].

(** [d.get(key)] on such a dictionary. *)
Fixpoint lookup (key : str) (d : list (str * str)) : option str :=
  match d with
  | [] => None
  | (k, v) :: d' => if str_eqb k key then Some v else lookup key d'
  end.

End Server.

(* ================================================================== *)
(** ** More of the two modules *)
(* ================================================================== *)

Module ParserExtraSpec.
Import Parser ParserSpec.

(** The first alias of each canonical field, in the order in which the
    fields of an expense are built. *)
Definition first_choice : list str :=
  map (fun kv => hd [] (snd kv)) field_mapping.

(** Every column name the parser knows. *)
Definition known_names : list str := List.concat (map snd field_mapping).

(** A text of two lines, the second with a lone carriage return inside a
    cell. *)
Definition bare_cr_csv : str :=
  py "Amount" ++ [10%N] ++ py "5" ++ [13%N] ++ py "x" ++ [10%N].

(** A header and two data rows. *)
Definition two_rows_csv : str :=
  py "Merchant,Amount" ++ [10%N] ++ py "Coffee Co,$4.50" ++ [10%N]
  ++ py "Acme,(12.00)" ++ [10%N].

(** A row with columns the parser does not know. *)
Definition unknown_row : Row :=
  mkRow [(py "Foo", Some (py "1")); (py "Bar", Some (py "2"))] None.

(** A row whose only known column is Description. *)
Definition description_row : Row :=
  mkRow [(py "Description", Some (py "Taxi")); (py "Amount", Some (py "12"))] None.

(** A row with an empty Merchant cell and a Vendor. *)
Definition empty_merchant_row : Row :=
  mkRow [(py "Merchant", Some []); (py "Vendor", Some (py "Acme"))] None.

(** A long row whose header has the first alias of every field. *)
Definition full_long_row : Row :=
  mkRow (map (fun name => (name, Some (py "x"))) first_choice) (Some [py "extra"]).

End ParserExtraSpec.

Module HeistExtraSpec.
Import Heist HeistSpec.

(** [s.replace(old, new)] for a one-character [old]. *)
Definition replace1 (old : N) (new : str) (s : str) : str :=
  flat_map (fun c => if (c =? old)%N then new else [c]) s.

(** The escaping in [run_javascript]: backslashes are doubled, then every
    double quote gets a backslash in front. *)
Definition js_escaped (js : str) : str :=
  replace1 34 [92; 34]%N (replace1 92 [92; 92]%N js).

(** An AppleScript string literal read from after its opening quote: the
    text and what follows the closing quote.  A backslash takes the
    backslash or the quote after it as it is; the other escapes are left out
    ([None]), as is a literal that does not end. *)
Fixpoint read_literal (s : str) : option (str * str) :=
  match s with
  | [] => None
  | c :: r =>
      if (c =? 34)%N then Some ([], r)
      else if (c =? 92)%N then
        match r with
        | e :: r' =>
            if (e =? 92)%N || (e =? 34)%N then
              match read_literal r' with
              | Some (text, rest) => Some (e :: text, rest)
              | None => None
              end
            else None
        | [] => None
        end
      else
        match read_literal r with
        | Some (text, rest) => Some (c :: text, rest)
        | None => None
        end
  end.

(** The events that click in the page. *)
Definition is_click (ev : Event) : bool :=
  match ev with
  | Osascript (DoJavaScript js_click_checkbox)
  | Osascript (DoJavaScript js_click_export)
  | Osascript (DoJavaScript js_click_csv) => true
  | _ => false
  end.

Definition is_print (ev : Event) : bool :=
  match ev with Print _ => true | _ => false end.

(** An error of the bridge: what [run_applescript] raises. *)
Definition bridge_error (e : Exn) : Prop :=
  exists msg, e = RuntimeError (py "AppleScript error: " ++ msg).

(** A step of a run: the events it adds contain none of the [bad] ones, it
    sleeps between nothing and [d] milliseconds, and it raises exceptions with
    [P] only. *)
Definition calm (bad : Event -> bool) (d : Z) (P : Exn -> Prop)
           {A} (m : M A) : Prop :=
  forall h r h1, m h = Some (r, h1) ->
    exists evs,
      h1 = evs ++ h /\ existsb bad evs = false
      /\ (0 <= total_sleep evs <= d)%Z
      /\ (forall e, r = Raise e -> P e).

(** Any exception. *)
Definition always (e : Exn) : Prop := True.

(** A step that never raises. *)
Definition no_exn (e : Exn) : Prop := False.

(** The tab shows [url] whatever happens; everything else goes well. *)
Definition env_at_url (url : str) : Env :=
  mkEnv (fun _ script =>
           match script with
           | GetURL => mkCompleted 0 url []
           | _ => good_answer script
           end)
        1000000 (fun _ => []).

(** An address of the reports page that names the sign-in page. *)
Definition reports_after_signin : str :=
  py "https://www.expensify.com/reports?from=signin".

(** An error text of two lines. *)
Definition timeout_text : str :=
  py "Timeout 30000ms exceeded." ++ [10%N] ++ py "Call log: waiting".

(** The tab stays on the sign-in page. *)
Definition env_signed_out : Env := env_at_url signin_url.

(** The events of a successful session probe, the newest first. *)
Definition probe_events : list Event :=
  [Osascript GetURL; Sleep 3000; Osascript (SetURL reports_url);
   Osascript EnsureWindow; Osascript Activate].

(** The three clicks of the export and the pauses between them, the newest
    first. *)
Definition click_events : list Event :=
  [Osascript (DoJavaScript js_click_csv); Sleep 500;
   Osascript (DoJavaScript js_click_export); Sleep 500;
   Osascript (DoJavaScript js_click_checkbox)].

(** The events of the first part of an export whose page is ready at the
    first look, the newest first. *)
Definition reach_events : list Event :=
  [Osascript GetURL; Osascript (DoJavaScript js_count_checkboxes); Sleep 1000;
   Osascript (SetURL reports_url); Osascript EnsureWindow; Osascript Activate].

(** The [k] half-second pauses of the wait for the download. *)
Definition pauses (k : nat) : list Event := repeat (Sleep 500) k.

Section Stages.

Variable env : Env.

(** The first part of [sync_fetch_expenses_csv]: the navigation, the wait for
    the page and the check of the session; its value is [start_time]. *)
Definition reach_reports : M Z :=
  run_applescript env Activate ;;
  set_safari_url env reports_url ;;
  ready <- await_page_ready env 20 ;;
  if negb ready then raise page_not_ready
  else
    url <- get_safari_url env ;;
    if contains (py "sign-in") (lower url) || contains (py "signin") (lower url)
    then raise not_logged_in
    else time env.

(** Its second part: the three clicks. *)
Definition click_through : M unit :=
  result <- run_javascript env js_click_checkbox ;;
  if negb (str_eqb result (py "clicked")) then raise no_checkbox
  else
    sleep 500 ;;
    result <- run_javascript env js_click_export ;;
    if negb (str_eqb result (py "clicked")) then raise no_export_button
    else
      sleep 500 ;;
      result <- run_javascript env js_click_csv ;;
      if negb (str_eqb result (py "clicked")) then raise no_csv_option
      else ret tt.

(** Its last part: the wait for the download. *)
Definition wait_for_download (timeout start_time : Z) : M (str * str) :=
  let end_time := (start_time + timeout * 1000)%Z in
  now <- time env ;;
  await_download env (S (Z.to_nat ((end_time - now) / 500))) start_time end_time.

(** The part of [sync_login_interactive] after a probe that failed. *)
Definition prompt_and_poll (timeout_seconds : Z) : M bool :=
  set_safari_url env signin_url ;;
  print (py "Please log in to Expensify in Safari.") ;;
  start <- time env ;;
  login_loop env (S (Z.to_nat (timeout_seconds * 1000 / 3000))) start
             timeout_seconds.

End Stages.

(** The errors of the first and of the second part of the export. *)
Definition reach_error (e : Exn) : Prop :=
  bridge_error e \/ e = page_not_ready \/ e = not_logged_in.

Definition click_error (e : Exn) : Prop :=
  bridge_error e \/ e = no_checkbox \/ e = no_export_button \/ e = no_csv_option.

(** The bridge is down: every program fails. *)
Definition env_bridge_down : Env :=
  mkEnv (fun _ _ => mkCompleted 1 [] (py "Safari got an error")) 1000000
        (fun _ => []).

(** What the login prints when it ends. *)
Definition login_successful : Event := Print (py "Login successful!").
Definition login_timed_out : Event := Print (py "Login timed out.").

(** The address the tab shows when the session probe asks for it, the probe
    having started after [h]. *)
Definition probed_url (env : Env) (h : History) : str :=
  strip (stdout (osascript env
                   (Sleep 3000 :: Osascript (SetURL reports_url)
                    :: Osascript EnsureWindow :: Osascript Activate :: h)
                   GetURL)).

(** The events that close the tab or click in the page. *)
Definition is_close_or_click (ev : Event) : bool := is_close ev || is_click ev.

(** The events a login may not cause before its prompt, or at all. *)
Definition loud (ev : Event) : bool := is_close_or_click ev || is_print ev.

(** No event at all is excluded. *)
Definition any_event (ev : Event) : bool := false.

End HeistExtraSpec.

(* ================================================================== *)
(** ** Properties of the normalizer *)
(* ================================================================== *)

Module ParserProofs.
Import Parser ParserSpec.

Unset Implicit Arguments.

(** *** Strings *)

Lemma str_eqb_refl (s : str) : str_eqb s s = true.
Proof. induction s as [|c s IH]; simpl; [reflexivity|]. now rewrite N.eqb_refl. Qed.

Lemma str_eqb_eq (a b : str) : str_eqb a b = true <-> a = b.
Proof.
  split.
  - revert b; induction a as [|x a IH]; intros [|y b]; simpl; try easy.
    intros H. apply andb_true_iff in H as [H1 H2].
    apply N.eqb_eq in H1. now rewrite H1, (IH b H2).
  - intros ->. apply str_eqb_refl.
Qed.

Lemma str_eqb_nil_r (s : str) :
  str_eqb s [] = match s with [] => true | _ :: _ => false end.
Proof. now destruct s. Qed.

(** *** Boolean columns *)

Lemma lower_cons (c : N) (v : str) : lower (c :: v) = lower_cp c ++ lower v.
Proof. reflexivity. Qed.

Lemma lower_eqb_plain (t v : str) :
  forallb plain t = true -> str_eqb (lower v) t = caseless_eqb v t.
Proof.
  revert t; induction v as [|c v IH]; intros t Ht.
  - now destruct t.
  - rewrite lower_cons. destruct t as [|y t].
    + unfold lower_cp.
      destruct (ascii_upper_letter c); [reflexivity|].
      destruct (c =? 304)%N; [reflexivity|]. now destruct (c =? 8490)%N.
    + simpl in Ht. apply andb_true_iff in Ht as [Hy Ht].
      specialize (IH t Ht).
      unfold plain in Hy. repeat rewrite andb_true_iff in Hy.
      destruct Hy as [[[Hup Hi] Hk] Hascii].
      apply negb_true_iff in Hup, Hi, Hk. apply N.ltb_lt in Hascii.
      apply N.eqb_neq in Hi, Hk.
      cbn [caseless_eqb]. unfold same_letter, ascii_lower at 2. rewrite Hup.
      unfold lower_cp, ascii_lower.
      destruct (ascii_upper_letter c) eqn:Hc.
      * cbn [app str_eqb]. now rewrite IH.
      * destruct (N.eqb_spec c 304) as [->|H304].
        -- cbn [app str_eqb].
           destruct (N.eqb_spec 105 y) as [E|_]; [now subst|].
           destruct (N.eqb_spec 304 y); [lia|reflexivity].
        -- destruct (N.eqb_spec c 8490) as [->|H8490].
           ++ cbn [app str_eqb].
              destruct (N.eqb_spec 107 y) as [E|_]; [now subst|].
              destruct (N.eqb_spec 8490 y); [lia|reflexivity].
           ++ cbn [app str_eqb]. now rewrite IH.
Qed.

Lemma ascii_lower_idem (c : N) : ascii_lower (ascii_lower c) = ascii_lower c.
Proof.
  unfold ascii_lower. destruct (ascii_upper_letter c) eqn:E; [|now rewrite E].
  unfold ascii_upper_letter in *. apply andb_true_iff in E as [E1 E2].
  apply N.leb_le in E1, E2.
  replace ((65 <=? c + 32) && (c + 32 <=? 90))%N with false; [reflexivity|].
  symmetry. apply andb_false_iff. right. apply N.leb_gt. lia.
Qed.

Lemma caseless_eqb_lower_r (v t : str) :
  caseless_eqb v (map ascii_lower t) = caseless_eqb v t.
Proof.
  revert t; induction v as [|c v IH]; intros [|y t]; simpl; try reflexivity.
  unfold same_letter. now rewrite ascii_lower_idem, IH.
Qed.

(** C8: a boolean column is true exactly for the values that are "Yes",
    "true", "1" or "Y" up to the case of their letters; it is false for an
    absent column, for the empty text and for "No", as for every other
    value. *)
Theorem parse_bool_affirmative_any_case :
  (forall value,
     parse_bool value =
     match value with
     | None => false
     | Some v => existsb (caseless_eqb v) affirmative
     end)
  /\ parse_bool None = false
  /\ parse_bool (Some []) = false
  /\ parse_bool (Some (py "No")) = false
  /\ parse_bool (Some (py "YES")) = true
  /\ parse_bool (Some (py "tRuE")) = true.
Proof.
  split; [|repeat split; reflexivity].
  intros [v|]; [|reflexivity].
  destruct v as [|c v]; [reflexivity|].
  unfold parse_bool, affirmative. cbn [existsb].
  rewrite !lower_eqb_plain by reflexivity.
  rewrite <- (caseless_eqb_lower_r _ (py "Yes")).
  rewrite <- (caseless_eqb_lower_r _ (py "Y")).
  reflexivity.
Qed.

(** *** Column resolution *)

Lemma dict_get_key (d : list (str * option str)) (k : str) :
  In k (map fst d) -> exists v, dict_get k d = Some v.
Proof.
  induction d as [|[k' v'] d IH]; simpl; [easy|].
  intros [->|H].
  - rewrite str_eqb_refl. now exists v'.
  - destruct (str_eqb k' k); [now exists v'|auto].
Qed.

Lemma scan_keys_find (row : Row) (name : str) (keys : list str)
      (rest : list (option str)) :
  scan_keys row name (map Some keys ++ rest) =
  match find (fun key => str_eqb (lower key) (lower name)) keys with
  | Some key => res_bind (getitem row key) (fun v => Ret (Some v))
  | None => scan_keys row name rest
  end.
Proof.
  induction keys as [|k keys IH]; simpl; [reflexivity|].
  destruct (str_eqb (lower k) (lower name)); [reflexivity|apply IH].
Qed.

Lemma scan_keys_row (row : Row) (name : str) :
  scan_keys row name (row_keys row) =
  match find (fun key => str_eqb (lower key) (lower name)) (map fst (cols row)) with
  | Some key =>
      match dict_get key (cols row) with
      | Some v => Ret (Some v)
      | None => Raise KeyError
      end
  | None =>
      match restcells row with
      | Some _ => Raise AttributeError
      | None => Ret None
      end
  end.
Proof.
  unfold row_keys. rewrite <- (map_map fst Some). rewrite scan_keys_find.
  destruct (find _ _) as [key|] eqn:E.
  - unfold getitem. now destruct (dict_get key (cols row)).
  - now destruct (restcells row).
Qed.

Lemma find_field_returns (row : Row) (names : list str) (v : option str) :
  find_field row names = Ret v -> v = resolve row names.
Proof.
  induction names as [|name names IH]; simpl.
  - now intros [= <-].
  - unfold alias_value. destruct (dict_get name (cols row)) as [v'|] eqn:E.
    + now intros [= <-].
    + rewrite scan_keys_row.
      destruct (find _ _) as [key|] eqn:F.
      * destruct (dict_get key (cols row)) as [w|]; simpl; [|easy].
        now intros [= <-].
      * destruct (restcells row); simpl; [easy|]. apply IH.
Qed.

Lemma find_field_total (row : Row) (names : list str) :
  restcells row = None -> find_field row names = Ret (resolve row names).
Proof.
  intros Hrest. induction names as [|name names IH]; simpl; [reflexivity|].
  unfold alias_value. destruct (dict_get name (cols row)) as [v'|] eqn:E.
  - reflexivity.
  - rewrite scan_keys_row, Hrest.
    destruct (find _ _) as [key|] eqn:F.
    + apply find_some in F as [Hin _].
      destruct (dict_get_key _ _ Hin) as [w ->]. reflexivity.
    + simpl. apply IH.
Qed.

(** How far the resolution holds: on a row no longer than the header a
    field resolves through its aliases in order of priority, each alias by
    the column of that exact name and else by the first column with the same
    name up to case, and the first alias that has a column wins; with a
    "Merchant" and a "Vendor" column in the row the merchant is the cell of
    "Merchant". *)
Lemma find_field_alias_priority :
  (forall row names, restcells row = None ->
     find_field row names = Ret (resolve row names))
  /\ (forall row names v, find_field row names = Ret v -> v = resolve row names)
  /\ (forall row m v,
        dict_get (py "Merchant") (cols row) = Some m ->
        dict_get (py "Vendor") (cols row) = Some v ->
        find_field row (aliases "merchant") = Ret m).
Proof.
  split; [exact find_field_total|].
  split; [exact find_field_returns|].
  intros row m v Hm _.
  replace (aliases "merchant")
    with (py "Merchant" :: [py "Vendor"; py "Payee"; py "Description"])
    by reflexivity.
  cbn [find_field]. now rewrite Hm.
Qed.

Lemma find_field_alias_priority_witness :
  find_field two_vendor_row (aliases "merchant") = Ret (Some (py "Coffee Co"))
  /\ find_field two_vendor_row (aliases "tag") = Ret (resolve two_vendor_row (aliases "tag")).
Proof.
  destruct find_field_alias_priority as (Htotal & _ & Hmerchant). split.
  - apply (Hmerchant two_vendor_row (Some (py "Coffee Co")) (Some (py "Acme")));
      reflexivity.
  - apply Htotal. reflexivity.
Defined.

(** C4 fails on the code, in two ways.  On a row with more cells than the
    header the look-up of the date raises, where the claim has it resolve to
    the cell of the Date column.  On a row whose Category cell is missing
    the look-up of the category stops at that column and returns no value,
    where the claim has the first alias with a present value, GL Code,
    win. *)
Theorem find_field_misses_present_value :
  (items (DictReader long_row_csv) = [long_row]
   /\ first_present long_row (aliases "date") = Some (py "2024-01-01")
   /\ find_field long_row (aliases "date") = Raise AttributeError)
  /\ (items (DictReader short_row_csv) = [short_row]
      /\ first_present short_row (aliases "category") = Some (py "6100")
      /\ find_field short_row (aliases "category") = Ret None).
Proof. repeat split; reflexivity. Qed.

(** *** Amounts: the special values *)

Lemma strip_prefix_ci_lower (p s : str) :
  strip_prefix_ci p s =
  if startswith p (map ascii_lower s) then Some (skipn (List.length p) s) else None.
Proof.
  revert s; induction p as [|x p IH]; intros s; [reflexivity|].
  destruct s as [|y s]; [reflexivity|].
  cbn [strip_prefix_ci map startswith List.length skipn].
  rewrite (N.eqb_sym x). destruct (ascii_lower y =? x)%N; [apply IH|reflexivity].
Qed.

Lemma str_eqb_split (p q L : str) :
  str_eqb L (p ++ q) = startswith p L && str_eqb (skipn (List.length p) L) q.
Proof.
  revert L; induction p as [|x p IH]; intros L; [reflexivity|].
  destruct L as [|y L]; [reflexivity|].
  cbn [app str_eqb startswith List.length skipn].
  rewrite (N.eqb_sym x), IH. apply andb_assoc.
Qed.

Lemma startswith_head (x : N) (p L : str) :
  startswith (x :: p) L = true -> exists L', L = x :: L'.
Proof.
  destruct L as [|y L]; [discriminate|]. cbn [startswith].
  intros H. apply andb_true_iff in H as [H _]. apply N.eqb_eq in H.
  subst. now exists L.
Qed.

Lemma span_digits_all (r : str) :
  is_nil (snd (span_digits r)) = forallb isdigit r.
Proof.
  induction r as [|c r IH]; [reflexivity|].
  cbn [span_digits forallb]. destruct (isdigit c); [|reflexivity].
  destruct (span_digits r) as [d t]. exact IH.
Qed.

Lemma nan_payload_some (negative signaling : bool) (r : str) :
  is_some (nan_payload negative signaling r) = forallb isdigit r.
Proof.
  unfold nan_payload. rewrite <- span_digits_all.
  destruct (span_digits r) as [d [|c t]]; reflexivity.
Qed.

Lemma isdigit_ascii_lower (c : N) : isdigit (ascii_lower c) = isdigit c.
Proof.
  unfold ascii_lower. destruct (ascii_upper_letter c) eqn:E; [|reflexivity].
  unfold ascii_upper_letter in E. apply andb_true_iff in E as [E1 E2].
  apply N.leb_le in E1, E2. unfold isdigit.
  transitivity false; [|symmetry];
    apply andb_false_iff; right; apply N.leb_gt; lia.
Qed.

Lemma forallb_isdigit_lower (r : str) :
  forallb isdigit (map ascii_lower r) = forallb isdigit r.
Proof.
  induction r as [|c r IH]; [reflexivity|].
  cbn [map forallb]. now rewrite isdigit_ascii_lower, IH.
Qed.

Lemma is_nil_map {A B} (f : A -> B) (l : list A) : is_nil (map f l) = is_nil l.
Proof. now destruct l. Qed.

Lemma str_eqb_inf (L : str) :
  str_eqb L (py "inf") = startswith (py "inf") L && is_nil (skipn 3 L).
Proof.
  change (py "inf") with (py "inf" ++ []) at 1.
  now rewrite str_eqb_split, str_eqb_nil_r.
Qed.

Lemma str_eqb_infinity (L : str) :
  str_eqb L (py "infinity") =
  startswith (py "inf") L && str_eqb (skipn 3 L) (py "inity").
Proof.
  change (py "infinity") with (py "inf" ++ py "inity").
  now rewrite str_eqb_split.
Qed.

Lemma str_eqb_inity (L : str) :
  str_eqb L (py "inity") = startswith (py "inity") L && is_nil (skipn 5 L).
Proof.
  change (py "inity") with (py "inity" ++ []) at 1.
  now rewrite str_eqb_split, str_eqb_nil_r.
Qed.

(** The texts [parse_special] accepts are the spellings of the special
    values. *)
Lemma parse_special_spelling (negative : bool) (s : str) :
  let body := map ascii_lower s in
  is_some (parse_special negative s) =
  str_eqb body (py "inf") || str_eqb body (py "infinity")
  || nan_spelling (py "nan") body || nan_spelling (py "snan") body.
Proof.
  intros body. unfold parse_special, nan_spelling.
  rewrite !strip_prefix_ci_lower. fold body.
  rewrite str_eqb_inf, str_eqb_infinity.
  destruct (startswith (py "nan") body) eqn:Hnan.
  - destruct (startswith_head _ _ _ Hnan) as [L' HL].
    replace (startswith (py "inf") body) with false by now rewrite HL.
    replace (startswith (py "snan") body) with false by now rewrite HL.
    cbn [andb orb]. rewrite nan_payload_some. unfold body.
    now rewrite skipn_map, forallb_isdigit_lower, orb_false_r.
  - destruct (startswith (py "snan") body) eqn:Hsnan.
    + destruct (startswith_head _ _ _ Hsnan) as [L' HL].
      replace (startswith (py "inf") body) with false by now rewrite HL.
      cbn [andb orb]. rewrite nan_payload_some. unfold body.
      now rewrite skipn_map, forallb_isdigit_lower.
    + cbn [andb orb]. rewrite !orb_false_r.
      destruct (startswith (py "inf") body) eqn:Hinf; [|reflexivity].
      cbn [andb]. unfold body. rewrite skipn_map, is_nil_map.
      change (List.length (py "inf")) with 3.
      destruct (skipn 3 s) as [|c r] eqn:Hr; [reflexivity|].
      rewrite strip_prefix_ci_lower, str_eqb_inity, skipn_map, is_nil_map.
      cbn [orb is_nil].
      destruct (startswith (py "inity") (map ascii_lower (c :: r))); [|reflexivity].
      change (List.length (py "inity")) with 5.
      now destruct (skipn 5 (c :: r)).
Qed.

Lemma parse_special_not_finite (negative : bool) (s : str) (d : Decimal) :
  parse_special negative s = Some d -> is_finite d = false.
Proof.
  unfold parse_special, nan_payload.
  repeat match goal with
         | |- context [match ?x with _ => _ end] => destruct x
         | |- context [let (_, _) := ?x in _] => destruct x
         end; try discriminate; now intros [= <-].
Qed.

Lemma parse_unsigned_finite (negative : bool) (body : str) :
  is_finite match parse_unsigned negative body with
            | Some d => d
            | None => Decimal_zero
            end
  = negb (is_some (parse_special negative body)).
Proof.
  unfold parse_unsigned.
  destruct (parse_special negative body) as [d|] eqn:E.
  - cbn [is_some negb]. eapply parse_special_not_finite, E.
  - destruct (parse_number body) as [[c e]|]; reflexivity.
Qed.

(** How far the amounts are finite: the amount is a finite decimal unless
    the cleaned cell spells one of the special values of [Decimal], which
    the constructor accepts without raising, so that the zero of the
    [except] branch does not come in. *)
Lemma parse_amount_finite_unless_special (amount_str : option str) :
  is_finite (parse_amount amount_str) = negb (amount_special amount_str).
Proof.
  destruct amount_str as [[|c s]|]; try reflexivity.
  unfold parse_amount, amount_special, spells_special, Decimal_of_str.
  destruct (numeric_as_ascii (strip (amount_text (c :: s)))) as [a|];
    [|reflexivity].
  unfold Decimal_of_ascii. destruct (take_sign a) as [negative body].
  cbn [snd]. rewrite parse_unsigned_finite.
  now rewrite parse_special_spelling.
Qed.

(** C2 fails on the code: the cell "NaN" gives a NaN and the cell "Infinity"
    an infinity, where the claim has a finite amount for every cell.  The
    constructor takes both texts as numbers, so the [except] branch that
    puts zero for a text that is no number is not reached. *)
Theorem parse_amount_NaN_not_finite :
  parse_amount (Some (py "NaN")) = NaN false false 0
  /\ is_nan (parse_amount (Some (py "NaN"))) = true
  /\ parse_amount (Some (py "Infinity")) = Infinity false
  /\ ~ (forall amount_str, is_finite (parse_amount amount_str) = true).
Proof.
  repeat split; try reflexivity.
  intros H. specialize (H (Some (py "NaN"))). discriminate H.
Qed.

(** *** Amounts: accounting parentheses *)

Lemma filter_filter {A} (p q : A -> bool) (l : list A) :
  filter p (filter q l) = filter (fun x => q x && p x) l.
Proof.
  induction l as [|x l IH]; [reflexivity|].
  cbn [filter]. destruct (q x); cbn [filter andb]; now rewrite IH.
Qed.

Lemma fold_replace_char (chars : list N) (s : str) :
  fold_left (fun cleaned char => replace_char char cleaned) chars s =
  filter (fun c => negb (existsb (N.eqb c) chars)) s.
Proof.
  revert s; induction chars as [|ch chars IH]; intros s.
  - cbn [fold_left existsb negb]. induction s as [|c s IHs]; [reflexivity|].
    cbn [filter]. now rewrite <- IHs.
  - cbn [fold_left]. rewrite IH. unfold replace_char. rewrite filter_filter.
    apply filter_ext. intros c. cbn [existsb]. now rewrite negb_orb.
Qed.

Lemma remove_currency_filter (s : str) :
  remove_currency s = filter (fun c => negb (is_currency c)) s.
Proof. apply fold_replace_char. Qed.

Lemma remove_currency_app (a b : str) :
  remove_currency (a ++ b) = remove_currency a ++ remove_currency b.
Proof. rewrite !remove_currency_filter. apply filter_app. Qed.

Lemma space_not_currency (c : N) : isspace c = true -> is_currency c = false.
Proof.
  intros H. unfold is_currency, currency_chars. cbn [existsb].
  repeat match goal with
         | |- context [N.eqb c ?k] =>
             destruct (N.eqb_spec c k) as [->|_]; [discriminate H|]
         end.
  reflexivity.
Qed.

Lemma remove_currency_spaces (w : str) :
  forallb isspace w = true -> remove_currency w = w.
Proof.
  rewrite remove_currency_filter.
  induction w as [|c w IH]; [reflexivity|]. cbn [forallb filter].
  intros H. apply andb_true_iff in H as [Hc Hw].
  now rewrite (space_not_currency _ Hc), (IH Hw).
Qed.

Lemma rstrip_cons (c : N) (r : str) :
  isspace c = false -> rstrip (c :: r) = c :: rstrip r.
Proof. intros H. cbn [rstrip]. rewrite H. now destruct (rstrip r). Qed.

Lemma rstrip_spaces (w : str) : forallb isspace w = true -> rstrip w = [].
Proof.
  induction w as [|c w IH]; [reflexivity|]. cbn [forallb rstrip].
  intros H. apply andb_true_iff in H as [Hc Hw]. now rewrite (IH Hw), Hc.
Qed.

Lemma rstrip_app_spaces (l w : str) :
  forallb isspace w = true -> rstrip (l ++ w) = rstrip l.
Proof.
  intros Hw. induction l as [|c l IH].
  - cbn [app]. now apply rstrip_spaces.
  - cbn [app rstrip]. now rewrite IH.
Qed.

Lemma rstrip_snoc (l : str) (c : N) :
  isspace c = false -> rstrip (l ++ [c]) = l ++ [c].
Proof.
  intros Hc. induction l as [|x l IH].
  - cbn. now rewrite Hc.
  - cbn [app rstrip]. rewrite IH. now destruct (l ++ [c]) eqn:E; [destruct l|].
Qed.

Lemma rstrip_split (s : str) :
  exists w, s = rstrip s ++ w /\ forallb isspace w = true.
Proof.
  induction s as [|c s (w & Hs & Hw)].
  - now exists [].
  - cbn [rstrip]. destruct (rstrip s) as [|x r] eqn:E.
    + destruct (isspace c) eqn:Hc.
      * exists (c :: s). split; [reflexivity|].
        cbn [forallb]. rewrite Hc. cbn [app] in Hs. now rewrite Hs.
      * exists w. split; [|exact Hw]. cbn [app] in *. now f_equal.
    + exists w. split; [|exact Hw]. cbn [app] in *. now f_equal.
Qed.

Lemma numeral_start_range (d : N) :
  numeral_start d = true -> (46 <= d <= 57)%N /\ d <> 47%N.
Proof.
  unfold numeral_start, isdigit. intros H.
  apply orb_true_iff in H as [H|H].
  - apply andb_true_iff in H as [H1 H2]. apply N.leb_le in H1, H2. lia.
  - apply N.eqb_eq in H. lia.
Qed.

Lemma numeral_start_facts (d : N) :
  numeral_start d = true ->
  isspace d = false /\ is_currency d = false /\ ascii_lower d = d.
Proof.
  intros H. apply numeral_start_range in H as [[H1 H2] H3].
  assert (Hd : (d = 46 \/ d = 48 \/ d = 49 \/ d = 50 \/ d = 51 \/ d = 52
               \/ d = 53 \/ d = 54 \/ d = 55 \/ d = 56 \/ d = 57)%N) by lia.
  repeat (destruct Hd as [Hd|Hd]; [subst d; repeat split; reflexivity|]).
  subst d; repeat split; reflexivity.
Qed.

Lemma take_sign_numeral (d : N) (r : str) :
  numeral_start d = true -> take_sign (d :: r) = (false, d :: r).
Proof.
  intros H. apply numeral_start_range in H as [[H1 H2] H3]. cbn [take_sign].
  destruct (N.eqb_spec d 45); [lia|]. destruct (N.eqb_spec d 43); [lia|].
  reflexivity.
Qed.

Lemma parse_special_numeral (negative : bool) (d : N) (r : str) :
  numeral_start d = true -> parse_special negative (d :: r) = None.
Proof.
  intros H. destruct (numeral_start_facts _ H) as (_ & _ & Hl).
  apply numeral_start_range in H as [[H1 H2] H3].
  unfold parse_special.
  change (py "nan") with [110; 97; 110]%N.
  change (py "snan") with [115; 110; 97; 110]%N.
  change (py "inf") with [105; 110; 102]%N.
  cbn [strip_prefix_ci]. rewrite Hl.
  repeat match goal with
       | |- context [N.eqb d ?k] => destruct (N.eqb_spec d k); [lia|]
       end.
  reflexivity.
Qed.

Lemma parse_special_negate (s : str) :
  parse_special true s = option_map copy_negate (parse_special false s).
Proof.
  unfold parse_special, nan_payload.
  destruct (strip_prefix_ci (py "nan") s) as [r|].
  { destruct (span_digits r) as [d [|? ?]]; reflexivity. }
  destruct (strip_prefix_ci (py "snan") s) as [r|].
  { destruct (span_digits r) as [d [|? ?]]; reflexivity. }
  destruct (strip_prefix_ci (py "inf") s) as [[|c r]|]; try reflexivity.
  destruct (strip_prefix_ci (py "inity") (c :: r)) as [[|? ?]|]; reflexivity.
Qed.

Lemma parse_unsigned_negate (body : str) :
  parse_unsigned true body = option_map copy_negate (parse_unsigned false body).
Proof.
  unfold parse_unsigned. rewrite parse_special_negate.
  destruct (parse_special false body); [reflexivity|].
  destruct (parse_number body) as [[c e]|]; reflexivity.
Qed.

Lemma replace_char_cons (ch c : N) (s : str) :
  c <> ch -> replace_char ch (c :: s) = c :: replace_char ch s.
Proof.
  intros H. unfold replace_char. cbn [filter].
  destruct (N.eqb_spec c ch); [contradiction|reflexivity].
Qed.

Lemma numeric_as_ascii_cons (c : N) (r : str) :
  (0 < c <= 127)%N -> c <> 95%N ->
  numeric_as_ascii (c :: r) = option_map (cons c) (numeric_as_ascii r).
Proof.
  intros Hc H95. cbn [numeric_as_ascii].
  destruct (N.eqb_spec c 95); [contradiction|].
  destruct (N.ltb_spec 0 c); [|lia]. destruct (N.leb_spec c 127); [|lia].
  reflexivity.
Qed.

Lemma numeric_as_ascii_numeral (d : N) (r : str) :
  numeral_start d = true ->
  numeric_as_ascii (d :: r) = option_map (cons d) (numeric_as_ascii r).
Proof.
  intros Hd. pose proof (numeral_start_range _ Hd) as [[H1 H2] H3].
  apply numeric_as_ascii_cons; lia.
Qed.

Lemma Decimal_of_str_minus (t : str) (d : N) (t' : str) :
  t = d :: t' -> numeral_start d = true ->
  Decimal_of_str (45%N :: t) =
  match numeric_as_ascii (rstrip t) with
  | Some a => parse_unsigned true a
  | None => None
  end.
Proof.
  intros -> Hd. unfold Decimal_of_str, strip. cbn [lstrip].
  change (isspace 45) with false. cbv iota.
  rewrite (@rstrip_cons 45) by reflexivity.
  rewrite numeric_as_ascii_cons by (try lia; discriminate).
  now destruct (numeric_as_ascii (rstrip (d :: t'))).
Qed.

Lemma Decimal_of_str_numeral (d : N) (t' : str) :
  numeral_start d = true ->
  Decimal_of_str (d :: t') =
  match numeric_as_ascii (rstrip (d :: t')) with
  | Some a => parse_unsigned false a
  | None => None
  end.
Proof.
  intros Hd. destruct (numeral_start_facts _ Hd) as (Hsp & _ & _).
  unfold Decimal_of_str, strip. cbn [lstrip]. rewrite Hsp.
  rewrite rstrip_cons by exact Hsp.
  rewrite (numeric_as_ascii_numeral d _ Hd).
  destruct (numeric_as_ascii (rstrip t')) as [a|]; [|reflexivity].
  cbn [option_map]. unfold Decimal_of_ascii.
  now rewrite take_sign_numeral.
Qed.

(** What the two cells of C6 become on their way to [Decimal]. *)
Lemma amount_text_parenthesized (X : str) :
  amount_text (parenthesized X) = 45%N :: remove_currency X.
Proof.
  unfold amount_text, parenthesized.
  change (py "($" ++ X ++ py ")") with (40%N :: 36%N :: X ++ [41%N]).
  assert (Hstrip : strip (40%N :: 36%N :: X ++ [41%N]) = 40%N :: 36%N :: X ++ [41%N]).
  { unfold strip. cbn [lstrip]. change (isspace 40) with false. cbv iota.
    change (40%N :: 36%N :: X ++ [41%N]) with ((40%N :: 36%N :: X) ++ [41%N]).
    now apply rstrip_snoc. }
  rewrite Hstrip.
  change (40%N :: 36%N :: X ++ [41%N]) with ([40%N; 36%N] ++ X ++ [41%N]).
  rewrite !remove_currency_app.
  change (remove_currency [40%N; 36%N]) with [40%N].
  change (remove_currency [41%N]) with [41%N].
  cbn [app]. unfold endswith.
  change (rev (py ")")) with [41%N].
  change (40%N :: remove_currency X ++ [41%N])
    with ((40%N :: remove_currency X) ++ [41%N]).
  rewrite rev_app_distr. change (py "(") with [40%N].
  cbn [rev app startswith]. cbn [N.eqb Pos.eqb andb].
  unfold slice_1_m1. cbn [app tl].
  now rewrite removelast_last.
Qed.

Lemma unsigned_amount_shape (X : str) :
  unsigned_amount X = true ->
  exists d t, numeral_start d = true
    /\ remove_currency (strip X) = d :: t
    /\ rstrip (d :: t) = rstrip (remove_currency X).
Proof.
  unfold unsigned_amount. intros H.
  destruct (remove_currency X) as [|d cX'] eqn:EcX; [discriminate|].
  fold (numeral_start d) in H.
  destruct (numeral_start_facts _ H) as (Hsp & Hcur & _).
  assert (Hl : lstrip X = X).
  { destruct X as [|c X']; [reflexivity|]. cbn [lstrip].
    destruct (isspace c) eqn:Hc; [|reflexivity]. exfalso.
    rewrite remove_currency_filter in EcX. cbn [filter] in EcX.
    rewrite (space_not_currency _ Hc) in EcX. cbn [negb] in EcX.
    injection EcX as -> _. congruence. }
  unfold strip. rewrite Hl.
  destruct (rstrip_split X) as (w & HX & Hw).
  assert (HcX : remove_currency (rstrip X) ++ w = d :: cX').
  { rewrite <- EcX. rewrite HX at 2.
    now rewrite remove_currency_app, (remove_currency_spaces _ Hw). }
  destruct (remove_currency (rstrip X)) as [|d' t] eqn:EY.
  - exfalso. cbn [app] in HcX. subst w. cbn [forallb] in Hw.
    apply andb_true_iff in Hw as [Hd _]. congruence.
  - cbn [app] in HcX. injection HcX as -> HcX'.
    exists d, t. repeat split; [exact H|].
    rewrite <- HcX'.
    change (d :: t ++ w) with ((d :: t) ++ w).
    now rewrite rstrip_app_spaces.
Qed.

Lemma amount_text_unsigned (X : str) (d : N) (t : str) :
  numeral_start d = true -> remove_currency (strip X) = d :: t ->
  amount_text X = d :: t.
Proof.
  intros Hd E. unfold amount_text. rewrite E.
  apply numeral_start_range in Hd as [[H1 H2] H3].
  change (py "(") with [40%N]. cbn [startswith].
  destruct (N.eqb_spec 40 d); [lia|]. reflexivity.
Qed.

Lemma Decimal_eqb_finite_refl (s : bool) (c : N) (e : Z) :
  Decimal_eqb (Finite s c e) (Finite s c e) = true.
Proof. cbn [Decimal_eqb]. apply Z.eqb_refl. Qed.

Lemma parse_amount_nonempty (s : str) :
  s <> [] -> parse_amount (Some s) = or_zero (Decimal_of_str (amount_text s)).
Proof. destruct s; [contradiction|reflexivity]. Qed.

(** C6, as the code has it: for an amount X without a sign of its own, the
    cell ($X) parses to the negation of what X parses to. *)
Theorem parenthesized_amount_negates (X : str) :
  unsigned_amount X = true ->
  Decimal_eqb (parse_amount (Some (parenthesized X)))
              (copy_negate (parse_amount (Some X))) = true.
Proof.
  intros HX.
  destruct (unsigned_amount_shape _ HX) as (d & t & Hd & Hstrip & Hr).
  assert (HXne : X <> []) by (intros ->; discriminate HX).
  rewrite (parse_amount_nonempty X HXne).
  rewrite (amount_text_unsigned X d t Hd Hstrip), (Decimal_of_str_numeral d t Hd), Hr.
  rewrite parse_amount_nonempty by discriminate.
  rewrite amount_text_parenthesized.
  unfold unsigned_amount in HX.
  destruct (remove_currency X) as [|d0 cX'] eqn:EcX; [discriminate|].
  fold (numeral_start d0) in HX.
  rewrite (Decimal_of_str_minus _ d0 cX' eq_refl HX).
  rewrite rstrip_cons by apply (numeral_start_facts _ HX).
  rewrite (numeric_as_ascii_numeral d0 _ HX).
  destruct (numeric_as_ascii (rstrip cX')) as [a|]; [|reflexivity].
  cbn [option_map]. rewrite parse_unsigned_negate.
  unfold parse_unsigned. rewrite parse_special_numeral by exact HX.
  destruct (parse_number _) as [[co ex]|]; cbn [option_map copy_negate or_zero].
  - apply Decimal_eqb_finite_refl.
  - reflexivity.
Qed.

Lemma parenthesized_amount_negates_witness :
  unsigned_amount (py "12.50") = true
  /\ parse_amount (Some (py "($12.50)")) = Finite true 1250 (-2)
  /\ Decimal_eqb (parse_amount (Some (parenthesized (py "12.50"))))
                 (copy_negate (parse_amount (Some (py "12.50")))) = true.
Proof.
  split; [reflexivity|]. split; [reflexivity|].
  apply (parenthesized_amount_negates (py "12.50")). reflexivity.
Defined.

(** C6, as the claim has it, fails for an X with a sign of its own: ($-5)
    is cleaned to --5, which is no number, and parses to zero, while the
    negation of -5 is 5. *)
Lemma parenthesized_signed_amount_is_zero :
  parse_amount (Some (parenthesized (py "-5"))) = Finite false 0 0
  /\ parse_amount (Some (py "-5")) = Finite true 5 0
  /\ Decimal_eqb (parse_amount (Some (parenthesized (py "-5"))))
                 (copy_negate (parse_amount (Some (py "-5")))) = false.
Proof. repeat split; reflexivity. Qed.

(** *** One expense per row *)

Section Rows.

Variable datetime : Type.
Variable strptime : str -> str -> option datetime.
Variable now : nat -> datetime.

Lemma expense_of_row_total (i : nat) (row : Row) :
  restcells row = None -> exists e, expense_of_row strptime now i row = Ret e.
Proof.
  intros H. unfold expense_of_row.
  rewrite !(find_field_total row _ H). cbn [res_bind]. eauto.
Qed.

(** A text whose rows are no longer than its header gives one expense per
    row, in the order of the rows, and no cell makes the parse raise. *)
Lemma collect_one_per_row (rows : Stream Row) (i : nat) :
  fails rows = false ->
  Forall (fun row => restcells row = None) (items rows) ->
  exists expenses,
    collect strptime now i rows = Ret expenses
    /\ List.length expenses = List.length (items rows)
    /\ forall k row, nth_error (items rows) k = Some row ->
         exists e, nth_error expenses k = Some e
                   /\ expense_of_row strptime now (i + k) row = Ret e.
Proof.
  revert i. induction rows as [| |row more IH]; intros i Hf Hr.
  - exists []. repeat split. intros [|k] row; discriminate.
  - discriminate Hf.
  - cbn [items fails] in *. inversion Hr as [|? ? Hrow Hmore]; subst.
    destruct (expense_of_row_total i row Hrow) as [e He].
    destruct (IH (S i) Hf Hmore) as (es & Hes & Hlen & Hnth).
    exists (e :: es). cbn [collect]. rewrite He. cbn [res_bind]. rewrite Hes.
    cbn [res_bind]. repeat split.
    + cbn [List.length]. now rewrite Hlen.
    + intros [|k] r Hk; cbn [nth_error] in *.
      * injection Hk as <-. exists e. now rewrite Nat.add_0_r.
      * destruct (Hnth k r Hk) as (e' & H1 & H2). exists e'.
        split; [exact H1|]. now rewrite Nat.add_succ_r.
Qed.

Lemma parse_one_expense_per_row (csv_content : str) :
  fails (DictReader csv_content) = false ->
  Forall (fun row => restcells row = None) (items (DictReader csv_content)) ->
  exists expenses,
    parse_expensify_csv strptime now csv_content = Ret expenses
    /\ List.length expenses = List.length (items (DictReader csv_content))
    /\ forall k row, nth_error (items (DictReader csv_content)) k = Some row ->
         exists e, nth_error expenses k = Some e
                   /\ expense_of_row strptime now k row = Ret e.
Proof. intros Hf Hr. exact (collect_one_per_row _ 0 Hf Hr). Qed.

(** C7 fails on the code: a data row with more cells than the header has
    columns is kept by [DictReader] under the key [None], which has no
    [lower], and the parse raises instead of giving the expense of the
    row. *)
Theorem parse_long_row_raises :
  reader long_row_csv =
    Yield [py "Date"; py "Amount"]
      (Yield [py "2024-01-01"; py "5"; py "extra"] Done)
  /\ parse_expensify_csv strptime now long_row_csv = Raise AttributeError.
Proof. split; reflexivity. Qed.

End Rows.

End ParserProofs.

(* ================================================================== *)
(** ** Properties of the export orchestration *)
(* ================================================================== *)

Module HeistProofs.
Import Heist HeistSpec.

Unset Implicit Arguments.

Section Runs.

Variable env : Env.

(** *** The monad *)

Lemma bind_inv {A B} (m : M A) (k : A -> M B) (h : History)
      (out : res B) (h' : History) :
  bind m k h = Some (out, h') ->
  (exists e, m h = Some (Raise e, h') /\ out = Raise e)
  \/ (exists a h1, m h = Some (Ret a, h1) /\ k a h1 = Some (out, h')).
Proof.
  unfold bind. destruct (m h) as [[[a|e] h1]|]; intros H.
  - right. eauto.
  - left. injection H as <- <-. eauto.
  - discriminate.
Qed.

Lemma run_applescript_cases (script : AppleScript) (h : History) :
  (exists out, run_applescript env script h = Some (Ret out, Osascript script :: h))
  \/ (exists msg, run_applescript env script h =
                  Some (Raise (RuntimeError (py "AppleScript error: " ++ msg)),
                        Osascript script :: h)).
Proof.
  unfold run_applescript.
  destruct (returncode (osascript env h script) =? 0)%Z; eauto.
Qed.

Lemma close_safari_tab_run (h : History) :
  close_safari_tab env h = Some (Ret tt, Osascript CloseTab :: h).
Proof.
  unfold close_safari_tab, catch, bind, ret.
  destruct (run_applescript_cases CloseTab h) as [[out ->]|[msg ->]]; reflexivity.
Qed.

Lemma bridge_error_early (msg : str) :
  early (RuntimeError (py "AppleScript error: " ++ msg)).
Proof. split; intros H; vm_compute in H; discriminate H. Qed.

(** *** Steps that leave the tab alone *)

Lemma tame_ret {A} (a : A) : tame (ret a).
Proof.
  intros h r h1 [= <- <-]. split; [now exists []|discriminate].
Qed.

Lemma tame_raise {A} (e : Exn) : early e -> tame (@raise A e).
Proof.
  intros He h r h1 [= <- <-]. split; [now exists []|]. now intros e' [= <-].
Qed.

Lemma tame_time : tame (time env).
Proof.
  intros h r h1 [= <- <-]. split; [now exists []|discriminate].
Qed.

Lemma tame_sleep (ms : Z) : tame (sleep ms).
Proof.
  intros h r h1 [= <- <-]. split; [now exists [Sleep ms]|discriminate].
Qed.

Lemma tame_run_applescript (script : AppleScript) :
  script <> CloseTab -> tame (run_applescript env script).
Proof.
  intros Hs h r h1 H.
  assert (Hev : closes [Osascript script] = false) by now destruct script.
  destruct (run_applescript_cases script h) as [[out E]|[msg E]];
    rewrite E in H; injection H as <- <-.
  - split; [now exists [Osascript script]|discriminate].
  - split; [now exists [Osascript script]|].
    intros e [= <-]. apply bridge_error_early.
Qed.

Lemma closes_app (a b : list Event) :
  closes a = false -> closes b = false -> closes (a ++ b) = false.
Proof. unfold closes. rewrite existsb_app. now intros -> ->. Qed.

Lemma tame_bind {A B} (m : M A) (k : A -> M B) :
  tame m -> (forall a, tame (k a)) -> tame (bind m k).
Proof.
  intros Hm Hk h r h1 H.
  destruct (bind_inv _ _ _ _ _ H) as [(e & Em & ->)|(a & h2 & Em & Ek)].
  - destruct (Hm _ _ _ Em) as [Hev He]. split; [exact Hev|].
    intros e' [= <-]. now apply He.
  - destruct (Hm _ _ _ Em) as [(evs1 & -> & Hc1) _].
    destruct (Hk a _ _ _ Ek) as [(evs2 & -> & Hc2) He]. split; [|exact He].
    exists (evs2 ++ evs1). split; [now rewrite app_assoc|now apply closes_app].
Qed.

Lemma tame_catch {A} (m handler : M A) :
  tame m -> tame handler -> tame (catch m handler).
Proof.
  intros Hm Hh h r h1 H. unfold catch in H.
  destruct (m h) as [[[a|e] h2]|] eqn:Em; try discriminate.
  - exact (Hm _ _ _ (eq_trans Em H)).
  - destruct (Hm _ _ _ Em) as [(evs1 & -> & Hc1) _].
    destruct (Hh _ _ _ H) as [(evs2 & -> & Hc2) He]. split; [|exact He].
    exists (evs2 ++ evs1). split; [now rewrite app_assoc|now apply closes_app].
Qed.

Lemma tame_set_safari_url (url : str) : tame (set_safari_url env url).
Proof.
  unfold set_safari_url, ensure_safari_window.
  repeat first [ apply tame_bind; [|intros ?]
               | apply tame_run_applescript; discriminate
               | apply tame_ret ].
Qed.

Lemma tame_await_page_ready (attempts : nat) :
  tame (await_page_ready env attempts).
Proof.
  induction attempts as [|n IH]; cbn [await_page_ready]; [apply tame_ret|].
  apply tame_bind; [apply tame_sleep|intros _].
  apply tame_bind.
  - apply tame_catch; [|apply tame_ret].
    apply tame_bind; [apply tame_run_applescript; discriminate|intros result].
    destruct (int_float result); [apply tame_ret|].
    apply tame_raise. split; discriminate.
  - intros [|]; [apply tame_ret|exact IH].
Qed.

Lemma tame_find_latest (max_age_seconds : Z) :
  tame (find_latest_expensify_csv env max_age_seconds).
Proof.
  intros h r h1 [= <- <-]. split; [now exists []|discriminate].
Qed.

(** *** The stages of the export *)

Lemma staged_bind {A B} (m : M A) (k : A -> M B) :
  tame m -> (forall a, staged (k a)) -> staged (bind m k).
Proof.
  intros Hm Hk h0 out h H.
  destruct (bind_inv _ _ _ _ _ H) as [(e & Em & ->)|(a & h1 & Em & Ek)].
  - destruct (Hm _ _ _ Em) as [(evs & -> & Hc) He]. left.
    exists evs, e. repeat split; auto; now apply He.
  - destruct (Hm _ _ _ Em) as [(evs1 & -> & Hc1) _].
    destruct (Hk a _ _ _ Ek) as [(evs2 & e & -> & Hc2 & -> & He)|[Hlate|Hos]].
    + left. exists (evs2 ++ evs1), e.
      repeat split; try apply He; [now rewrite app_assoc|now apply closes_app].
    + right. now left.
    + right. now right.
Qed.

Lemma staged_raise {A} (e : Exn) : early e -> staged (@raise A e).
Proof.
  intros He h0 out h [= <- <-]. left. exists [], e. now repeat split; try apply He.
Qed.

Lemma staged_close_ret {A} (a : A) :
  staged (bind (close_safari_tab env) (fun _ => ret a)).
Proof.
  intros h0 out h H. unfold bind in H. rewrite close_safari_tab_run in H.
  injection H as <- <-. right. left. eexists. split; [reflexivity|now left].
Qed.

Lemma staged_close_raise {A} :
  staged (bind (close_safari_tab env) (fun _ => @raise A no_export_found)).
Proof.
  intros h0 out h H. unfold bind in H. rewrite close_safari_tab_run in H.
  injection H as <- <-. right. left. eexists. split; [reflexivity|now right].
Qed.

Lemma staged_await_download (fuel : nat) (start_time end_time : Z) :
  staged (await_download env fuel start_time end_time).
Proof.
  induction fuel as [|n IH]; cbn [await_download];
    (apply staged_bind; [apply tame_time|intros now]);
    (destruct (now <? end_time)%Z; [|apply staged_close_raise]).
  - intros h0 out h H. discriminate H.
  - apply staged_bind; [apply tame_find_latest|intros [f|]].
    + destruct (start_time <? st_mtime f)%Z.
      * destruct (read_text f) as [content|]; [apply staged_close_ret|].
        intros h0 out h [= <- <-]. now right; right.
      * apply staged_bind; [apply tame_sleep|intros _; exact IH].
    + apply staged_bind; [apply tame_sleep|intros _; exact IH].
Qed.

Lemma early_fixed (e : Exn) :
  In e [page_not_ready; not_logged_in; no_checkbox; no_export_button;
        no_csv_option] -> early e.
Proof.
  intros H. cbn [In] in H.
  repeat destruct H as [<-|H]; try contradiction;
    split; intros E; vm_compute in E; discriminate E.
Qed.

Lemma staged_sync_fetch (report_id : option str) (headless : bool) (timeout : Z) :
  staged (sync_fetch_expenses_csv env report_id headless timeout).
Proof.
  unfold sync_fetch_expenses_csv, run_javascript, get_safari_url.
  apply staged_bind; [apply tame_run_applescript; discriminate|intros _].
  apply staged_bind; [apply tame_set_safari_url|intros _].
  apply staged_bind; [apply tame_await_page_ready|intros ready].
  destruct (negb ready); [apply staged_raise, early_fixed; cbn; tauto|].
  apply staged_bind; [apply tame_run_applescript; discriminate|intros url].
  destruct (_ || _); [apply staged_raise, early_fixed; cbn; tauto|].
  apply staged_bind; [apply tame_time|intros start_time].
  apply staged_bind; [apply tame_run_applescript; discriminate|intros r1].
  destruct (negb _); [apply staged_raise, early_fixed; cbn; tauto|].
  apply staged_bind; [apply tame_sleep|intros _].
  apply staged_bind; [apply tame_run_applescript; discriminate|intros r2].
  destruct (negb _); [apply staged_raise, early_fixed; cbn; tauto|].
  apply staged_bind; [apply tame_sleep|intros _].
  apply staged_bind; [apply tame_run_applescript; discriminate|intros r3].
  destruct (negb _); [apply staged_raise, early_fixed; cbn; tauto|].
  apply staged_bind; [apply tame_time|intros now].
  apply staged_await_download.
Qed.

(** *** Every run of the export comes back *)

Lemma returns_bind {A B} (m : M A) (k : A -> M B) :
  returns m -> (forall a, returns (k a)) -> returns (bind m k).
Proof.
  intros Hm Hk h. unfold bind. specialize (Hm h).
  destruct (m h) as [[[a|e] h1]|]; [apply Hk|discriminate|contradiction].
Qed.

Lemma returns_catch {A} (m handler : M A) :
  returns m -> returns handler -> returns (catch m handler).
Proof.
  intros Hm Hh h. unfold catch. specialize (Hm h).
  destruct (m h) as [[[a|e] h1]|]; [discriminate|apply Hh|contradiction].
Qed.

Lemma returns_run_applescript (script : AppleScript) :
  returns (run_applescript env script).
Proof.
  intros h. destruct (run_applescript_cases script h) as [[o ->]|[m ->]];
    discriminate.
Qed.

Lemma returns_set_safari_url (url : str) : returns (set_safari_url env url).
Proof.
  unfold set_safari_url, ensure_safari_window.
  repeat first [ apply returns_bind; [|intros ?]
               | apply returns_run_applescript
               | intros h; discriminate ].
Qed.

Lemma returns_close_safari_tab : returns (close_safari_tab env).
Proof. intros h. now rewrite close_safari_tab_run. Qed.

Lemma returns_await_page_ready (attempts : nat) :
  returns (await_page_ready env attempts).
Proof.
  induction attempts as [|n IH]; cbn [await_page_ready]; [discriminate|].
  apply returns_bind; [discriminate|intros _].
  apply returns_bind.
  - apply returns_catch; [|discriminate].
    apply returns_bind; [apply returns_run_applescript|intros result].
    destruct (int_float result); discriminate.
  - intros [|]; [discriminate|exact IH].
Qed.

(** With [fuel] turns left and the deadline at most [fuel] half-seconds
    away, the loop runs to its end. *)
Lemma await_download_returns (fuel : nat) (start_time end_time : Z) (h : History) :
  (end_time - (epoch env + total_sleep h) <= 500 * Z.of_nat fuel)%Z ->
  await_download env fuel start_time end_time h <> None.
Proof.
  revert h. induction fuel as [|n IH]; intros h Hfuel; cbn [await_download];
    unfold bind at 1, time at 1;
    destruct (Z.ltb_spec (epoch env + total_sleep h) end_time) as [Hlt|Hge];
    try (apply returns_bind; [apply returns_close_safari_tab|discriminate]).
  - cbn [Z.of_nat] in Hfuel. lia.
  - assert (Hnext : await_download env n start_time end_time (Sleep 500 :: h) <> None).
    { apply IH. cbn [total_sleep fold_right]. fold (total_sleep h). lia. }
    unfold bind at 1, find_latest_expensify_csv, bind, time.
    destruct (find _ _) as [f|]; [|exact Hnext].
    destruct (start_time <? st_mtime f)%Z; [|exact Hnext].
    destruct (read_text f); [|discriminate].
    rewrite close_safari_tab_run. discriminate.
Qed.

Lemma returns_sync_fetch (report_id : option str) (headless : bool) (timeout : Z) :
  returns (sync_fetch_expenses_csv env report_id headless timeout).
Proof.
  unfold sync_fetch_expenses_csv, run_javascript, get_safari_url.
  apply returns_bind; [apply returns_run_applescript|intros _].
  apply returns_bind; [apply returns_set_safari_url|intros _].
  apply returns_bind; [apply returns_await_page_ready|intros ready].
  destruct (negb ready); [discriminate|].
  apply returns_bind; [apply returns_run_applescript|intros url].
  destruct (_ || _); [discriminate|].
  apply returns_bind; [discriminate|intros start_time].
  apply returns_bind; [apply returns_run_applescript|intros r1].
  destruct (negb _); [discriminate|].
  apply returns_bind; [discriminate|intros _].
  apply returns_bind; [apply returns_run_applescript|intros r2].
  destruct (negb _); [discriminate|].
  apply returns_bind; [discriminate|intros _].
  apply returns_bind; [apply returns_run_applescript|intros r3].
  destruct (negb _); [discriminate|].
  intros h. unfold bind at 1, time at 1.
  apply await_download_returns.
  set (d := (start_time + timeout * 1000 - (epoch env + total_sleep h))%Z).
  destruct (Z.le_gt_cases d 0) as [Hd|Hd]; [lia|].
  rewrite Nat2Z.inj_succ, Z2Nat.id by (apply Z.div_pos; lia).
  pose proof (Z.div_mod d 500 ltac:(lia)).
  pose proof (Z.mod_pos_bound d 500 ltac:(lia)). lia.
Qed.

(** *** The tab after a run *)

(** C1, as the code has it: every run of the export comes back; when it
    comes back with the export or with the failure of the wait for the
    download, closing the tab is the last thing it did; when it fails on the
    export menu or on the choice of the format, it has not closed the tab. *)
Theorem fetch_closes_tab_after_download_wait
    (report_id : option str) (headless : bool) (timeout : Z) (h0 : History) :
  (exists out h,
      sync_fetch_expenses_csv env report_id headless timeout h0 = Some (out, h))
  /\ forall out h,
      sync_fetch_expenses_csv env report_id headless timeout h0 = Some (out, h) ->
      (is_ret out = true \/ out = Raise no_export_found ->
       exists h', h = Osascript CloseTab :: h')
      /\ (out = Raise no_export_button \/ out = Raise no_csv_option ->
          exists evs, h = evs ++ h0 /\ closes evs = false).
Proof.
  split.
  - pose proof (returns_sync_fetch report_id headless timeout h0) as H.
    destruct (sync_fetch_expenses_csv _ _ _ _ h0) as [[out h]|];
      [eauto|contradiction].
  - intros out h H.
    destruct (staged_sync_fetch report_id headless timeout h0 out h H)
      as [(evs & e & -> & Hc & -> & He1 & He2)|[(h' & -> & Hout)| -> ]].
    + split.
      * intros [Hret|[= ->]]; [discriminate Hret|contradiction].
      * intros _. now exists evs.
    + split; [intros _; now exists h'|].
      intros [ -> | -> ]; destruct Hout as [Hret|Hout]; try discriminate Hret;
        vm_compute in Hout; discriminate Hout.
    + split; intros [Hx|Hx]; discriminate Hx.
Qed.

(** C10: the report identifier is not consulted: two runs of the export that
    differ in it only send the same commands and end the same way. *)
Theorem fetch_ignores_report_id
    (report_id report_id' : option str) (headless : bool) (timeout : Z)
    (h : History) :
  sync_fetch_expenses_csv env report_id headless timeout h =
  sync_fetch_expenses_csv env report_id' headless timeout h.
Proof. reflexivity. Qed.

(** *** Login *)

Lemma run_applescript_history (script : AppleScript) (h : History)
      (r : res str) (h' : History) :
  run_applescript env script h = Some (r, h') -> h' = Osascript script :: h.
Proof.
  destruct (run_applescript_cases script h) as [[o ->]|[m ->]];
    now intros [= _ <-].
Qed.

Lemma set_safari_url_history (url : str) (h : History) (a : unit) (h' : History) :
  set_safari_url env url h = Some (Ret a, h') ->
  h' = Osascript (SetURL url) :: Osascript EnsureWindow :: h.
Proof.
  unfold set_safari_url, ensure_safari_window. intros H.
  apply bind_inv in H as [(? & ? & [= ])|(? & h1 & H1 & H)].
  apply bind_inv in H1 as [(? & ? & [= ])|(? & h2 & H1 & [= _ <-])].
  apply bind_inv in H as [(? & ? & [= ])|(? & h3 & H2 & [= _ <-])].
  apply run_applescript_history in H1, H2. now subst.
Qed.

Lemma is_logged_in_true (h1 h : History) :
  is_logged_in env h1 = Some (Ret true, h) ->
  h = Osascript GetURL :: Sleep 3000 :: Osascript (SetURL reports_url)
      :: Osascript EnsureWindow :: Osascript Activate :: h1.
Proof.
  unfold is_logged_in, catch, get_safari_url.
  match goal with
  | |- match ?body with _ => _ end = _ -> _ =>
      destruct body as [[[b|e] h2]|] eqn:E
  end; [|intros [= ]|intros [= ]].
  intros [= -> ->].
  apply bind_inv in E as [(? & ? & [= ])|(? & ha & Ha & E)].
  apply bind_inv in E as [(? & ? & [= ])|(? & hb & Hb & E)].
  apply bind_inv in E as [(? & ? & [= ])|(? & hc & [= _ <-] & E)].
  apply bind_inv in E as [(? & ? & [= ])|(? & hd & Hd & [= _ <-])].
  apply run_applescript_history in Ha, Hd.
  apply set_safari_url_history in Hb. now subst.
Qed.

(** C3: when the session probe succeeds at entry, login returns true at
    once: the probe, with its own visit of the reports page, is the last
    thing the run does, and the sign-in page is not opened. *)
Theorem login_returns_at_once_when_logged_in
    (profile : str) (timeout_seconds : Z) (h0 h : History) :
  bind (run_applescript env Activate) (fun _ => is_logged_in env) h0
    = Some (Ret true, h) ->
  sync_login_interactive env profile timeout_seconds h0 = Some (Ret true, h)
  /\ h = Osascript GetURL :: Sleep 3000 :: Osascript (SetURL reports_url)
         :: Osascript EnsureWindow :: Osascript Activate
         :: Osascript Activate :: h0.
Proof.
  intros H.
  destruct (bind_inv _ _ _ _ _ H) as [(e & _ & [= ])|(a & h1 & Ea & El)].
  split.
  - unfold sync_login_interactive, bind. now rewrite Ea, El.
  - rewrite (is_logged_in_true _ _ El).
    destruct (run_applescript_cases Activate h0) as [[o E]|[m E]];
      rewrite E in Ea; now injection Ea as _ <-.
Qed.

(** *** The page that never gets ready *)

Lemma poll_once (h : History) :
  catch
    (bind (run_javascript env js_count_checkboxes)
          (fun result =>
             match int_float result with
             | Some count => ret (10 <? count)%Z
             | None => raise ValueError
             end))
    (ret false) h
  = Some (Ret (probe_ready (osascript env h (DoJavaScript js_count_checkboxes))),
          Osascript (DoJavaScript js_count_checkboxes) :: h).
Proof.
  unfold catch, bind, run_javascript, run_applescript, probe_ready.
  destruct (returncode _ =? 0)%Z; [|reflexivity].
  now destruct (int_float _).
Qed.

Lemma await_page_ready_never (attempts : nat) (h : History) :
  (forall i, i < attempts ->
     probe_ready (osascript env (Sleep 1000 :: polled i h)
                            (DoJavaScript js_count_checkboxes)) = false) ->
  await_page_ready env attempts h = Some (Ret false, polled attempts h).
Proof.
  revert h. induction attempts as [|n IH]; intros h Hnever; [reflexivity|].
  cbn [await_page_ready polled]. unfold bind at 1, sleep at 1.
  pose proof (Hnever 0 (Nat.lt_0_succ n)) as H0. cbn [polled] in H0.
  unfold bind at 1. rewrite poll_once, H0. apply IH.
  intros i Hi. apply (Hnever (S i)). now apply Nat.succ_lt_mono in Hi.
Qed.

Lemma bind_assoc {A B C} (m : M A) (k : A -> M B) (g : B -> M C) (h : History) :
  bind m (fun a => bind (k a) g) h = bind (bind m k) g h.
Proof. unfold bind. now destruct (m h) as [[[a|e] h1]|]. Qed.

(** C5: when the probe never counts more than ten checkboxes in its twenty
    polls, one second apart, the export fails with the page-not-ready error
    and the tab is left open: the run has sent no command that closes it. *)
Theorem page_never_ready_fails_with_tab_open
    (report_id : option str) (headless : bool) (timeout : Z) (h0 h1 : History) :
  bind (run_applescript env Activate) (fun _ => set_safari_url env reports_url) h0
    = Some (Ret tt, h1) ->
  (forall i, i < 20 ->
     probe_ready (osascript env (Sleep 1000 :: polled i h1)
                            (DoJavaScript js_count_checkboxes)) = false) ->
  sync_fetch_expenses_csv env report_id headless timeout h0
    = Some (Raise page_not_ready, polled 20 h1)
  /\ exists evs, polled 20 h1 = evs ++ h0 /\ closes evs = false.
Proof.
  intros Hnav Hnever.
  assert (Hrun : sync_fetch_expenses_csv env report_id headless timeout h0
                 = Some (Raise page_not_ready, polled 20 h1)).
  { unfold sync_fetch_expenses_csv. rewrite bind_assoc.
    unfold bind at 1. rewrite Hnav.
    unfold bind at 1. now rewrite (await_page_ready_never 20 h1 Hnever). }
  split; [exact Hrun|].
  destruct (staged_sync_fetch report_id headless timeout h0 _ _ Hrun)
    as [(evs & e & E & Hc & _)|[(h' & _ & [Hret|Hout])|Hos]].
  - now exists evs.
  - discriminate Hret.
  - vm_compute in Hout. discriminate Hout.
  - discriminate Hos.
Qed.

(** *** The download watcher *)

Lemma insert_by_mtime_perm (f : CsvFile) (l : list CsvFile) :
  Permutation (insert_by_mtime f l) (f :: l).
Proof.
  induction l as [|g l IH]; cbn [insert_by_mtime]; [reflexivity|].
  destruct (st_mtime f <? st_mtime g)%Z; [|reflexivity].
  rewrite IH. apply perm_swap.
Qed.

Lemma sorted_by_mtime_perm (l : list CsvFile) :
  Permutation (sorted_by_mtime l) l.
Proof.
  induction l as [|f l IH]; [reflexivity|].
  cbn [sorted_by_mtime fold_right]. fold (sorted_by_mtime l).
  rewrite insert_by_mtime_perm. now apply perm_skip.
Qed.





End Runs.

(** *** The runs of the scenarios *)

Lemma fetch_closes_tab_witness :
  exists out h h',
    sync_fetch_expenses_csv env_export None true 60 [] = Some (out, h)
    /\ is_ret out = true
    /\ h = Osascript CloseTab :: h'.
Proof.
  destruct (fetch_closes_tab_after_download_wait env_export None true 60 [])
    as [_ H].
  destruct (sync_fetch_expenses_csv env_export None true 60 []) as [[out h]|] eqn:E.
  - destruct (H out h eq_refl) as [Hclose _].
    vm_compute in E. injection E as <- <-.
    destruct (Hclose (or_introl eq_refl)) as [h' Hh'].
    eexists _, _, h'. repeat split. exact Hh'.
  - vm_compute in E. discriminate E.
Defined.

(** C1, as the claim has it, fails: with no export button on the page the
    run fails in the step that opens the export menu and comes back without
    any command that closes the tab. *)
Lemma export_menu_failure_leaves_tab_open :
  exists h,
    sync_fetch_expenses_csv env_no_export_button None true 60 []
      = Some (Raise no_export_button, h)
    /\ closes h = false.
Proof. eexists. split; vm_compute; reflexivity. Qed.

Lemma login_returns_at_once_witness :
  exists h,
    bind (run_applescript env_export Activate)
         (fun _ => is_logged_in env_export) [] = Some (Ret true, h)
    /\ sync_login_interactive env_export [] 120 [] = Some (Ret true, h)
    /\ h = [Osascript GetURL; Sleep 3000; Osascript (SetURL reports_url);
            Osascript EnsureWindow; Osascript Activate; Osascript Activate].
Proof.
  eexists. split; [vm_compute; reflexivity|].
  apply (login_returns_at_once_when_logged_in env_export [] 120 []).
  vm_compute. reflexivity.
Defined.

Lemma page_never_ready_witness :
  sync_fetch_expenses_csv env_never_ready None true 60 []
    = Some (Raise page_not_ready,
            polled 20 [Osascript (SetURL reports_url); Osascript EnsureWindow;
                       Osascript Activate])
  /\ exists evs,
       polled 20 [Osascript (SetURL reports_url); Osascript EnsureWindow;
                  Osascript Activate] = evs ++ []
       /\ closes evs = false.
Proof.
  apply (page_never_ready_fails_with_tab_open env_never_ready None true 60 []).
  - reflexivity.
  - intros i _. reflexivity.
Defined.


End HeistProofs.

(* ================================================================== *)
(** ** More properties of the normalizer *)
(* ================================================================== *)

Module ParserExtra.
Import Parser ParserSpec ParserExtraSpec ParserProofs.

Unset Implicit Arguments.

(** *** White space around an amount *)

Lemma lstrip_spaces (w : str) : forallb isspace w = true -> lstrip w = [].
Proof.
  induction w as [|c w IH]; [reflexivity|]. cbn [forallb lstrip].
  intros H. apply andb_true_iff in H as [-> Hw]. now apply IH.
Qed.

Lemma lstrip_app_spaces (w s : str) :
  forallb isspace w = true -> lstrip (w ++ s) = lstrip s.
Proof.
  induction w as [|c w IH]; [reflexivity|]. cbn [forallb app lstrip].
  intros H. apply andb_true_iff in H as [-> Hw]. now apply IH.
Qed.

Lemma lstrip_nil (s : str) : lstrip s = [] -> forallb isspace s = true.
Proof.
  induction s as [|c s IH]; [reflexivity|]. cbn [lstrip forallb].
  destruct (isspace c); [exact IH|discriminate].
Qed.

Lemma lstrip_app_r (s w : str) :
  lstrip s <> [] -> lstrip (s ++ w) = lstrip s ++ w.
Proof.
  induction s as [|c s IH]; [contradiction|]. cbn [app lstrip].
  destruct (isspace c); [exact IH|reflexivity].
Qed.

Lemma strip_surrounded (w1 s w2 : str) :
  forallb isspace w1 = true -> forallb isspace w2 = true ->
  strip (w1 ++ s ++ w2) = strip s.
Proof.
  intros H1 H2. unfold strip. rewrite (lstrip_app_spaces _ _ H1).
  destruct (lstrip s) as [|c t] eqn:E.
  - rewrite lstrip_spaces; [reflexivity|].
    rewrite forallb_app, H2, (lstrip_nil _ E). reflexivity.
  - rewrite lstrip_app_r by (rewrite E; discriminate).
    rewrite E. now apply rstrip_app_spaces.
Qed.

Lemma parse_amount_some (s : str) :
  parse_amount (Some s) = or_zero (Decimal_of_str (amount_text s)).
Proof. now destruct s. Qed.

(** X1: White space before and after the cell of an amount does not change the
    amount. *)
Theorem parse_amount_ignores_surrounding_space (w1 s w2 : str) :
  forallb isspace w1 = true -> forallb isspace w2 = true ->
  parse_amount (Some (w1 ++ s ++ w2)) = parse_amount (Some s).
Proof.
  intros H1 H2. rewrite !parse_amount_some. unfold amount_text.
  now rewrite (strip_surrounded _ _ _ H1 H2).
Qed.

Lemma parse_amount_ignores_surrounding_space_witness :
  parse_amount (Some (py "  " ++ py "$4.50" ++ py " ")) = Finite false 450 (-2)
  /\ parse_amount (Some (py "  " ++ py "$4.50" ++ py " "))
     = parse_amount (Some (py "$4.50")).
Proof.
  split; [reflexivity|].
  apply (parse_amount_ignores_surrounding_space (py "  ") (py "$4.50") (py " "));
    reflexivity.
Defined.

(** *** Ordinary amounts *)

Lemma digit_facts (c : N) :
  isdigit c = true -> isspace c = false /\ c <> 95%N /\ numeral_start c = true.
Proof.
  intros H. unfold numeral_start. rewrite H. split; [|split; [|reflexivity]].
  - apply (numeral_start_facts c). unfold numeral_start. now rewrite H.
  - unfold isdigit in H. apply andb_true_iff in H as [_ H].
    apply N.leb_le in H. lia.
Qed.

Lemma numeral_start_no_underscore (c : N) :
  numeral_start c = true -> isspace c = false /\ c <> 95%N.
Proof.
  intros H. split; [apply (numeral_start_facts c H)|].
  pose proof (numeral_start_range c H). lia.
Qed.

Lemma rstrip_no_space (t : str) :
  forallb numeral_start t = true -> rstrip t = t.
Proof.
  induction t as [|c t IH]; [reflexivity|]. cbn [forallb].
  intros H. apply andb_true_iff in H as [Hc Ht].
  rewrite rstrip_cons by apply (numeral_start_no_underscore c Hc).
  now rewrite IH.
Qed.

Lemma numeric_as_ascii_plain (t : str) :
  forallb numeral_start t = true -> numeric_as_ascii t = Some t.
Proof.
  induction t as [|c t IH]; [reflexivity|]. cbn [forallb].
  intros H. apply andb_true_iff in H as [Hc Ht].
  now rewrite (numeric_as_ascii_numeral c t Hc), (IH Ht).
Qed.

Lemma cleaned_no_space (s : str) :
  forallb numeral_start (remove_currency s) = true -> strip s = s.
Proof.
  rewrite remove_currency_filter. intros H.
  assert (Hs : forallb (fun c => negb (isspace c)) s = true).
  { induction s as [|c s IH]; [reflexivity|]. cbn [forallb filter] in *.
    destruct (isspace c) eqn:Hc.
    - rewrite (space_not_currency _ Hc) in H. cbn [negb forallb] in H.
      apply andb_true_iff in H as [Hn _].
      destruct (numeral_start_no_underscore c Hn) as [Hsp _]. congruence.
    - cbn [negb andb]. apply IH.
      destruct (is_currency c); cbn [negb] in H; [exact H|].
      cbn [forallb] in H. now apply andb_true_iff in H as [_ H]. }
  clear H. unfold strip.
  assert (Hl : lstrip s = s).
  { destruct s as [|c s]; [reflexivity|]. cbn [forallb lstrip] in *.
    apply andb_true_iff in Hs as [Hc _]. apply negb_true_iff in Hc. now rewrite Hc. }
  rewrite Hl. induction s as [|c s IH]; [reflexivity|].
  cbn [forallb] in Hs. apply andb_true_iff in Hs as [Hc Hs].
  apply negb_true_iff in Hc. rewrite rstrip_cons by exact Hc.
  rewrite IH; [reflexivity|exact Hs|].
  destruct s as [|c' s]; [reflexivity|]. cbn [forallb lstrip] in *.
  apply andb_true_iff in Hs as [Hc' _]. apply negb_true_iff in Hc'. now rewrite Hc'.
Qed.

Lemma span_digits_app (ip rest : str) :
  forallb isdigit ip = true ->
  match rest with [] => true | c :: _ => negb (isdigit c) end = true ->
  span_digits (ip ++ rest) = (ip, rest).
Proof.
  intros Hip Hrest. induction ip as [|c ip IH].
  - destruct rest as [|c r]; [reflexivity|]. cbn [app span_digits].
    apply negb_true_iff in Hrest. now rewrite Hrest.
  - cbn [forallb] in Hip. apply andb_true_iff in Hip as [Hc Hip].
    cbn [app span_digits]. now rewrite Hc, (IH Hip).
Qed.

Lemma parse_number_numeral (ip fp : str) :
  ip <> [] -> forallb isdigit ip = true -> forallb isdigit fp = true ->
  parse_number (ip ++ 46%N :: fp)
    = Some (int_of_digits (ip ++ fp), (- Z.of_nat (List.length fp))%Z)
  /\ parse_number ip = Some (int_of_digits ip, 0%Z).
Proof.
  intros Hne Hip Hfp. unfold parse_number. split.
  - rewrite (span_digits_app ip (46%N :: fp) Hip eq_refl).
    change (46 =? 46)%N with true. cbv iota.
    rewrite <- (app_nil_r fp) at 1. rewrite (span_digits_app fp [] Hfp eq_refl).
    destruct (ip ++ fp) eqn:E; [|reflexivity].
    now apply app_eq_nil in E as [-> _].
  - rewrite <- (app_nil_r ip) at 1. rewrite (span_digits_app ip [] Hip eq_refl).
    rewrite app_nil_r. destruct ip; [contradiction|reflexivity].
Qed.

Lemma parse_amount_numeral_text (s t : str) (c : N) (e : Z) :
  remove_currency s = t -> t <> [] -> forallb numeral_start t = true ->
  parse_number t = Some (c, e) ->
  parse_amount (Some s) = Finite false c e.
Proof.
  intros Hs Hne Ht Hnum. destruct t as [|d t']; [contradiction|].
  assert (Hd : numeral_start d = true).
  { cbn [forallb] in Ht. now apply andb_true_iff in Ht as [Hd _]. }
  assert (Hstrip : strip s = s) by (apply cleaned_no_space; now rewrite Hs).
  rewrite parse_amount_some.
  rewrite (amount_text_unsigned s d t' Hd) by now rewrite Hstrip.
  rewrite (Decimal_of_str_numeral d t' Hd).
  rewrite (rstrip_no_space _ Ht), (numeric_as_ascii_plain _ Ht).
  unfold parse_unsigned. rewrite (parse_special_numeral false d t' Hd), Hnum.
  reflexivity.
Qed.

(** X2: A cell that is an unsigned decimal numeral once the currency symbols and
    the thousands separators are taken out parses to exactly that number:
    the digits as coefficient, the number of decimals as scale. *)
Theorem parse_amount_plain_numeral (s ip fp : str) :
  ip <> [] -> forallb isdigit ip = true -> forallb isdigit fp = true ->
  (remove_currency s = ip ++ 46%N :: fp ->
   parse_amount (Some s)
     = Finite false (int_of_digits (ip ++ fp)) (- Z.of_nat (List.length fp)))
  /\ (remove_currency s = ip ->
      parse_amount (Some s) = Finite false (int_of_digits ip) 0).
Proof.
  intros Hne Hip Hfp.
  destruct (parse_number_numeral ip fp Hne Hip Hfp) as [Hn1 Hn2].
  assert (Hdig : forall l, forallb isdigit l = true -> forallb numeral_start l = true).
  { intros l Hl. rewrite forallb_forall in *. intros c Hc.
    now apply digit_facts, Hl. }
  split; intros Hs.
  - apply (parse_amount_numeral_text s (ip ++ 46%N :: fp)); auto.
    + now destruct ip.
    + rewrite forallb_app. cbn [forallb]. rewrite (Hdig _ Hip), (Hdig _ Hfp).
      reflexivity.
  - apply (parse_amount_numeral_text s ip); auto.
Qed.

Lemma parse_amount_plain_numeral_witness :
  parse_amount (Some (py "$1,234.50")) = Finite false 123450 (-2)
  /\ parse_amount (Some (py "1,000")) = Finite false 1000 0.
Proof.
  split.
  - apply (parse_amount_plain_numeral (py "$1,234.50") (py "1234") (py "50"));
      try reflexivity. discriminate.
  - apply (parse_amount_plain_numeral (py "1,000") (py "1000") []);
      try reflexivity. discriminate.
Defined.

(** *** Rows *)


Lemma find_field_step (row : Row) (name : str) (more : list str) :
  find_field row (name :: more) =
  match alias_value row name with
  | Some v => Ret v
  | None =>
      match restcells row with
      | Some _ => Raise AttributeError
      | None => find_field row more
      end
  end.
Proof.
  cbn [find_field]. unfold alias_value.
  destruct (dict_get name (cols row)) as [v|]; [reflexivity|].
  rewrite scan_keys_row.
  destruct (find _ _) as [key|] eqn:F.
  - apply find_some in F as [Hin _].
    destruct (dict_get_key _ _ Hin) as [w ->]. reflexivity.
  - now destruct (restcells row).
Qed.

Lemma find_field_surplus (row : Row) (surplus : list str)
      (name : str) (more : list str) :
  restcells row = Some surplus ->
  find_field row (name :: more) =
  match alias_value row name with
  | Some v => Ret v
  | None => Raise AttributeError
  end.
Proof. intros H. rewrite find_field_step, H. reflexivity. Qed.

(** X3: On a row with more cells than the header has columns, a field resolves
    only through its first alias: with a column for it (exact or up to case)
    the cell is returned, without one the look-up raises [AttributeError],
    whatever columns the later aliases have. *)
Theorem find_field_long_row (row : Row) (surplus : list str)
        (name : str) (more : list str) :
  restcells row = Some surplus ->
  find_field row (name :: more) =
  match alias_value row name with
  | Some v => Ret v
  | None => Raise AttributeError
  end.
Proof. apply find_field_surplus. Qed.

Lemma find_field_long_row_witness :
  find_field (mkRow [(py "Vendor", Some (py "Acme"))] (Some [py "extra"]))
             (aliases "merchant") = Raise AttributeError
  /\ find_field (mkRow [(py "merchant", Some (py "Acme"))] (Some [py "extra"]))
                (aliases "merchant") = Ret (Some (py "Acme")).
Proof.
  split.
  - apply (find_field_long_row
             (mkRow [(py "Vendor", Some (py "Acme"))] (Some [py "extra"]))
             [py "extra"] (py "Merchant") [py "Vendor"; py "Payee"; py "Description"]).
    reflexivity.
  - apply (find_field_long_row
             (mkRow [(py "merchant", Some (py "Acme"))] (Some [py "extra"]))
             [py "extra"] (py "Merchant") [py "Vendor"; py "Payee"; py "Description"]).
    reflexivity.
Defined.

Section MoreRows.

Variable datetime : Type.
Variable strptime : str -> str -> option datetime.
Variable now : nat -> datetime.

(** X4: A long row gives an expense exactly when the header has a column for the
    first alias of each of the eleven fields; otherwise building the expense
    raises [AttributeError]. *)
Theorem expense_of_long_row (i : nat) (row : Row) (surplus : list str) :
  restcells row = Some surplus ->
  (forallb (fun name => is_some (alias_value row name)) first_choice = true ->
   exists e, expense_of_row strptime now i row = Ret e)
  /\ (forallb (fun name => is_some (alias_value row name)) first_choice = false ->
      expense_of_row strptime now i row = Raise AttributeError).
Proof.
  intros Hrow. unfold expense_of_row.
  change (aliases "date") with (py "Timestamp" :: tl (aliases "date")).
  change (aliases "merchant") with (py "Merchant" :: tl (aliases "merchant")).
  change (aliases "amount") with (py "Amount" :: tl (aliases "amount")).
  change (aliases "currency") with (py "Currency" :: tl (aliases "currency")).
  change (aliases "category") with (py "Category" :: tl (aliases "category")).
  change (aliases "tag") with (py "Tag" :: tl (aliases "tag")).
  change (aliases "description") with (py "Comment" :: tl (aliases "description")).
  change (aliases "report_name")
    with (py "Report Name" :: tl (aliases "report_name")).
  change (aliases "reimbursable")
    with (py "Reimbursable" :: tl (aliases "reimbursable")).
  change (aliases "billable") with (py "Billable" :: tl (aliases "billable")).
  change (aliases "receipt_url")
    with (py "Receipt URL" :: tl (aliases "receipt_url")).
  rewrite !(find_field_surplus row surplus _ _ Hrow).
  change first_choice
    with [py "Timestamp"; py "Merchant"; py "Amount"; py "Currency";
          py "Category"; py "Tag"; py "Comment"; py "Report Name";
          py "Reimbursable"; py "Billable"; py "Receipt URL"].
  cbn [forallb].
  repeat match goal with
         | |- context [alias_value row ?n] =>
             destruct (alias_value row n);
             cbn [is_some andb res_bind];
             [|split; [discriminate|reflexivity]]
         end.
  split; [eauto|discriminate].
Qed.

Lemma resolve_none (row : Row) (names : list str) :
  Forall (fun name => alias_value row name = None) names ->
  resolve row names = None.
Proof.
  induction 1 as [|name names Hn _ IH]; [reflexivity|].
  cbn [resolve]. now rewrite Hn.
Qed.

Lemma aliases_known (canonical : string) (name : str) :
  In name (aliases canonical) -> In name known_names.
Proof.
  unfold aliases, known_names.
  destruct (find _ field_mapping) as [kv|] eqn:E; [|contradiction].
  apply find_some in E as [Hin _]. intros Hn.
  apply in_concat. exists (snd kv). split; [|exact Hn].
  now apply in_map.
Qed.

Lemma find_field_unknown (row : Row) (canonical : string) :
  restcells row = None ->
  Forall (fun name => alias_value row name = None) known_names ->
  find_field row (aliases canonical) = Ret None.
Proof.
  intros Hrow Hnone. rewrite (find_field_total row _ Hrow).
  rewrite resolve_none; [reflexivity|].
  rewrite Forall_forall in *. intros name Hn.
  exact (Hnone name (aliases_known canonical name Hn)).
Qed.

(** X5: A row none of whose columns is known to the parser gives the expense of
    the defaults: the capture time, the merchant Unknown, the amount zero,
    the currency USD, an empty category, no tag, description, report name or
    receipt, and both flags false. *)
Theorem expense_of_unknown_row (i : nat) (row : Row) :
  restcells row = None ->
  Forall (fun name => alias_value row name = None) known_names ->
  expense_of_row strptime now i row
  = Ret (mkExpense (now i) (py "Unknown") (Finite false 0 0) (py "USD") []
                   None None None false false None).
Proof.
  intros Hrow Hnone. unfold expense_of_row.
  rewrite !(find_field_unknown row _ Hrow Hnone). reflexivity.
Qed.

(** X6: The column Description serves two fields: in a row without a Merchant,
    Vendor, Payee or Comment column, its cell is the merchant of the expense
    as well as its description. *)
Theorem description_column_is_merchant_too (i : nat) (row : Row) (v : str) :
  restcells row = None ->
  Forall (fun name => alias_value row name = None)
         [py "Merchant"; py "Vendor"; py "Payee"; py "Comment"] ->
  dict_get (py "Description") (cols row) = Some (Some v) ->
  v <> [] ->
  exists e, expense_of_row strptime now i row = Ret e
            /\ merchant e = v /\ description e = Some v.
Proof.
  intros Hrow Hnone Hdesc Hv.
  pose proof (proj1 (Forall_forall _ _) Hnone) as Hn.
  assert (H1 : alias_value row (py "Merchant") = None) by (apply Hn; cbn; tauto).
  assert (H2 : alias_value row (py "Vendor") = None) by (apply Hn; cbn; tauto).
  assert (H3 : alias_value row (py "Payee") = None) by (apply Hn; cbn; tauto).
  assert (H4 : alias_value row (py "Comment") = None) by (apply Hn; cbn; tauto).
  assert (H5 : alias_value row (py "Description") = Some (Some v)).
  { unfold alias_value. now rewrite Hdesc. }
  assert (Hm : find_field row (aliases "merchant") = Ret (Some v)).
  { rewrite (find_field_total row _ Hrow).
    change (aliases "merchant")
      with [py "Merchant"; py "Vendor"; py "Payee"; py "Description"].
    cbn [resolve]. now rewrite H1, H2, H3, H5. }
  assert (Hd : find_field row (aliases "description") = Ret (Some v)).
  { rewrite (find_field_total row _ Hrow).
    change (aliases "description")
      with [py "Comment"; py "Description"; py "Notes"; py "Memo"].
    cbn [resolve]. now rewrite H4, H5. }
  unfold expense_of_row. rewrite Hm, Hd.
  rewrite !(find_field_total row _ Hrow). cbn [res_bind].
  eexists. split; [reflexivity|]. cbn [merchant description].
  split; [|reflexivity]. now destruct v.
Qed.

(** X22: A Merchant column whose cell is empty or missing hides the later
    aliases: the merchant of the expense is Unknown, whatever the Vendor,
    Payee and Description columns of the row hold. *)
Theorem empty_merchant_cell_hides_later_aliases
        (i : nat) (row : Row) (cell : option str) :
  restcells row = None ->
  dict_get (py "Merchant") (cols row) = Some cell ->
  cell = None \/ cell = Some [] ->
  exists e, expense_of_row strptime now i row = Ret e
            /\ merchant e = py "Unknown".
Proof.
  intros Hrow Hcell Hempty.
  assert (Hm : find_field row (aliases "merchant") = Ret cell).
  { rewrite (find_field_total row _ Hrow).
    change (aliases "merchant")
      with [py "Merchant"; py "Vendor"; py "Payee"; py "Description"].
    cbn [resolve]. unfold alias_value. now rewrite Hcell. }
  unfold expense_of_row. rewrite Hm.
  rewrite !(find_field_total row _ Hrow). cbn [res_bind].
  eexists. split; [reflexivity|]. cbn [merchant].
  now destruct Hempty as [-> | ->].
Qed.

(** X7: A text whose rows are no longer than its header, and which the reader
    gets through, gives one expense per row, in the order of the rows. *)
Theorem parse_keeps_rows_in_order (csv_content : str) :
  fails (DictReader csv_content) = false ->
  Forall (fun row => restcells row = None) (items (DictReader csv_content)) ->
  exists expenses,
    parse_expensify_csv strptime now csv_content = Ret expenses
    /\ List.length expenses = List.length (items (DictReader csv_content))
    /\ forall k row, nth_error (items (DictReader csv_content)) k = Some row ->
         exists e, nth_error expenses k = Some e
                   /\ expense_of_row strptime now k row = Ret e.
Proof.
  intros Hf Hr. exact (collect_one_per_row datetime strptime now _ 0 Hf Hr).
Qed.

Lemma collect_fails (rows : Stream Row) (i : nat) :
  fails rows = true ->
  Forall (fun row => restcells row = None) (items rows) ->
  collect strptime now i rows = Raise CsvError.
Proof.
  revert i. induction rows as [| |row more IH]; intros i Hf Hr.
  - discriminate Hf.
  - reflexivity.
  - cbn [items fails] in *. inversion Hr as [|? ? Hrow Hmore]; subst.
    destruct (expense_of_row_total datetime strptime now i row Hrow) as [e He].
    cbn [collect]. rewrite He. cbn [res_bind]. now rewrite (IH (S i) Hf Hmore).
Qed.

Lemma find_field_raises (row : Row) (names : list str) (e : Exn) :
  find_field row names = Raise e -> e = AttributeError.
Proof.
  induction names as [|name more IH]; [cbn [find_field]; discriminate|].
  rewrite find_field_step. destruct (alias_value row name); [discriminate|].
  destruct (restcells row); [now intros [= <-]|exact IH].
Qed.

Lemma expense_of_row_raises (i : nat) (row : Row) (e : Exn) :
  expense_of_row strptime now i row = Raise e -> e = AttributeError.
Proof.
  unfold expense_of_row.
  repeat match goal with
         | |- context [res_bind (find_field row ?names) _] =>
             let E := fresh "E" in
             destruct (find_field row names) as [?|?] eqn:E; cbn [res_bind];
             [|intros [= <-]; exact (find_field_raises _ _ _ E)]
         end.
  discriminate.
Qed.

Lemma collect_raises (rows : Stream Row) (i : nat) :
  fails rows = true ->
  exists e, collect strptime now i rows = Raise e
            /\ (e = CsvError \/ e = AttributeError).
Proof.
  revert i. induction rows as [| |row more IH]; intros i Hf.
  - discriminate Hf.
  - exists CsvError. split; [reflexivity|now left].
  - cbn [fails] in Hf. cbn [collect].
    destruct (expense_of_row strptime now i row) as [e0|e0] eqn:E;
      cbn [res_bind].
    + destruct (IH (S i) Hf) as (e & -> & He). exists e. now split.
    + exists e0. split; [reflexivity|]. right.
      exact (expense_of_row_raises _ _ _ E).
Qed.

(** X8: An error of the CSV reader anywhere in the text makes the whole parse
    raise: the rows read before it are not returned.  What is raised is the
    error of the reader when no row before it has more cells than the
    header, and otherwise that error or the [AttributeError] of such a
    row. *)
Theorem parse_reader_error_loses_rows (csv_content : str) :
  fails (DictReader csv_content) = true ->
  (exists e, parse_expensify_csv strptime now csv_content = Raise e
             /\ (e = CsvError \/ e = AttributeError))
  /\ (Forall (fun row => restcells row = None) (items (DictReader csv_content)) ->
      parse_expensify_csv strptime now csv_content = Raise CsvError).
Proof.
  intros Hf. split.
  - exact (collect_raises _ 0 Hf).
  - intros Hr. exact (collect_fails _ 0 Hf Hr).
Qed.

End MoreRows.

Lemma expense_of_long_row_witness :
  (exists e, expense_of_row (fun _ _ => None) (fun i => i) 0 full_long_row = Ret e)
  /\ expense_of_row (fun _ _ => @None nat) (fun i => i) 0
       (mkRow [(py "Date", Some (py "2024-01-01"))] (Some [py "extra"]))
     = Raise AttributeError.
Proof.
  split.
  - apply (expense_of_long_row nat (fun _ _ => None) (fun i => i) 0
             full_long_row [py "extra"]); reflexivity.
  - apply (expense_of_long_row nat (fun _ _ => None) (fun i => i) 0
             (mkRow [(py "Date", Some (py "2024-01-01"))] (Some [py "extra"]))
             [py "extra"]); reflexivity.
Defined.

Lemma expense_of_unknown_row_witness :
  expense_of_row (fun _ _ => @None nat) (fun i => i) 7 unknown_row
  = Ret (mkExpense 7 (py "Unknown") (Finite false 0 0) (py "USD") []
                   None None None false false None).
Proof.
  apply (expense_of_unknown_row nat (fun _ _ => None) (fun i => i) 7 unknown_row).
  - reflexivity.
  - repeat constructor.
Defined.

Lemma description_column_is_merchant_too_witness :
  exists e,
    expense_of_row (fun _ _ => @None nat) (fun i => i) 0 description_row = Ret e
    /\ merchant e = py "Taxi" /\ description e = Some (py "Taxi").
Proof.
  apply (description_column_is_merchant_too nat (fun _ _ => None) (fun i => i)
           0 description_row (py "Taxi")).
  - reflexivity.
  - repeat constructor.
  - reflexivity.
  - discriminate.
Defined.

Lemma empty_merchant_cell_hides_later_aliases_witness :
  exists e,
    expense_of_row (fun _ _ => @None nat) (fun i => i) 0 empty_merchant_row = Ret e
    /\ merchant e = py "Unknown".
Proof.
  apply (empty_merchant_cell_hides_later_aliases nat (fun _ _ => None)
           (fun i => i) 0 empty_merchant_row (Some [])).
  - reflexivity.
  - reflexivity.
  - now right.
Defined.

Lemma parse_keeps_rows_in_order_witness :
  exists expenses,
    parse_expensify_csv (fun _ _ => @None nat) (fun i => i) two_rows_csv
      = Ret expenses
    /\ List.length expenses = 2
    /\ map (@amount nat) expenses = [Finite false 450 (-2); Finite true 1200 (-2)].
Proof.
  destruct (parse_keeps_rows_in_order nat (fun _ _ => None) (fun i => i)
              two_rows_csv eq_refl)
    as (expenses & Hparse & Hlen & _).
  - repeat constructor.
  - exists expenses. split; [exact Hparse|]. split; [exact Hlen|].
    vm_compute in Hparse. injection Hparse as <-. reflexivity.
Defined.

Lemma parse_reader_error_loses_rows_witness :
  (exists e,
      parse_expensify_csv (fun _ _ => @None nat) (fun i => i) bare_cr_csv = Raise e
      /\ (e = CsvError \/ e = AttributeError))
  /\ (Forall (fun row => restcells row = None) (items (DictReader bare_cr_csv)) ->
      parse_expensify_csv (fun _ _ => @None nat) (fun i => i) bare_cr_csv
      = Raise CsvError).
Proof.
  apply (parse_reader_error_loses_rows nat (fun _ _ => None) (fun i => i)
           bare_cr_csv).
  reflexivity.
Defined.

End ParserExtra.

(* ================================================================== *)
(** ** More properties of the browser automation *)
(* ================================================================== *)

Module HeistExtra.
Import Heist HeistSpec HeistExtraSpec HeistProofs.

Unset Implicit Arguments.

(** *** The escaping of JavaScript *)

(** X9: The escaping of [run_javascript] is safe for every snippet: read back as
    an AppleScript string literal, the escaped text ends at the closing quote
    that follows it, not before, and gives the snippet back. *)
Theorem js_escaping_round_trip (js rest : str) :
  read_literal (js_escaped js ++ 34%N :: rest) = Some (js, rest).
Proof.
  unfold js_escaped, replace1. induction js as [|c js IH].
  - cbn. reflexivity.
  - cbn [flat_map]. destruct (N.eqb_spec c 92) as [->|H92].
    + cbn [app flat_map]. change (92 =? 34)%N with false. cbv iota.
      cbn [app read_literal]. change (92 =? 34)%N with false.
      change (92 =? 92)%N with true. cbn [orb]. cbv iota. now rewrite IH.
    + cbn [app flat_map]. destruct (N.eqb_spec c 34) as [->|H34].
      * cbn [app read_literal]. change (92 =? 34)%N with false.
        change (92 =? 92)%N with true. change (34 =? 92)%N with false.
        change (34 =? 34)%N with true. cbn [orb]. cbv iota. now rewrite IH.
      * cbn [app read_literal].
        destruct (N.eqb_spec c 34); [contradiction|].
        destruct (N.eqb_spec c 92); [contradiction|]. now rewrite IH.
Qed.

Section MoreRuns.

Variable env : Env.

(** *** Steps, their events, their pauses and their errors *)

Lemma total_sleep_app (a b : list Event) :
  total_sleep (a ++ b) = (total_sleep a + total_sleep b)%Z.
Proof.
  induction a as [|ev a IH]; [reflexivity|].
  cbn [app total_sleep fold_right]. fold (total_sleep (a ++ b)).
  fold (total_sleep a). rewrite IH. destruct ev; lia.
Qed.

Lemma calm_ret (bad : Event -> bool) (P : Exn -> Prop) {A} (a : A) :
  calm bad 0 P (ret a).
Proof.
  intros h r h1 [= <- <-]. exists []. repeat split; try reflexivity; try lia.
  discriminate.
Qed.

Lemma calm_raise (bad : Event -> bool) (P : Exn -> Prop) {A} (e : Exn) :
  P e -> calm bad 0 P (@raise A e).
Proof.
  intros He h r h1 [= <- <-]. exists []. repeat split; try reflexivity; try lia.
  now intros e' [= <-].
Qed.

Lemma calm_time (bad : Event -> bool) (P : Exn -> Prop) :
  calm bad 0 P (time env).
Proof.
  intros h r h1 [= <- <-]. exists []. repeat split; try reflexivity; try lia.
  discriminate.
Qed.

Lemma calm_sleep (bad : Event -> bool) (P : Exn -> Prop) (ms : Z) :
  (0 <= ms)%Z -> bad (Sleep ms) = false -> calm bad ms P (sleep ms).
Proof.
  intros Hms Hbad h r h1 [= <- <-]. exists [Sleep ms].
  cbn [existsb total_sleep fold_right]. rewrite Hbad.
  repeat split; try reflexivity; try lia. discriminate.
Qed.

Lemma calm_print (bad : Event -> bool) (P : Exn -> Prop) (msg : str) :
  bad (Print msg) = false -> calm bad 0 P (print msg).
Proof.
  intros Hbad h r h1 [= <- <-]. exists [Print msg].
  cbn [existsb total_sleep fold_right]. rewrite Hbad.
  repeat split; try reflexivity; try lia. discriminate.
Qed.

Lemma calm_run_applescript (bad : Event -> bool) (P : Exn -> Prop)
      (script : AppleScript) :
  bad (Osascript script) = false -> (forall e, bridge_error e -> P e) ->
  calm bad 0 P (run_applescript env script).
Proof.
  intros Hbad HP h r h1 H. exists [Osascript script].
  cbn [existsb total_sleep fold_right]. rewrite Hbad.
  destruct (run_applescript_cases env script h) as [[out E]|[msg E]];
    rewrite E in H; injection H as <- <-;
    repeat split; try reflexivity; try lia; try discriminate.
  intros e [= <-]. apply HP. now exists msg.
Qed.

Lemma calm_weaken (bad : Event -> bool) (d d' : Z) (P P' : Exn -> Prop)
      {A} (m : M A) :
  calm bad d P m -> (d <= d')%Z -> (forall e, P e -> P' e) -> calm bad d' P' m.
Proof.
  intros Hm Hd HP h r h1 H.
  destruct (Hm h r h1 H) as (evs & -> & Hb & Hs & He).
  exists evs. repeat split; auto; try lia.
Qed.

Lemma calm_bind (bad : Event -> bool) (d1 d2 : Z) (P : Exn -> Prop)
      {A B} (m : M A) (k : A -> M B) :
  (0 <= d2)%Z ->
  calm bad d1 P m -> (forall a, calm bad d2 P (k a)) ->
  calm bad (d1 + d2) P (bind m k).
Proof.
  intros Hd2 Hm Hk h r h1 H.
  destruct (bind_inv _ _ _ _ _ H) as [(e & Em & ->)|(a & h2 & Em & Ek)].
  - destruct (Hm _ _ _ Em) as (evs & -> & Hb & Hs & He).
    exists evs. repeat split; auto; try lia.
    intros e' [= <-]. now apply He.
  - destruct (Hm _ _ _ Em) as (evs1 & -> & Hb1 & Hs1 & _).
    destruct (Hk a _ _ _ Ek) as (evs2 & -> & Hb2 & Hs2 & He).
    exists (evs2 ++ evs1).
    rewrite app_assoc, existsb_app, Hb1, Hb2, total_sleep_app.
    repeat split; auto; lia.
Qed.

Lemma calm_catch (bad : Event -> bool) (d1 d2 : Z) (P P' : Exn -> Prop)
      {A} (m handler : M A) :
  (0 <= d2)%Z ->
  calm bad d1 P m -> calm bad d2 P' handler ->
  calm bad (d1 + d2) P' (catch m handler).
Proof.
  intros Hd2 Hm Hh h r h1 H. unfold catch in H.
  destruct (m h) as [[[a|e] h2]|] eqn:Em; try discriminate.
  - injection H as <- <-.
    destruct (Hm _ _ _ Em) as (evs & -> & Hb & Hs & _).
    exists evs. repeat split; auto; try lia. discriminate.
  - destruct (Hm _ _ _ Em) as (evs1 & -> & Hb1 & Hs1 & _).
    destruct (Hh _ _ _ H) as (evs2 & -> & Hb2 & Hs2 & He).
    exists (evs2 ++ evs1).
    rewrite app_assoc, existsb_app, Hb1, Hb2, total_sleep_app.
    repeat split; auto; lia.
Qed.

(** *** The three parts of the export *)

Lemma bind_ext {A B} (m : M A) (k1 k2 : A -> M B) (h : History) :
  (forall a h', k1 a h' = k2 a h') -> bind m k1 h = bind m k2 h.
Proof.
  intros H. unfold bind. destruct (m h) as [[[a|e] h1]|]; auto.
Qed.

Ltac assoc_step := rewrite <- bind_assoc; apply bind_ext; intros ? ?.

Lemma fetch_decomposed (report_id : option str) (headless : bool) (timeout : Z)
      (h : History) :
  sync_fetch_expenses_csv env report_id headless timeout h =
  bind (reach_reports env)
       (fun start_time =>
          bind (click_through env)
               (fun _ => wait_for_download env timeout start_time)) h.
Proof.
  unfold sync_fetch_expenses_csv, reach_reports.
  do 3 assoc_step. destruct (negb _); [reflexivity|].
  assoc_step. destruct (_ || _); [reflexivity|].
  apply bind_ext; intros start_time hs. unfold click_through.
  assoc_step. destruct (negb _); [reflexivity|].
  do 2 assoc_step. destruct (negb _); [reflexivity|].
  do 2 assoc_step. destruct (negb _); reflexivity.
Qed.

Lemma login_decomposed (profile : str) (timeout_seconds : Z) (h : History) :
  sync_login_interactive env profile timeout_seconds h =
  bind (run_applescript env Activate)
       (fun _ => bind (is_logged_in env)
                      (fun logged => if logged then ret true
                                     else prompt_and_poll env timeout_seconds)) h.
Proof. reflexivity. Qed.

Lemma calm_step (bad : Event -> bool) (d1 d2 d : Z) (P : Exn -> Prop)
      {A B} (m : M A) (k : A -> M B) :
  calm bad d1 P m -> (forall a, calm bad d2 P (k a)) ->
  (0 <= d2)%Z -> (d1 + d2 <= d)%Z -> calm bad d P (bind m k).
Proof.
  intros Hm Hk H2 Hd.
  apply (calm_weaken bad (d1 + d2) d P P); auto. now apply calm_bind.
Qed.

Lemma calm_set_safari_url (bad : Event -> bool) (P : Exn -> Prop) (url : str) :
  bad (Osascript EnsureWindow) = false -> bad (Osascript (SetURL url)) = false ->
  (forall e, bridge_error e -> P e) ->
  calm bad 0 P (set_safari_url env url).
Proof.
  intros H1 H2 HP. unfold set_safari_url, ensure_safari_window.
  apply (calm_step bad 0 0 0 P); try lia.
  - apply (calm_step bad 0 0 0 P); try lia.
    + now apply calm_run_applescript.
    + intros _. apply calm_ret.
  - intros _. apply (calm_step bad 0 0 0 P); try lia.
    + now apply calm_run_applescript.
    + intros _. apply calm_ret.
Qed.

Lemma calm_await_page_ready (bad : Event -> bool) (P : Exn -> Prop) (n : nat) :
  bad (Sleep 1000) = false ->
  bad (Osascript (DoJavaScript js_count_checkboxes)) = false ->
  calm bad (1000 * Z.of_nat n) P (await_page_ready env n).
Proof.
  intros Hs Hj. induction n as [|n IH]; cbn [await_page_ready].
  - apply calm_ret.
  - apply (calm_step bad 1000 (1000 * Z.of_nat n) _ P); try lia.
    + apply calm_sleep; [lia|exact Hs].
    + intros _. apply (calm_step bad 0 (1000 * Z.of_nat n) _ P); try lia.
      * apply (calm_catch bad 0 0 always P); [lia| |apply calm_ret].
        apply (calm_step bad 0 0 0 always); try lia.
        -- apply calm_run_applescript; [exact Hj|easy].
        -- intros result. destruct (int_float result);
             [apply calm_ret|now apply calm_raise].
      * intros [|]; [|exact IH].
        apply (calm_weaken bad 0 _ P P); [apply calm_ret|lia|auto].
Qed.

Lemma calm_reach_reports :
  calm is_close_or_click 20000 reach_error (reach_reports env).
Proof.
  assert (HP : forall e, bridge_error e -> reach_error e) by (intros e H; now left).
  unfold reach_reports, get_safari_url.
  apply (calm_step _ 0 20000 _ reach_error); try lia.
  { now apply calm_run_applescript. }
  intros _. apply (calm_step _ 0 20000 _ reach_error); try lia.
  { now apply calm_set_safari_url. }
  intros _. apply (calm_step _ 20000 0 _ reach_error); try lia.
  { now apply (calm_await_page_ready is_close_or_click reach_error 20). }
  intros ready. destruct (negb ready).
  { apply calm_raise. right. now left. }
  apply (calm_step _ 0 0 _ reach_error); try lia.
  { now apply calm_run_applescript. }
  intros url. destruct (_ || _).
  { apply calm_raise. right. now right. }
  apply calm_time.
Qed.

Lemma reach_reports_start (h : History) (start_time : Z) (h' : History) :
  reach_reports env h = Some (Ret start_time, h') ->
  start_time = (epoch env + total_sleep h')%Z.
Proof.
  unfold reach_reports. intros H.
  apply bind_inv in H as [(? & ? & [= ])|(? & ? & _ & H)].
  apply bind_inv in H as [(? & ? & [= ])|(? & ? & _ & H)].
  apply bind_inv in H as [(? & ? & [= ])|(ready & ? & _ & H)].
  destruct (negb ready); [discriminate H|].
  apply bind_inv in H as [(? & ? & [= ])|(url & ? & _ & H)].
  destruct (_ || _); [discriminate H|].
  now injection H as <- <-.
Qed.

Lemma calm_click_through :
  calm is_close 1000 click_error (click_through env).
Proof.
  assert (HP : forall e, bridge_error e -> click_error e) by (intros e H; now left).
  unfold click_through, run_javascript.
  apply (calm_step _ 0 1000 _ click_error); try lia.
  { now apply calm_run_applescript. }
  intros r1. destruct (negb _).
  { apply (calm_weaken _ 0 _ click_error click_error); auto; [|lia].
    apply calm_raise. right. now left. }
  apply (calm_step _ 500 500 _ click_error); try lia.
  { now apply calm_sleep. }
  intros _. apply (calm_step _ 0 500 _ click_error); try lia.
  { now apply calm_run_applescript. }
  intros r2. destruct (negb _).
  { apply (calm_weaken _ 0 _ click_error click_error); auto; [|lia].
    apply calm_raise. right. right. now left. }
  apply (calm_step _ 500 0 _ click_error); try lia.
  { now apply calm_sleep. }
  intros _. apply (calm_step _ 0 0 _ click_error); try lia.
  { now apply calm_run_applescript. }
  intros r3. destruct (negb _).
  { apply calm_raise. right. right. now right. }
  apply calm_ret.
Qed.

Lemma click_through_events (h : History) (a : unit) (h' : History) :
  click_through env h = Some (Ret a, h') -> h' = click_events ++ h.
Proof.
  unfold click_through, run_javascript. intros H.
  apply bind_inv in H as [(? & ? & [= ])|(r1 & h1 & H1 & H)].
  destruct (negb _); [discriminate H|].
  apply bind_inv in H as [(? & ? & [= ])|(? & h2 & [= _ <-] & H)].
  apply bind_inv in H as [(? & ? & [= ])|(r2 & h3 & H2 & H)].
  destruct (negb _); [discriminate H|].
  apply bind_inv in H as [(? & ? & [= ])|(? & h4 & [= _ <-] & H)].
  apply bind_inv in H as [(? & ? & [= ])|(r3 & h5 & H3 & H)].
  destruct (negb _); [discriminate H|].
  injection H as _ <-.
  apply run_applescript_history in H1, H2, H3. now subst.
Qed.

(** *** The wait for the download *)

Lemma pauses_snoc (k : nat) (h : History) :
  pauses k ++ Sleep 500 :: h = pauses (S k) ++ h.
Proof.
  unfold pauses. induction k as [|k IH]; [reflexivity|].
  cbn [repeat app] in *. now rewrite IH.
Qed.

Lemma total_sleep_pauses (k : nat) :
  total_sleep (pauses k) = (500 * Z.of_nat k)%Z.
Proof.
  unfold pauses. induction k as [|k IH]; [reflexivity|].
  cbn [repeat total_sleep fold_right]. fold (total_sleep (repeat (Sleep 500) k)).
  rewrite IH. lia.
Qed.

Lemma closes_pauses (bad : Event -> bool) (k : nat) :
  bad (Sleep 500) = false -> existsb bad (pauses k) = false.
Proof.
  intros H. unfold pauses. induction k as [|k IH]; [reflexivity|].
  cbn [repeat existsb]. now rewrite H, IH.
Qed.

Lemma accepts_readable (now max_age_seconds : Z) (f : CsvFile) :
  accepts now max_age_seconds f = true -> exists content, read_text f = Some content.
Proof.
  unfold accepts. destruct (_ <? _)%Z; [discriminate|].
  destruct (read_text f) as [content|]; [eauto|discriminate].
Qed.

(** How the wait ends: after [k] pauses of half a second, each begun before
    the deadline, either with the deadline reached and the failure, or before
    the deadline with a file the scan found then, modified after
    [start_time]; in both cases the tab is closed last. *)
Lemma await_download_shape (fuel : nat) (start_time end_time : Z)
      (h : History) (out : res (str * str)) (h' : History) :
  await_download env fuel start_time end_time h = Some (out, h') ->
  exists k,
    let now := (epoch env + total_sleep h + 500 * Z.of_nat k)%Z in
    h' = Osascript CloseTab :: pauses k ++ h
    /\ (k = O \/ (now - 500 < end_time)%Z)
    /\ ((out = Raise no_export_found /\ (end_time <= now)%Z)
        \/ (exists f content,
              out = Ret (content, stem (name f))
              /\ find (accepts now (Z.quot (now - start_time + 5000) 1000))
                      (firstn 10 (sorted_by_mtime (glob_csv env (pauses k ++ h))))
                 = Some f
              /\ (start_time < st_mtime f)%Z
              /\ read_text f = Some content
              /\ (now < end_time)%Z)).
Proof.
  revert h. induction fuel as [|n IH]; intros h; cbn [await_download];
    unfold bind at 1, time at 1;
    destruct (Z.ltb_spec (epoch env + total_sleep h) end_time) as [Hlt|Hge].
  - discriminate.
  - unfold bind. rewrite close_safari_tab_run. intros [= <- <-].
    exists O. cbn [pauses repeat app Z.of_nat]. rewrite Z.mul_0_r, Z.add_0_r.
    split; [reflexivity|]. split; [now left|]. left. split; [reflexivity|lia].
  - assert (Hnext : await_download env n start_time end_time (Sleep 500 :: h)
                    = Some (out, h') ->
                    exists k,
                      let now := (epoch env + total_sleep h + 500 * Z.of_nat k)%Z in
                      h' = Osascript CloseTab :: pauses k ++ h
                      /\ (k = O \/ (now - 500 < end_time)%Z)
                      /\ ((out = Raise no_export_found /\ (end_time <= now)%Z)
                          \/ (exists f content,
                                out = Ret (content, stem (name f))
                                /\ find (accepts now (Z.quot (now - start_time + 5000) 1000))
                                        (firstn 10 (sorted_by_mtime
                                                      (glob_csv env (pauses k ++ h))))
                                   = Some f
                                /\ (start_time < st_mtime f)%Z
                                /\ read_text f = Some content
                                /\ (now < end_time)%Z))).
    { intros H. destruct (IH _ H) as (k & Hh & Hk & Hout).
      exists (S k). cbv zeta in *.
      cbn [total_sleep fold_right] in Hh, Hk, Hout.
      fold (total_sleep h) in Hh, Hk, Hout.
      rewrite pauses_snoc in Hh, Hout.
      replace (epoch env + (500 + total_sleep h) + 500 * Z.of_nat k)%Z
        with (epoch env + total_sleep h + 500 * Z.of_nat (S k))%Z in Hk, Hout
        by lia.
      split; [exact Hh|]. split; [|exact Hout].
      right. destruct Hk as [->|Hk]; [cbn; lia|lia]. }
    unfold bind at 1, find_latest_expensify_csv, bind, time.
    destruct (find _ _) as [f|] eqn:Ef; [|exact Hnext].
    destruct (Z.ltb_spec start_time (st_mtime f)) as [Hs|Hs]; [|exact Hnext].
    destruct (accepts_readable _ _ _ (proj2 (find_some _ _ Ef))) as [content Hc].
    rewrite Hc, close_safari_tab_run. intros [= <- <-].
    exists O. cbn [pauses repeat app Z.of_nat]. rewrite Z.mul_0_r, Z.add_0_r.
    split; [reflexivity|]. split; [now left|]. right.
    exists f, content. repeat split; auto.
  - unfold bind. rewrite close_safari_tab_run. intros [= <- <-].
    exists O. cbn [pauses repeat app Z.of_nat]. rewrite Z.mul_0_r, Z.add_0_r.
    split; [reflexivity|]. split; [now left|]. left. split; [reflexivity|lia].
Qed.

(** *** The session probe and the polling of the login *)

Lemma calm_is_logged_in (bad : Event -> bool) (P : Exn -> Prop) :
  bad (Osascript Activate) = false -> bad (Osascript EnsureWindow) = false ->
  bad (Osascript (SetURL reports_url)) = false -> bad (Sleep 3000) = false ->
  bad (Osascript GetURL) = false ->
  calm bad 3000 P (is_logged_in env).
Proof.
  intros Ha He Hs Hz Hg. unfold is_logged_in, get_safari_url.
  apply (calm_weaken bad (3000 + 0) 3000 P P); [|lia|auto].
  apply (calm_catch bad 3000 0 always P); [lia| |apply calm_ret].
  apply (calm_step bad 0 3000 3000 always); try lia.
  { now apply calm_run_applescript. }
  intros _. apply (calm_step bad 0 3000 3000 always); try lia.
  { now apply calm_set_safari_url. }
  intros _. apply (calm_step bad 3000 0 3000 always); try lia.
  { apply calm_sleep; [lia|exact Hz]. }
  intros _. apply (calm_step bad 0 0 0 always); try lia.
  { now apply calm_run_applescript. }
  intros url. apply calm_ret.
Qed.

Lemma returns_is_logged_in : returns (is_logged_in env).
Proof.
  unfold is_logged_in, get_safari_url.
  apply returns_catch; [|discriminate].
  apply returns_bind; [apply returns_run_applescript|intros _].
  apply returns_bind; [apply returns_set_safari_url|intros _].
  apply returns_bind; [discriminate|intros _].
  apply returns_bind; [apply returns_run_applescript|intros url].
  discriminate.
Qed.

Lemma is_logged_in_true_url (h h' : History) :
  is_logged_in env h = Some (Ret true, h') ->
  contains (py "/reports") (probed_url env h) = true
  /\ contains (py "sign-in") (lower (probed_url env h)) = false.
Proof.
  unfold is_logged_in, catch, get_safari_url.
  match goal with
  | |- match ?body with _ => _ end = _ -> _ =>
      destruct body as [[[b|e] h2]|] eqn:E
  end; [|intros [= ]|intros [= ]].
  intros [= -> ->].
  apply bind_inv in E as [(? & ? & [= ])|(? & ha & Ha & E)].
  apply bind_inv in E as [(? & ? & [= ])|(? & hb & Hb & E)].
  apply bind_inv in E as [(? & ? & [= ])|(? & hc & [= _ <-] & E)].
  apply bind_inv in E as [(? & ? & [= ])|(url & hd & Hd & [= Hu _])].
  apply run_applescript_history in Ha.
  apply set_safari_url_history in Hb. subst ha hb.
  unfold run_applescript in Hd.
  destruct (returncode _ =? 0)%Z; [|discriminate Hd].
  injection Hd as <- _. fold (probed_url env h) in Hu.
  apply andb_prop in Hu as [H1 H2]. split; [exact H1|].
  now apply negb_true_iff in H2.
Qed.

Lemma calm_login_poll (bad : Event -> bool) (P : Exn -> Prop) :
  bad (Osascript Activate) = false -> bad (Osascript EnsureWindow) = false ->
  bad (Osascript (SetURL reports_url)) = false -> bad (Sleep 3000) = false ->
  bad (Osascript GetURL) = false -> bad login_successful = false ->
  calm bad 3000 P (login_poll env).
Proof.
  intros Ha He Hs Hz Hg Hp. unfold login_poll, get_safari_url.
  apply (calm_weaken bad (3000 + 0) 3000 P P); [|lia|auto].
  apply (calm_catch bad 3000 0 always P); [lia| |apply calm_ret].
  apply (calm_step bad 0 3000 3000 always); try lia.
  { now apply calm_run_applescript. }
  intros url. destruct (_ && _).
  - apply (calm_step bad 3000 0 3000 always); try lia.
    { now apply calm_is_logged_in. }
    intros [|]; [|apply calm_ret].
    apply (calm_step bad 0 0 0 always); try lia.
    { now apply calm_print. }
    intros _. apply calm_ret.
  - apply (calm_weaken bad 0 3000 always always); [apply calm_ret|lia|auto].
Qed.

Lemma returns_login_poll : returns (login_poll env).
Proof.
  unfold login_poll, get_safari_url.
  apply returns_catch; [|discriminate].
  apply returns_bind; [apply returns_run_applescript|intros url].
  destruct (_ && _); [|discriminate].
  apply returns_bind; [apply returns_is_logged_in|intros [|]]; discriminate.
Qed.

Lemma login_poll_true (h h' : History) :
  login_poll env h = Some (Ret true, h') ->
  h' = login_successful :: probe_events ++ Osascript GetURL :: h
  /\ contains (py "/reports") (probed_url env (Osascript GetURL :: h)) = true
  /\ contains (py "sign-in")
       (lower (probed_url env (Osascript GetURL :: h))) = false.
Proof.
  unfold login_poll, catch, get_safari_url.
  match goal with
  | |- match ?body with _ => _ end = _ -> _ =>
      destruct body as [[[b|e] h2]|] eqn:E
  end; [|intros [= ]|intros [= ]].
  intros [= -> ->].
  apply bind_inv in E as [(? & ? & [= ])|(url & h1 & H1 & E)].
  apply run_applescript_history in H1. subst h1.
  destruct (_ && _); [|discriminate E].
  apply bind_inv in E as [(? & ? & [= ])|(logged & h3 & H3 & E)].
  destruct logged; [|discriminate E].
  injection E as <-.
  split; [|exact (is_logged_in_true_url _ _ H3)].
  now rewrite (is_logged_in_true env _ _ H3).
Qed.

Lemma login_poll_run (bad : Event -> bool) (h : History) :
  bad (Osascript Activate) = false -> bad (Osascript EnsureWindow) = false ->
  bad (Osascript (SetURL reports_url)) = false -> bad (Sleep 3000) = false ->
  bad (Osascript GetURL) = false -> bad login_successful = false ->
  exists done evs,
    login_poll env h = Some (Ret done, evs ++ h)
    /\ existsb bad evs = false /\ (0 <= total_sleep evs <= 3000)%Z.
Proof.
  intros Ha He Hs Hz Hg Hp.
  destruct (login_poll env h) as [[r h1]|] eqn:E;
    [|now destruct (returns_login_poll h)].
  destruct (calm_login_poll bad no_exn Ha He Hs Hz Hg Hp h r h1 E)
    as (evs & -> & Hb & Ht & Hr).
  destruct r as [done|e]; [|now destruct (Hr e)].
  now exists done, evs.
Qed.

(** The polling loop: it comes back when the fuel covers the time left, it
    never raises, it ends on one of its two messages, and a turn that begins
    before the deadline ends less than six seconds after it. *)
Lemma login_loop_returns (fuel : nat) (start timeout_seconds : Z) (h : History) :
  (timeout_seconds * 1000 - (epoch env + total_sleep h - start)
   <= 3000 * Z.of_nat fuel)%Z ->
  login_loop env fuel start timeout_seconds h <> None.
Proof.
  revert h. induction fuel as [|n IH]; intros h Hfuel; cbn [login_loop];
    unfold bind at 1, time at 1;
    destruct (Z.ltb_spec (epoch env + total_sleep h - start)
                         (timeout_seconds * 1000)) as [Hlt|Hge];
    try discriminate.
  - cbn [Z.of_nat] in Hfuel. lia.
  - unfold bind at 1, sleep at 1.
    destruct (login_poll_run any_event (Sleep 3000 :: h))
      as (done & evs & E & _ & Ht); try reflexivity.
    unfold bind at 1. rewrite E. destruct done; [discriminate|].
    apply IH. rewrite total_sleep_app. cbn [total_sleep fold_right].
    fold (total_sleep h). lia.
Qed.

Lemma login_loop_shape (fuel : nat) (start timeout_seconds : Z) (h : History)
      (out : res bool) (h' : History) :
  login_loop env fuel start timeout_seconds h = Some (out, h') ->
  exists evs,
    h' = evs ++ h
    /\ existsb is_close_or_click evs = false
    /\ (0 <= total_sleep evs)%Z
    /\ (total_sleep evs = 0
        \/ epoch env + total_sleep h' - start < timeout_seconds * 1000 + 6000)%Z
    /\ ((out = Ret false
         /\ (exists evs', evs = login_timed_out :: evs')
         /\ (timeout_seconds * 1000 <= epoch env + total_sleep h' - start)%Z)
        \/ (out = Ret true
            /\ exists hs, h' = login_successful :: probe_events ++ hs
               /\ contains (py "/reports") (probed_url env hs) = true
               /\ contains (py "sign-in") (lower (probed_url env hs)) = false)).
Proof.
  revert h. induction fuel as [|n IH]; intros h; cbn [login_loop];
    unfold bind at 1, time at 1;
    destruct (Z.ltb_spec (epoch env + total_sleep h - start)
                         (timeout_seconds * 1000)) as [Hlt|Hge].
  - discriminate.
  - intros [= <- <-]. exists [login_timed_out].
    cbn [app total_sleep fold_right]. fold (total_sleep h).
    repeat split; try reflexivity; try lia; [now left|].
    left. repeat split; [now exists []|lia].
  - unfold bind at 1, sleep at 1.
    destruct (login_poll_run is_close_or_click (Sleep 3000 :: h))
      as (done & evs & E & Hb & Ht); try reflexivity.
    unfold bind at 1. rewrite E. destruct done.
    + intros [= <- <-]. apply login_poll_true in E as (E & Hu1 & Hu2).
      exists (evs ++ [Sleep 3000]). rewrite <- app_assoc. cbn [app].
      rewrite existsb_app, Hb. rewrite !total_sleep_app.
      cbn [total_sleep fold_right existsb]. fold (total_sleep h).
      repeat split; try reflexivity; try lia.
      right. split; [reflexivity|].
      exists (Osascript GetURL :: Sleep 3000 :: h). now split.
    + intros H. destruct (IH _ H) as (evs2 & -> & Hb2 & H0 & Hbound & Hout).
      exists (evs2 ++ evs ++ [Sleep 3000]).
      rewrite <- !app_assoc. cbn [app].
      rewrite !existsb_app, Hb, Hb2.
      rewrite !total_sleep_app in *. cbn [total_sleep fold_right existsb] in *.
      fold (total_sleep h) in *.
      repeat split; try reflexivity; try lia.
      destruct Hout as [(-> & (evs' & ->) & Hd)|(-> & Hs)].
      * left. repeat split; [|lia].
        exists (evs' ++ evs ++ [Sleep 3000]). reflexivity.
      * right. split; [reflexivity|exact Hs].
  - intros [= <- <-]. exists [login_timed_out].
    cbn [app total_sleep fold_right]. fold (total_sleep h).
    repeat split; try reflexivity; try lia; [now left|].
    left. repeat split; [now exists []|lia].
Qed.

(** *** The login *)

Lemma existsb_loud (evs : list Event) :
  existsb loud evs = false ->
  existsb is_close_or_click evs = false /\ existsb is_print evs = false.
Proof.
  induction evs as [|ev evs IH]; [now split|].
  cbn [existsb]. unfold loud at 1. intros H.
  apply orb_false_iff in H as [H1 H2].
  apply orb_false_iff in H1 as [H1 H3].
  destruct (IH H2) as [-> ->]. now rewrite H1, H3.
Qed.

Lemma enough_fuel_for_login (timeout_seconds : Z) :
  (timeout_seconds * 1000
   <= 3000 * Z.of_nat (S (Z.to_nat (timeout_seconds * 1000 / 3000))))%Z.
Proof.
  destruct (Z.le_gt_cases 0 (timeout_seconds * 1000)) as [Hpos|Hneg]; [|lia].
  rewrite Nat2Z.inj_succ, Z2Nat.id by (apply Z.div_pos; lia).
  pose proof (Z.mul_succ_div_gt (timeout_seconds * 1000) 3000). lia.
Qed.

Lemma returns_login (profile : str) (timeout_seconds : Z) :
  returns (sync_login_interactive env profile timeout_seconds).
Proof.
  unfold sync_login_interactive.
  apply returns_bind; [apply returns_run_applescript|intros _].
  apply returns_bind; [apply returns_is_logged_in|intros [|]]; [discriminate|].
  apply returns_bind; [apply returns_set_safari_url|intros _].
  apply returns_bind; [discriminate|intros _].
  intros h. unfold bind at 1, time at 1.
  apply login_loop_returns.
  pose proof (enough_fuel_for_login timeout_seconds). lia.
Qed.

(** Every way a login can end. *)
Lemma login_shape (profile : str) (timeout_seconds : Z) (h : History)
      (out : res bool) (h' : History) :
  sync_login_interactive env profile timeout_seconds h = Some (out, h') ->
  exists evs,
    h' = evs ++ h
    /\ existsb is_close_or_click evs = false
    /\ (0 <= total_sleep evs
        <= 3000 + Z.max 0 (timeout_seconds * 1000 + 6000))%Z
    /\ (forall e, out = Raise e ->
          bridge_error e /\ existsb is_print evs = false
          /\ (total_sleep evs <= 3000)%Z)
    /\ (out = Ret false ->
          exists polled before,
            evs = login_timed_out :: polled
                  ++ Print (py "Please log in to Expensify in Safari.")
                  :: Osascript (SetURL signin_url) :: Osascript EnsureWindow
                  :: before)
    /\ (out = Ret true ->
          exists hs,
            (h' = probe_events ++ hs \/ h' = login_successful :: probe_events ++ hs)
            /\ contains (py "/reports") (probed_url env hs) = true
            /\ contains (py "sign-in") (lower (probed_url env hs)) = false).
Proof.
  rewrite login_decomposed. intros H.
  assert (Hbridge : forall e, bridge_error e -> bridge_error e) by auto.
  apply bind_inv in H as [(e & Ha & ->)|(a & h1 & Ha & H)];
    destruct (calm_run_applescript loud bridge_error Activate
                eq_refl Hbridge _ _ _ Ha) as (evs1 & -> & Hb1 & Ht1 & He1).
  { destruct (existsb_loud _ Hb1) as [Hc1 Hp1].
    exists evs1. repeat split; auto; try lia; try discriminate.
    injection H as <-. now apply He1. }
  apply bind_inv in H as [(e & Hl & ->)|(logged & h2 & Hl & H)];
    destruct (calm_is_logged_in loud no_exn eq_refl eq_refl eq_refl eq_refl
                eq_refl _ _ _ Hl) as (evs2 & -> & Hb2 & Ht2 & He2).
  { now destruct (He2 e). }
  destruct (existsb_loud _ Hb1) as [Hc1 Hp1].
  destruct (existsb_loud _ Hb2) as [Hc2 Hp2].
  destruct logged.
  { injection H as <- <-. exists (evs2 ++ evs1).
    rewrite <- app_assoc, existsb_app, Hc1, Hc2, total_sleep_app.
    repeat split; auto; try lia; try discriminate.
    intros _. exists (evs1 ++ h). split.
    - left. exact (is_logged_in_true env _ _ Hl).
    - exact (is_logged_in_true_url _ _ Hl). }
  unfold prompt_and_poll in H.
  apply bind_inv in H as [(e & Hs & ->)|(? & h3 & Hs & H)];
    destruct (calm_set_safari_url loud bridge_error signin_url
                eq_refl eq_refl Hbridge _ _ _ Hs) as (evs3 & -> & Hb3 & Ht3 & He3);
    destruct (existsb_loud _ Hb3) as [Hc3 Hp3].
  { exists (evs3 ++ evs2 ++ evs1).
    rewrite <- !app_assoc, !existsb_app, Hc1, Hc2, Hc3, Hp1, Hp2, Hp3,
      !total_sleep_app.
    repeat split; auto; try lia; try discriminate.
    injection H as <-. now apply He3. }
  assert (E3 : evs3 = [Osascript (SetURL signin_url); Osascript EnsureWindow]).
  { apply (set_safari_url_history env) in Hs.
    exact (app_inv_tail (evs2 ++ evs1 ++ h) evs3
             [Osascript (SetURL signin_url); Osascript EnsureWindow] Hs). }
  apply bind_inv in H as [(? & [= ] & _)|(? & h4 & [= _ <-] & H)].
  apply bind_inv in H as [(? & [= ] & _)|(start & h5 & [= <- <-] & H)].
  apply login_loop_shape in H as (evsL & -> & HbL & H0 & Hbound & Hout).
  exists (evsL ++ [Print (py "Please log in to Expensify in Safari.")]
            ++ evs3 ++ evs2 ++ evs1).
  rewrite <- !app_assoc. cbn [app].
  rewrite !existsb_app. cbn [existsb].
  rewrite !existsb_app, HbL, Hc1, Hc2, Hc3.
  rewrite !total_sleep_app in *. cbn [total_sleep fold_right] in *.
  fold (total_sleep (evs3 ++ evs2 ++ evs1 ++ h)) in *.
  rewrite !total_sleep_app in *.
  repeat split; auto; try lia.
  - subst out. destruct Hout as [([= ] & _)|([= ] & _)].
  - subst out. destruct Hout as [([= ] & _)|([= ] & _)].
  - subst out. destruct Hout as [([= ] & _)|([= ] & _)].
  - intros ->. destruct Hout as [(_ & (evs' & ->) & _)|([= ] & _)].
    exists evs', (evs2 ++ evs1). now rewrite E3.
  - intros ->. destruct Hout as [([= ] & _)|(_ & hs & Hh & Hu)].
    exists hs. split; [now right|exact Hu].
Qed.

(** X11: sync_login_interactive raises only when the bridge fails, and then
    before it has printed its prompt: once the user has been asked to log in,
    the call ends on [True] or on [False]. *)
Theorem login_raises_only_before_prompt
    (profile : str) (timeout_seconds : Z) (h : History) (e : Exn) (h' : History) :
  sync_login_interactive env profile timeout_seconds h = Some (Raise e, h') ->
  bridge_error e
  /\ exists evs, h' = evs ++ h /\ existsb is_print evs = false.
Proof.
  intros H. apply login_shape in H as (evs & -> & _ & _ & He & _).
  destruct (He e eq_refl) as (Hb & Hp & _). split; [exact Hb|].
  now exists evs.
Qed.

(** X12: sync_login_interactive always comes back; it never closes the tab and
    never clicks in the page, and it sleeps for no more than three seconds
    plus the time-out plus six seconds. *)
Theorem login_ends_within_bound
    (profile : str) (timeout_seconds : Z) (h : History) :
  exists out evs,
    sync_login_interactive env profile timeout_seconds h = Some (out, evs ++ h)
    /\ existsb is_close_or_click evs = false
    /\ (0 <= total_sleep evs
        <= 3000 + Z.max 0 (timeout_seconds * 1000 + 6000))%Z.
Proof.
  destruct (sync_login_interactive env profile timeout_seconds h)
    as [[out h']|] eqn:E; [|now destruct (returns_login profile timeout_seconds h)].
  destruct (login_shape _ _ _ _ _ E) as (evs & -> & Hc & Ht & _).
  now exists out, evs.
Qed.

(** X13: sync_login_interactive returns [False] only by its time-out: it has
    opened the sign-in page and printed its prompt before, and the message
    of the time-out is the last thing it does. *)
Theorem login_false_only_by_time_out
    (profile : str) (timeout_seconds : Z) (h h' : History) :
  sync_login_interactive env profile timeout_seconds h = Some (Ret false, h') ->
  exists polled before,
    h' = login_timed_out :: polled
         ++ Print (py "Please log in to Expensify in Safari.")
         :: Osascript (SetURL signin_url) :: Osascript EnsureWindow
         :: before ++ h.
Proof.
  intros H. apply login_shape in H as (evs & -> & _ & _ & _ & Hf & _).
  destruct (Hf eq_refl) as (polled & before & ->).
  exists polled, before. cbn [app]. rewrite <- app_assoc. reflexivity.
Qed.

(** X14: sync_login_interactive returns [True] only straight after a session
    probe in which the tab showed an address with /reports and without
    sign-in. *)
Theorem login_true_only_on_reports_address
    (profile : str) (timeout_seconds : Z) (h h' : History) :
  sync_login_interactive env profile timeout_seconds h = Some (Ret true, h') ->
  exists hs,
    (h' = probe_events ++ hs \/ h' = login_successful :: probe_events ++ hs)
    /\ contains (py "/reports") (probed_url env hs) = true
    /\ contains (py "sign-in") (lower (probed_url env hs)) = false.
Proof.
  intros H. apply login_shape in H as (evs & -> & _ & _ & _ & _ & Ht).
  exact (Ht eq_refl).
Qed.

(** *** The export *)

Lemma In_firstn {A} (n : nat) (l : list A) (x : A) : In x (firstn n l) -> In x l.
Proof.
  revert l. induction n as [|n IH]; intros [|y l]; cbn [firstn In]; auto;
    try contradiction.
  intros [->|H]; auto.
Qed.

Lemma accepts_looks_like_export (now max_age_seconds : Z) (f : CsvFile) (content : str) :
  accepts now max_age_seconds f = true -> read_text f = Some content ->
  contains (py "Merchant") content || contains (py "Amount") content
  || contains (py "Expensify") (name f) = true.
Proof.
  unfold accepts. intros H Hc. rewrite Hc in H.
  now destruct (_ <? _)%Z.
Qed.

Lemma not_logged_in_not_click : ~ click_error not_logged_in.
Proof.
  unfold click_error, bridge_error.
  intros [[msg H]|[H|[H|H]]]; vm_compute in H; discriminate H.
Qed.

Lemma page_not_ready_not_click : ~ click_error page_not_ready.
Proof.
  unfold click_error, bridge_error.
  intros [[msg H]|[H|[H|H]]]; vm_compute in H; discriminate H.
Qed.

(** Every way an export can end: in its first part, in its second, or after
    the wait for the download. *)
Lemma fetch_shape (report_id : option str) (headless : bool) (timeout : Z)
      (h : History) (out : res (str * str)) (h' : History) :
  sync_fetch_expenses_csv env report_id headless timeout h = Some (out, h') ->
  (exists e evs,
      out = Raise e /\ reach_error e /\ h' = evs ++ h
      /\ existsb is_close_or_click evs = false
      /\ (0 <= total_sleep evs <= 20000)%Z)
  \/ (exists e evs,
        out = Raise e /\ click_error e /\ h' = evs ++ h
        /\ existsb is_close evs = false
        /\ (0 <= total_sleep evs <= 21000)%Z)
  \/ (exists evs k,
        let start_time := (epoch env + total_sleep (evs ++ h))%Z in
        let end_time := (start_time + timeout * 1000)%Z in
        let now := (start_time + 1000 + 500 * Z.of_nat k)%Z in
        let hs := pauses k ++ click_events ++ evs ++ h in
        h' = Osascript CloseTab :: hs
        /\ (0 <= total_sleep evs <= 20000)%Z
        /\ (k = O \/ (now - 500 < end_time)%Z)
        /\ ((out = Raise no_export_found /\ (end_time <= now)%Z)
            \/ (exists f content,
                  out = Ret (content, stem (name f))
                  /\ find (accepts now (Z.quot (now - start_time + 5000) 1000))
                          (firstn 10 (sorted_by_mtime (glob_csv env hs)))
                     = Some f
                  /\ (start_time < st_mtime f)%Z
                  /\ read_text f = Some content
                  /\ (now < end_time)%Z))).
Proof.
  rewrite fetch_decomposed. intros H.
  apply bind_inv in H as [(e & H1 & ->)|(start_time & h1 & H1 & H)];
    destruct (calm_reach_reports _ _ _ H1) as (evs1 & -> & Hb1 & Ht1 & He1).
  { left. exists e, evs1. repeat split; auto; lia. }
  apply reach_reports_start in H1. right.
  apply bind_inv in H as [(e & H2 & ->)|(? & h2 & H2 & H)];
    destruct (calm_click_through _ _ _ H2) as (evs2 & E2 & Hb2 & Ht2 & He2).
  { left. exists e, (evs2 ++ evs1). rewrite E2, <- app_assoc.
    rewrite existsb_app, Hb2, total_sleep_app.
    repeat split; auto; try lia.
    apply orb_false_iff. split; [reflexivity|].
    clear - Hb1. induction evs1 as [|ev evs IH]; [reflexivity|].
    cbn [existsb] in *. unfold is_close_or_click at 1 in Hb1.
    apply orb_false_iff in Hb1 as [Hc Hr].
    apply orb_false_iff in Hc as [-> _]. now apply IH. }
  right. clear E2 Hb2 Ht2 He2 evs2.
  apply click_through_events in H2. subst h2.
  unfold wait_for_download, bind at 1, time at 1 in H.
  apply await_download_shape in H as (k & Hh & Hk & Hout).
  exists evs1, k. cbv zeta in *.
  assert (Hnow : (epoch env + total_sleep (click_events ++ evs1 ++ h)
                  = start_time + 1000)%Z).
  { rewrite total_sleep_app. change (total_sleep click_events) with 1000%Z. lia. }
  rewrite Hnow in Hk, Hout. subst start_time.
  repeat split; auto; lia.
Qed.

(** X15: What sync_fetch_expenses_csv returns is the text and the stem of a file
    that was in Downloads when the tab was closed: its name ends in .csv, it
    was modified after the call began, and its text or its name looks like
    an export. *)
Theorem fetch_returns_fresh_download
    (report_id : option str) (headless : bool) (timeout : Z)
    (h : History) (content label : str) (h' : History) :
  sync_fetch_expenses_csv env report_id headless timeout h
    = Some (Ret (content, label), h') ->
  exists f hs,
    h' = Osascript CloseTab :: hs
    /\ In f (downloads env hs)
    /\ endswith (py ".csv") (name f) = true
    /\ read_text f = Some content
    /\ label = stem (name f)
    /\ (epoch env + total_sleep h < st_mtime f)%Z
    /\ contains (py "Merchant") content || contains (py "Amount") content
       || contains (py "Expensify") (name f) = true.
Proof.
  intros H.
  apply fetch_shape in H
    as [(e & evs & [= ] & _)|[(e & evs & [= ] & _)|(evs & k & H)]].
  cbv zeta in H. destruct H as (-> & Ht & _ & [([= ] & _)|Hf]).
  destruct Hf as (f & content' & [= -> ->] & Hfind & Hnew & Hread & _).
  exists f, (pauses k ++ click_events ++ evs ++ h).
  destruct (find_some _ _ Hfind) as [Hin Hacc].
  apply In_firstn in Hin.
  apply (Permutation_in _ (sorted_by_mtime_perm _)) in Hin.
  apply filter_In in Hin as [Hin Hcsv].
  rewrite total_sleep_app in Hnew.
  repeat split; auto; try lia.
  exact (accepts_looks_like_export _ _ _ _ Hacc Hread).
Qed.

(** X16: With a time-out of a second or less sync_fetch_expenses_csv never
    returns a file: the second the clicks take has used the time-out up
    before the first look at Downloads. *)
Theorem fetch_short_timeout_never_succeeds
    (report_id : option str) (headless : bool) (timeout : Z)
    (h : History) (out : res (str * str)) (h' : History) :
  (timeout <= 1)%Z ->
  sync_fetch_expenses_csv env report_id headless timeout h = Some (out, h') ->
  is_ret out = false.
Proof.
  intros Ht H.
  apply fetch_shape in H
    as [(e & evs & -> & _)|[(e & evs & -> & _)|(evs & k & H)]];
    try reflexivity.
  cbv zeta in H. destruct H as (_ & _ & _ & [(-> & _)|Hf]); [reflexivity|].
  destruct Hf as (f & content & _ & _ & _ & _ & Hnow). lia.
Qed.

(** X17: sync_fetch_expenses_csv always comes back, and it sleeps for no more
    than twenty-one seconds plus the time-out less half a second. *)
Theorem fetch_ends_within_bound
    (report_id : option str) (headless : bool) (timeout : Z) (h : History) :
  exists out evs,
    sync_fetch_expenses_csv env report_id headless timeout h
      = Some (out, evs ++ h)
    /\ (0 <= total_sleep evs <= 21000 + Z.max 0 (timeout * 1000 - 500))%Z.
Proof.
  destruct (sync_fetch_expenses_csv env report_id headless timeout h)
    as [[out h']|] eqn:E;
    [|now destruct (returns_sync_fetch env report_id headless timeout h)].
  exists out.
  apply fetch_shape in E
    as [(e & evs & _ & _ & -> & _ & Ht)|[(e & evs & _ & _ & -> & _ & Ht)
                                        |(evs & k & H)]].
  - exists evs. split; [reflexivity|lia].
  - exists evs. split; [reflexivity|lia].
  - cbv zeta in H. destruct H as (-> & Ht & Hk & _).
    exists (Osascript CloseTab :: pauses k ++ click_events ++ evs).
    split; [cbn [app]; now rewrite <- !app_assoc|].
    cbn [total_sleep fold_right].
    fold (total_sleep (pauses k ++ click_events ++ evs)).
    rewrite !total_sleep_app, total_sleep_pauses.
    change (total_sleep click_events) with 1000%Z. lia.
Qed.

(** X18: When sync_fetch_expenses_csv fails because the page did not load or
    because the session is not logged in, it has clicked nothing and has
    left the tab open. *)
Theorem fetch_session_errors_touch_nothing
    (report_id : option str) (headless : bool) (timeout : Z)
    (h : History) (e : Exn) (h' : History) :
  e = page_not_ready \/ e = not_logged_in ->
  sync_fetch_expenses_csv env report_id headless timeout h = Some (Raise e, h') ->
  exists evs, h' = evs ++ h /\ existsb is_close_or_click evs = false.
Proof.
  intros He H.
  apply fetch_shape in H
    as [(e1 & evs & [= <-] & _ & -> & Hb & _)
       |[(e1 & evs & [= <-] & Hc & _)|(evs & k & H)]].
  - now exists evs.
  - destruct He as [-> | ->];
      [now destruct page_not_ready_not_click|now destruct not_logged_in_not_click].
  - cbv zeta in H. destruct H as (_ & _ & _ & [([= ->] & _)|Hf]).
    + destruct He as [He|He]; vm_compute in He; discriminate He.
    + destruct Hf as (f & content & [= ] & _).
Qed.

(** X19: A RuntimeError of sync_fetch_expenses_csv is a failure of the bridge or
    one of its own six; format_error, given its message, reports the missing
    session as Not logged in and each of the other five as it is, the page
    that did not load within twenty seconds included: none of them counts as
    a time-out. *)
Theorem fetch_errors_as_reported
    (report_id : option str) (headless : bool) (timeout : Z)
    (h : History) (msg : str) (h' : History) :
  sync_fetch_expenses_csv env report_id headless timeout h
    = Some (Raise (RuntimeError msg), h') ->
  bridge_error (RuntimeError msg)
  \/ (RuntimeError msg = not_logged_in
      /\ Server.format_error msg
         = [ (py "error", py "Not logged in");
             (py "message",
              py "Please run expensify_login first to authenticate.") ])
  \/ Server.format_error msg = [ (py "error", msg) ].
Proof.
  intros H.
  apply fetch_shape in H
    as [(e1 & evs & [= <-] & [Hb|[E|E]] & _)
       |[(e1 & evs & [= <-] & [Hb|[E|[E|E]]] & _)|(evs & k & H)]].
  - now left.
  - right. right. injection E as ->. reflexivity.
  - right. left. split; [exact E|]. injection E as ->. reflexivity.
  - now left.
  - right. right. injection E as ->. reflexivity.
  - right. right. injection E as ->. reflexivity.
  - right. right. injection E as ->. reflexivity.
  - cbv zeta in H. destruct H as (_ & _ & _ & [([= ->] & _)|Hf]).
    + right. right. reflexivity.
    + destruct Hf as (f & content & [= ] & _).
Qed.

(** X10: is_logged_in never raises: it answers after three seconds of sleep at
    most, and [True] only after the whole probe, when the tab showed an
    address with /reports and without sign-in. *)
Theorem is_logged_in_never_raises (h : History) :
  exists logged evs,
    is_logged_in env h = Some (Ret logged, evs ++ h)
    /\ (0 <= total_sleep evs <= 3000)%Z
    /\ (logged = true ->
        evs = probe_events
        /\ contains (py "/reports") (probed_url env h) = true
        /\ contains (py "sign-in") (lower (probed_url env h)) = false).
Proof.
  destruct (is_logged_in env h) as [[r h1]|] eqn:E;
    [|now destruct (returns_is_logged_in h)].
  destruct (calm_is_logged_in any_event no_exn eq_refl eq_refl eq_refl eq_refl
              eq_refl _ _ _ E) as (evs & -> & _ & Ht & Hr).
  destruct r as [logged|e]; [|now destruct (Hr e)].
  exists logged, evs. repeat split; try lia.
  - subst logged. apply (is_logged_in_true env) in E.
    change (evs ++ h = probe_events ++ h) in E.
    now apply app_inv_tail in E.
  - subst logged. now apply is_logged_in_true_url in E.
  - subst logged. now apply is_logged_in_true_url in E.
Qed.

End MoreRuns.

(** *** A tab on one address *)

Lemma bind_run {A B} (m : M A) (k : A -> M B) (h : History) (a : A) (h1 : History) :
  m h = Some (Ret a, h1) -> bind m k h = k a h1.
Proof. intros H. unfold bind. now rewrite H. Qed.

Lemma run_at_url (u : str) (script : AppleScript) (h : History) :
  run_applescript (env_at_url u) script h
  = Some (Ret (strip (stdout (osascript (env_at_url u) h script))),
          Osascript script :: h).
Proof. destruct script as [| | | |[]|]; reflexivity. Qed.

Lemma set_safari_url_at_url (u url : str) (h : History) :
  set_safari_url (env_at_url u) url h
  = Some (Ret tt, Osascript (SetURL url) :: Osascript EnsureWindow :: h).
Proof. reflexivity. Qed.

Lemma is_logged_in_at_url (u : str) (h : History) :
  is_logged_in (env_at_url u) h
  = Some (Ret (contains (py "/reports") (strip u)
               && negb (contains (py "sign-in") (lower (strip u)))),
          probe_events ++ h).
Proof. reflexivity. Qed.

Lemma await_page_ready_at_url (u : str) (h : History) :
  await_page_ready (env_at_url u) 20 h
  = Some (Ret true,
          Osascript (DoJavaScript js_count_checkboxes) :: Sleep 1000 :: h).
Proof. reflexivity. Qed.

(** X20: The two tests of the session disagree: on an address of the reports
    page that has signin in it, and no sign-in, the login answers that the
    session is logged in and the export fails as not logged in. *)
Theorem login_and_export_disagree
    (u profile : str) (timeout_seconds : Z)
    (report_id : option str) (headless : bool) (timeout : Z) (h : History) :
  contains (py "/reports") (strip u) = true ->
  contains (py "sign-in") (lower (strip u)) = false ->
  contains (py "signin") (lower (strip u)) = true ->
  sync_login_interactive (env_at_url u) profile timeout_seconds h
    = Some (Ret true, probe_events ++ Osascript Activate :: h)
  /\ sync_fetch_expenses_csv (env_at_url u) report_id headless timeout h
     = Some (Raise not_logged_in,
             Osascript GetURL :: Osascript (DoJavaScript js_count_checkboxes)
             :: Sleep 1000 :: Osascript (SetURL reports_url)
             :: Osascript EnsureWindow :: Osascript Activate :: h).
Proof.
  intros H1 H2 H3. split.
  - unfold sync_login_interactive.
    rewrite (bind_run _ _ _ _ _ (run_at_url u Activate h)).
    rewrite (bind_run _ _ _ _ _ (is_logged_in_at_url u _)).
    now rewrite H1, H2.
  - unfold sync_fetch_expenses_csv.
    rewrite (bind_run _ _ _ _ _ (run_at_url u Activate h)).
    rewrite (bind_run _ _ _ _ _ (set_safari_url_at_url u _ _)).
    rewrite (bind_run _ _ _ _ _ (await_page_ready_at_url u _)).
    cbn [negb]. unfold get_safari_url.
    rewrite (bind_run _ _ _ _ _ (run_at_url u GetURL _)).
    cbn [osascript env_at_url stdout].
    now rewrite H2, H3.
Qed.

(** *** The report of a time-out *)

Lemma first_line_splits (s : str) :
  exists rest, s = Server.first_line s ++ rest
               /\ (rest = [] \/ exists r, rest = 10%N :: r).
Proof.
  induction s as [|c s (rest & IH & Hr)]; cbn [Server.first_line].
  - exists []. now split; [|left].
  - destruct (N.eqb_spec c 10) as [->|Hc].
    + exists (10%N :: s). split; [reflexivity|right; now exists s].
    + exists rest. cbn [app]. now rewrite <- IH.
Qed.

Lemma first_line_no_line_feed (s : str) : ~ In 10%N (Server.first_line s).
Proof.
  induction s as [|c s IH]; cbn [Server.first_line]; [easy|].
  destruct (N.eqb_spec c 10) as [->|Hc]; [easy|].
  intros [H|H]; [now apply Hc|now apply IH].
Qed.

(** X21: When format_error classifies a text as a time-out, the details it gives
    are the text up to its first line feed: a beginning of the text with no
    line feed in it, and the end of the text or a line feed after it. *)
Theorem timeout_details_are_first_line (error_str : str) :
  Server.lookup (py "error") (Server.format_error error_str) = Some (py "Timeout") ->
  exists details rest,
    Server.lookup (py "details") (Server.format_error error_str) = Some details
    /\ error_str = details ++ rest
    /\ ~ In 10%N details
    /\ (rest = [] \/ exists r, rest = 10%N :: r).
Proof.
  unfold Server.format_error.
  destruct (_ || _) eqn:E1; [intros H; vm_compute in H; discriminate H|].
  destruct (contains (py "Not logged in") error_str) eqn:E2;
    [intros H; vm_compute in H; discriminate H|].
  destruct (contains (py "Timeout") error_str) eqn:E3.
  - intros _. destruct (first_line_splits error_str) as (rest & Hs & Hr).
    exists (Server.first_line error_str), rest.
    repeat split; auto. apply first_line_no_line_feed.
  - intros H. change (Some error_str = Some (py "Timeout")) in H.
    injection H as ->. vm_compute in E3. discriminate E3.
Qed.

(** *** The runs of the scenarios *)

Lemma login_raises_only_before_prompt_witness :
  bridge_error (RuntimeError (py "AppleScript error: " ++ py "Safari got an error"))
  /\ exists evs, [Osascript Activate] = evs ++ [] /\ existsb is_print evs = false.
Proof.
  apply (login_raises_only_before_prompt env_bridge_down (py "Work") 120 []).
  reflexivity.
Defined.

Lemma login_false_only_by_time_out_witness :
  exists h',
    sync_login_interactive env_signed_out (py "Work") 3 [] = Some (Ret false, h')
    /\ exists polled before,
         h' = login_timed_out :: polled
              ++ Print (py "Please log in to Expensify in Safari.")
              :: Osascript (SetURL signin_url) :: Osascript EnsureWindow
              :: before ++ [].
Proof.
  eexists. split; [reflexivity|].
  apply (login_false_only_by_time_out env_signed_out (py "Work") 3 []).
  reflexivity.
Defined.

Lemma login_true_only_on_reports_address_witness :
  exists h',
    sync_login_interactive env_export (py "Work") 120 [] = Some (Ret true, h')
    /\ exists hs,
         (h' = probe_events ++ hs \/ h' = login_successful :: probe_events ++ hs)
         /\ contains (py "/reports") (probed_url env_export hs) = true
         /\ contains (py "sign-in") (lower (probed_url env_export hs)) = false.
Proof.
  eexists. split; [reflexivity|].
  apply (login_true_only_on_reports_address env_export (py "Work") 120 []).
  reflexivity.
Defined.

Lemma fetch_returns_fresh_download_witness :
  exists h',
    sync_fetch_expenses_csv env_export None true 60 []
      = Some (Ret (py "Merchant,Amount", py "Expensify_export"), h')
    /\ exists f hs,
         h' = Osascript CloseTab :: hs
         /\ In f (downloads env_export hs)
         /\ endswith (py ".csv") (name f) = true
         /\ read_text f = Some (py "Merchant,Amount")
         /\ py "Expensify_export" = stem (name f)
         /\ (epoch env_export + total_sleep [] < st_mtime f)%Z
         /\ contains (py "Merchant") (py "Merchant,Amount")
            || contains (py "Amount") (py "Merchant,Amount")
            || contains (py "Expensify") (name f) = true.
Proof.
  exists (Osascript CloseTab :: pauses 1 ++ click_events ++ reach_events).
  split; [vm_compute; reflexivity|].
  apply (fetch_returns_fresh_download env_export None true 60 []).
  vm_compute; reflexivity.
Defined.

Lemma fetch_short_timeout_never_succeeds_witness :
  exists out h',
    sync_fetch_expenses_csv env_export None true 1 [] = Some (out, h')
    /\ is_ret out = false.
Proof.
  exists (Raise no_export_found),
    (Osascript CloseTab :: click_events ++ reach_events).
  split; [vm_compute; reflexivity|].
  apply (fetch_short_timeout_never_succeeds env_export None true 1 [] _
           (Osascript CloseTab :: click_events ++ reach_events));
    [lia|vm_compute; reflexivity].
Defined.

Lemma fetch_session_errors_touch_nothing_witness :
  exists h',
    sync_fetch_expenses_csv env_signed_out None true 60 []
      = Some (Raise not_logged_in, h')
    /\ exists evs, h' = evs ++ [] /\ existsb is_close_or_click evs = false.
Proof.
  exists reach_events. split; [vm_compute; reflexivity|].
  apply (fetch_session_errors_touch_nothing env_signed_out None true 60 []
           not_logged_in); [now right|vm_compute; reflexivity].
Defined.

Lemma fetch_errors_as_reported_witness :
  bridge_error (RuntimeError (py "Export button not found"))
  \/ (RuntimeError (py "Export button not found") = not_logged_in
      /\ Server.format_error (py "Export button not found")
         = [ (py "error", py "Not logged in");
             (py "message",
              py "Please run expensify_login first to authenticate.") ])
  \/ Server.format_error (py "Export button not found")
     = [ (py "error", py "Export button not found") ].
Proof.
  apply (fetch_errors_as_reported env_no_export_button None true 60 [] _
           (Osascript (DoJavaScript js_click_export) :: Sleep 500
            :: Osascript (DoJavaScript js_click_checkbox) :: reach_events)).
  vm_compute; reflexivity.
Defined.

Lemma login_and_export_disagree_witness :
  sync_login_interactive (env_at_url reports_after_signin) (py "Work") 120 []
    = Some (Ret true, probe_events ++ [Osascript Activate])
  /\ sync_fetch_expenses_csv (env_at_url reports_after_signin) None true 60 []
     = Some (Raise not_logged_in,
             reach_events).
Proof.
  apply (login_and_export_disagree reports_after_signin (py "Work") 120
           None true 60 []); reflexivity.
Defined.

Lemma timeout_details_are_first_line_witness :
  exists details rest,
    Server.lookup (py "details") (Server.format_error timeout_text) = Some details
    /\ timeout_text = details ++ rest
    /\ ~ In 10%N details
    /\ (rest = [] \/ exists r, rest = 10%N :: r).
Proof.
  apply (timeout_details_are_first_line timeout_text). reflexivity.
Defined.

End HeistExtra.
